(** * gra-system: regional tax dashboard — aggregation, filtering and edit
      reconciliation

    Shallow embedding of the computational core of

      - [src/components/RegionalAnalysis.jsx], which carries the
        Firestore-backed component [RegionalAnalysis], its static variant,
        the component [Dashboard] and the seeding script, and
      - [src/components/TaxSourceBreakdown.jsx].

    The components are React functions; their logic is a handful of pure
    computations over arrays of plain objects, plus event handlers that
    replace cells of component state and talk to a document store.  The
    embedding follows that shape.

      - [JS]: the fragment of JavaScript the handlers rely on.  Numbers are
        IEEE-754 binary64 (Stdlib's [spec_float] at precision 53, so every
        sum, product and quotient rounds as the engine rounds it); values
        are numbers, strings and [undefined]; the coercions ToNumber,
        ToString and ToBoolean, the operators [+ * / < > >= || ===] and the
        builtins [parseFloat], [parseInt], [toLowerCase], [includes] and
        [replace(/,/g, "")] are written out.  Strings are byte strings:
        case mapping and white space are the ASCII ones.
      - Objects are finite maps from property names to values; object
        spread is map union.
      - Component state is a record, a handler is a function from state to
        state.  What React does on its own between handlers (re-rendering,
        re-running the fetch effect) is not implicit: a fetch is the
        transition [fetchRegions].
      - The document store is the list of its documents; which network
        operations go through is an input ([Firestore.Net]).  A handler
        that writes returns the new store and the operations it performed.
        An exception is [None]; where the source catches it the handler
        takes the [catch] branch.
      - [Spec]: the typed data model of the specification (YearRecord,
        Region, AggregateView) and its operations as the specification
        words them, against which the handlers are compared. *)

From Stdlib Require Import ZArith String Ascii List SpecFloat Lia Bool.
From stdpp Require Import gmap strings list.

Open Scope Z_scope.

(* ===================================================================== *)
(** * JavaScript values and operators *)
(* ===================================================================== *)

Module JS.

(** ** Numbers: IEEE-754 binary64 *)

Abbreviation number := spec_float.

Definition prec : Z := 53.
Definition emax : Z := 1024.

Definition NaN : number := S754_nan.
Definition zero : number := S754_zero false.

Definition add : number -> number -> number := SFadd prec emax.
Definition mul : number -> number -> number := SFmul prec emax.
Definition div : number -> number -> number := SFdiv prec emax.
Definition ltb : number -> number -> bool := SFltb.
Definition leb : number -> number -> bool := SFleb.
Definition eqb : number -> number -> bool := SFeqb.

Definition isNaN (x : number) : bool :=
  match x with S754_nan => true | _ => false end.

Definition isZero (x : number) : bool :=
  match x with S754_zero _ => true | _ => false end.

(** [Number.isFinite]. *)
Definition isFinite (x : number) : bool :=
  match x with S754_zero _ | S754_finite _ _ _ => true | _ => false end.

(** The number nearest to an integer. *)
Definition of_Z (z : Z) : number := binary_normalize prec emax z 0 false.

(** The number nearest to [± m × 10^e10], for [0 <= m]: the value denoted
    by a decimal literal.  For a negative exponent the quotient is computed
    to at least 64 bits with a sticky bit below them, so that the final
    rounding to 53 bits is the correct rounding of the exact quotient. *)
Definition of_decimal (neg : bool) (m e10 : Z) : number :=
  if m <=? 0 then S754_zero neg
  else
    let sgn z := if neg then - z else z in
    if 0 <=? e10 then binary_normalize prec emax (sgn (m * 10 ^ e10)) 0 false
    else
      let d := 10 ^ (- e10) in
      let s := Z.max 0 (Z.log2 d - Z.log2 m + 64) in
      let (q, r) := Z.div_eucl (Z.shiftl m s) d in
      let sticky := if r =? 0 then 0 else 1 in
      binary_normalize prec emax (sgn (2 * q + sticky)) (- s - 1) false.

(** ** Strings *)

Definition is_digit (c : ascii) : bool :=
  let n := N.of_nat (nat_of_ascii c) in ((48 <=? n) && (n <=? 57))%N.

Definition digit_val (c : ascii) : Z := Z.of_nat (nat_of_ascii c) - 48.

(** Value of a digit in radix 16, if it is one. *)
Definition hex_val (c : ascii) : option Z :=
  let n := Z.of_nat (nat_of_ascii c) in
  if (48 <=? n) && (n <=? 57) then Some (n - 48)
  else if (97 <=? n) && (n <=? 102) then Some (n - 87)
  else if (65 <=? n) && (n <=? 70) then Some (n - 55)
  else None.

(** White space and line terminators (the ASCII ones: TAB, LF, VT, FF, CR,
    SP).  Property names, region names and form input are modelled as byte
    strings; the non-ASCII white space of ECMAScript is outside the model. *)
Definition is_space (c : ascii) : bool :=
  let n := N.of_nat (nat_of_ascii c) in
  ((9 <=? n) && (n <=? 13) || (n =? 32))%N.

Fixpoint trimStart (s : string) : string :=
  match s with
  | String c s' => if is_space c then trimStart s' else s
  | EmptyString => s
  end.

Fixpoint rev_string (s acc : string) : string :=
  match s with
  | String c s' => rev_string s' (String c acc)
  | EmptyString => acc
  end.

Definition trim (s : string) : string :=
  rev_string (trimStart (rev_string (trimStart s) EmptyString)) EmptyString.

(** [s.toLowerCase()] on the ASCII letters. *)
Definition lower_ascii (c : ascii) : ascii :=
  let n := nat_of_ascii c in
  if ((65 <=? n) && (n <=? 90))%nat then ascii_of_nat (n + 32) else c.

Fixpoint toLowerCase (s : string) : string :=
  match s with
  | String c s' => String (lower_ascii c) (toLowerCase s')
  | EmptyString => EmptyString
  end.

(** [p] is a prefix of [s]. *)
Fixpoint startsWith (s p : string) : bool :=
  match p, s with
  | EmptyString, _ => true
  | String a p', String b s' => Ascii.eqb a b && startsWith s' p'
  | String _ _, EmptyString => false
  end.

(** [s.includes(q)]: [q] occurs in [s] as a substring. *)
Fixpoint includes (s q : string) : bool :=
  startsWith s q ||
  match s with
  | String _ s' => includes s' q
  | EmptyString => false
  end.

(** [s.replace(/,/g, "")]. *)
Fixpoint stripCommas (s : string) : string :=
  match s with
  | String c s' => if Ascii.eqb c "," then stripCommas s' else String c (stripCommas s')
  | EmptyString => EmptyString
  end.

Fixpoint drop_string (n : nat) (s : string) : string :=
  match n, s with
  | S n', String _ s' => drop_string n' s'
  | _, _ => s
  end.

(** Lexicographic order on strings by character code (the order of [<] on
    two strings). *)
Fixpoint string_ltb (a b : string) : bool :=
  match a, b with
  | _, EmptyString => false
  | EmptyString, String _ _ => true
  | String x a', String y b' =>
      let nx := nat_of_ascii x in
      let ny := nat_of_ascii y in
      if (nx <? ny)%nat then true
      else if (ny <? nx)%nat then false
      else string_ltb a' b'
  end.

(** ** Numeric literals in strings *)

(** Longest prefix of decimal digits: accumulated value (starting from
    [acc]), number of digits read, and the rest of the string. *)
Fixpoint digits_prefix (s : string) (acc n : Z) : Z * Z * string :=
  match s with
  | String c s' =>
      if is_digit c then digits_prefix s' (10 * acc + digit_val c) (n + 1)
      else (acc, n, s)
  | EmptyString => (acc, n, s)
  end.

Fixpoint hex_prefix (s : string) (acc n : Z) : Z * Z * string :=
  match s with
  | String c s' =>
      match hex_val c with
      | Some d => hex_prefix s' (16 * acc + d) (n + 1)
      | None => (acc, n, s)
      end
  | EmptyString => (acc, n, s)
  end.

(** Digits in radix 2 or 8, for the literals [0b…] and [0o…]. *)
Fixpoint radix_prefix (radix : Z) (s : string) (acc n : Z) : Z * Z * string :=
  match s with
  | String c s' =>
      if is_digit c && (digit_val c <? radix)
      then radix_prefix radix s' (radix * acc + digit_val c) (n + 1)
      else (acc, n, s)
  | EmptyString => (acc, n, s)
  end.

Definition sign_prefix (s : string) : bool * string :=
  match s with
  | String "-" s' => (true, s')
  | String "+" s' => (false, s')
  | _ => (false, s)
  end.

(** Exponent part [e±ddd]; absent or malformed, it is not consumed. *)
Definition exponent_prefix (s : string) : Z * string :=
  match s with
  | String c t =>
      if Ascii.eqb c "e" || Ascii.eqb c "E" then
        let (neg, t') := sign_prefix t in
        let '(e, n, rest) := digits_prefix t' 0 0 in
        if n =? 0 then (0, s) else ((if neg then - e else e), rest)
      else (0, s)
  | EmptyString => (0, s)
  end.

(** The longest prefix of [s] that is a StrDecimalLiteral, with its value
    and the rest of the string. *)
Definition decimal_prefix (s : string) : option (number * string) :=
  let (neg, s1) := sign_prefix s in
  if startsWith s1 "Infinity" then Some (S754_infinity neg, drop_string 8 s1)
  else
    let '(i, ni, s2) := digits_prefix s1 0 0 in
    let '(f, nf, s3) :=
      match s2 with
      | String "." t => digits_prefix t i 0
      | _ => (i, 0, s2)
      end in
    if (ni =? 0) && (nf =? 0) then None
    else
      let (e, s4) := exponent_prefix s3 in
      Some (of_decimal neg f (e - nf), s4).

(** [parseFloat(s)]. *)
Definition parseFloat (s : string) : number :=
  match decimal_prefix (trimStart s) with
  | Some (x, _) => x
  | None => NaN
  end.

(** [parseInt(s)] with no radix argument. *)
Definition parseInt (s : string) : number :=
  let (neg, s1) := sign_prefix (trimStart s) in
  let '(v, n, _) :=
    if startsWith s1 "0x" || startsWith s1 "0X"
    then hex_prefix (drop_string 2 s1) 0 0
    else digits_prefix s1 0 0 in
  if n =? 0 then NaN
  else if v =? 0 then S754_zero neg
  else of_Z (if neg then - v else v).

(** [ToNumber] on a string (StringToNumber). *)
Definition stringToNumber (s : string) : number :=
  let t := trim s in
  match t with
  | EmptyString => zero
  | String "0" (String c r) =>
      let nondecimal (p : Z * Z * string) :=
        let '(v, n, rest) := p in
        match rest with
        | EmptyString => if n =? 0 then NaN else of_Z v
        | _ => NaN
        end in
      if Ascii.eqb c "x" || Ascii.eqb c "X" then nondecimal (hex_prefix r 0 0)
      else if Ascii.eqb c "o" || Ascii.eqb c "O" then nondecimal (radix_prefix 8 r 0 0)
      else if Ascii.eqb c "b" || Ascii.eqb c "B" then nondecimal (radix_prefix 2 r 0 0)
      else
        match decimal_prefix t with
        | Some (x, EmptyString) => x
        | _ => NaN
        end
  | _ =>
      match decimal_prefix t with
      | Some (x, EmptyString) => x
      | _ => NaN
      end
  end.

(** ** Number to string (Number::toString, radix 10) *)

(** Decimal digits of a non-negative integer, most significant first. *)
Fixpoint digits_fuel (fuel : nat) (n : Z) (acc : string) : string :=
  match fuel with
  | O => acc
  | S fuel' =>
      let acc' := String (ascii_of_nat (Z.to_nat (48 + n mod 10))) acc in
      if n <? 10 then acc' else digits_fuel fuel' (n / 10) acc'
  end.

Definition digits_of_Z (n : Z) : string :=
  digits_fuel (S (Z.to_nat (Z.log2 n))) n EmptyString.

Fixpoint zeros (n : nat) : string :=
  match n with O => EmptyString | S n' => String "0" (zeros n') end.

Definition strip_trailing_zeros (s : string) : string :=
  let fix strip (r : string) : string :=
    match r with
    | String "0" r' => strip r'
    | _ => r
    end in
  rev_string (strip (rev_string s EmptyString)) EmptyString.

Fixpoint take_string (n : nat) (s : string) : string :=
  match n, s with
  | S n', String c s' => String c (take_string n' s')
  | _, _ => EmptyString
  end.

(** For [x = mx × 2^ex], numerator and denominator of [x / 10^scale]. *)
Definition scaled (mx : positive) (ex scale : Z) : Z * Z :=
  let xn := Z.pos mx * 2 ^ Z.max ex 0 in
  let xd := 2 ^ Z.max (- ex) 0 in
  let pn := 10 ^ Z.max scale 0 in
  let pd := 10 ^ Z.max (- scale) 0 in
  (xn * pd, xd * pn).

(** [x < 10^n]. *)
Definition below_pow10 (mx : positive) (ex n : Z) : bool :=
  let (a, b) := scaled mx ex n in a <? b.

(** The [n] with [10^(n-1) <= x < 10^n]. *)
Definition decimal_exponent (mx : positive) (ex : Z) : Z :=
  let bits := Z.pos (digits2_pos mx) + ex in
  let e := (bits - 1) * 30103 / 100000 - 1 in
  if below_pow10 mx ex (e + 1) then e + 1
  else if below_pow10 mx ex (e + 2) then e + 2
  else e + 3.

(** Shortest decimal that reads back as [x = mx × 2^ex]: tries [k], [k+1],
    … significant digits; among the two [k]-digit neighbours of [x] that
    round to [x] the nearer one is taken (the even one on a tie).  Returns
    the digits [s] and the exponent [n] such that the decimal is
    [0.s × 10^n]. *)
Fixpoint shortest_decimal (fuel : nat) (k : Z) (mx : positive) (ex n0 : Z) : string * Z :=
  let x := S754_finite false mx ex in
  let scale := n0 - k in
  let (a, b) := scaled mx ex scale in
  let (lo, r) := Z.div_eucl a b in
  let hi := lo + 1 in
  let ok_lo := eqb (of_decimal false lo scale) x in
  let ok_hi := eqb (of_decimal false hi scale) x in
  let result (s : Z) :=
    let ds := digits_of_Z s in
    (strip_trailing_zeros ds, scale + Z.of_nat (String.length ds)) in
  let nearer :=
    match (2 * r ?= b) with
    | Lt => lo
    | Gt => hi
    | Eq => if Z.even lo then lo else hi
    end in
  match fuel with
  | O => result lo
  | S fuel' =>
      if ok_lo && ok_hi then result nearer
      else if ok_lo then result lo
      else if ok_hi then result hi
      else shortest_decimal fuel' (k + 1) mx ex n0
  end.

Definition exponent_suffix (n : Z) : string :=
  let e := n - 1 in
  let sign : ascii := if e <? 0 then "-"%char else "+"%char in
  String "e" (String sign (digits_of_Z (Z.abs e))).

Definition numberToString (x : number) : string :=
  match x with
  | S754_nan => "NaN"
  | S754_zero _ => "0"
  | S754_infinity s => if s then "-Infinity" else "Infinity"
  | S754_finite s mx ex =>
      let (ds, n) := shortest_decimal 17 1 mx ex (decimal_exponent mx ex) in
      let k := Z.of_nat (String.length ds) in
      let body :=
        if (k <=? n) && (n <=? 21) then ds +:+ zeros (Z.to_nat (n - k))
        else if (0 <? n) && (n <=? 21) then
          take_string (Z.to_nat n) ds +:+ "." +:+ drop_string (Z.to_nat n) ds
        else if (-6 <? n) && (n <=? 0) then
          "0." +:+ zeros (Z.to_nat (- n)) +:+ ds
        else if k =? 1 then ds +:+ exponent_suffix n
        else
          take_string 1 ds +:+ "." +:+ drop_string 1 ds +:+ exponent_suffix n in
      if s then String "-" body else body
  end.

(** ** Values

    The primitive values that occur as properties of region documents, year
    records and edit forms: numbers, strings, and [undefined] for a property
    that is absent. *)

Inductive Val : Type :=
  | Undefined
  | Num (x : number)
  | Str (s : string).

#[global] Instance number_eq_dec : EqDecision number.
Proof. solve_decision. Defined.

#[global] Instance Val_eq_dec : EqDecision Val.
Proof. solve_decision. Defined.

Definition toNumber (v : Val) : number :=
  match v with
  | Undefined => NaN
  | Num x => x
  | Str s => stringToNumber s
  end.

Definition toString (v : Val) : string :=
  match v with
  | Undefined => "undefined"
  | Num x => numberToString x
  | Str s => s
  end.

(** ToBoolean. *)
Definition truthy (v : Val) : bool :=
  match v with
  | Undefined => false
  | Num x => negb (isNaN x || isZero x)
  | Str s => negb (String.eqb s "")
  end.

(** [a || b]. *)
Definition or (a b : Val) : Val := if truthy a then a else b.

(** [a + b]: concatenation as soon as one operand is a string. *)
Definition plus (a b : Val) : Val :=
  match a, b with
  | Str _, _ | _, Str _ => Str (toString a +:+ toString b)
  | _, _ => Num (add (toNumber a) (toNumber b))
  end.

(** [a * b] and [a / b]. *)
Definition times (a b : Val) : Val := Num (mul (toNumber a) (toNumber b)).
Definition divide (a b : Val) : Val := Num (div (toNumber a) (toNumber b)).

(** IsLessThan: [None] is the "undefined" result of a comparison with NaN. *)
Definition isLessThan (a b : Val) : option bool :=
  match a, b with
  | Str s, Str t => Some (string_ltb s t)
  | _, _ =>
      match SFcompare (toNumber a) (toNumber b) with
      | Some Lt => Some true
      | Some _ => Some false
      | None => None
      end
  end.

(** [a < b], [a > b], [a >= b]. *)
Definition lt (a b : Val) : bool :=
  match isLessThan a b with Some true => true | _ => false end.
Definition gt (a b : Val) : bool := lt b a.
Definition ge (a b : Val) : bool :=
  match isLessThan a b with Some false => true | _ => false end.

(** [a === b]. *)
Definition strictEq (a b : Val) : bool :=
  match a, b with
  | Undefined, Undefined => true
  | Num x, Num y => eqb x y
  | Str s, Str t => String.eqb s t
  | _, _ => false
  end.

(** ** Objects *)

Abbreviation Obj := (gmap string Val).

(** Property read [o.k]. *)
Definition get (o : Obj) (k : string) : Val := default Undefined (o !! k).

(** [{ ...a, ...b }]: the properties of [b] win. *)
Definition spread (a b : Obj) : Obj := b ∪ a.

(** [{ ...a, [k]: v }]. *)
Definition set (a : Obj) (k : string) (v : Val) : Obj := <[k := v]> a.

(** [errors.join(sep)]. *)
Definition join (sep : string) (l : list string) : string := String.concat sep l.

(** [arr.find(p)], [arr.some(p)]. *)
Definition find {A} (p : A -> bool) (l : list A) : option A := List.find p l.
Definition some {A} (p : A -> bool) (l : list A) : bool := existsb p l.

End JS.

Import JS (number, Val, Undefined, Num, Str, Obj).

(* ===================================================================== *)
(** * Region documents and the document store *)
(* ===================================================================== *)

(** A region object as the components read it: its own primitive
    properties ([region], and in the static data file the counters of its
    single record) and the [yearlyData] array when it has one. *)
Record RegionObj : Type := {
  props : Obj;
  yearlyData : option (list Obj)
}.

#[global] Instance RegionObj_eq_dec : EqDecision RegionObj.
Proof. solve_decision. Defined.

(** The fallback record of [fetchRegions] for a region without data for the
    selected year. *)
Definition zeroRecord : Obj :=
  list_to_map
    [ ("taxpayers", Num JS.zero); ("averageTax", Num JS.zero);
      ("totalTax", Num JS.zero); ("salaryTaxpayers", Num JS.zero);
      ("eVatTaxpayers", Num JS.zero); ("otherTaxpayers", Num JS.zero);
      ("complianceRate", Num JS.zero) ].

(** [region.yearlyData.find((d) => d.year === selectedYear) || zeroRecord];
    [None] when [yearlyData] is not there (a TypeError in the source). *)
Definition yearDataOf (selectedYear : number) (region : RegionObj) : option Obj :=
  match yearlyData region with
  | None => None
  | Some yd =>
      Some (default zeroRecord
              (JS.find (fun d => JS.strictEq (JS.get d "year") (Num selectedYear)) yd))
  end.

Module Firestore.

(** The collection "regions": documents in snapshot order, each with its
    key and its data. *)
Record Doc : Type := { id : string; data : RegionObj }.

#[global] Instance Doc_eq_dec : EqDecision Doc.
Proof. solve_decision. Defined.

Abbreviation Store := (list Doc).

(** Which of the two network operations of the components succeed. *)
Record Net : Type := { getDocs_ok : bool; updateDoc_ok : bool }.

Definition online : Net := {| getDocs_ok := true; updateDoc_ok := true |}.

(** [await getDocs(collection(db, "regions"))]. *)
Definition getDocs (net : Net) (store : Store) : option (list Doc) :=
  if getDocs_ok net then Some store else None.

(** The store after the field [yearlyData] of the document under [key] has
    been replaced. *)
Definition setYearlyData (key : string) (yd : list Obj) (store : Store) : Store :=
  map (fun d =>
         if String.eqb (id d) key
         then {| id := id d;
                 data := {| props := props (data d); yearlyData := Some yd |} |}
         else d) store.

(** [await updateDoc(doc(db, "regions", key), { yearlyData })]: replaces that
    one field of the document under [key]; fails when the operation does
    not go through (whatever the reason: transport, rules, a value the
    store refuses) or no document has that key. *)
Definition updateDoc (net : Net) (store : Store) (key : string) (yd : list Obj)
  : option Store :=
  if updateDoc_ok net && existsb (fun d => String.eqb (id d) key) store
  then Some (setYearlyData key yd store)
  else None.

(** The operations a handler performed, in order. *)
Inductive Op : Type :=
  | OpGetDocs
  | OpUpdateDoc (key : string) (yd : list Obj).

#[global] Instance Op_eq_dec : EqDecision Op.
Proof. solve_decision. Defined.

End Firestore.

(** How a run of [saveEdits] ended. *)
Inductive Outcome : Type :=
  | Saved
  | ValidationFailure (message : string)
  | PersistFailure (message : string)
  | NothingToSave
  | Uncaught.

#[global] Instance Outcome_eq_dec : EqDecision Outcome.
Proof. solve_decision. Defined.

(** [(d) => d.data().region === name], the test that finds a region's
    document in a snapshot. *)
Definition regionIs (name : Val) (d : Firestore.Doc) : bool :=
  JS.strictEq (JS.get (props (Firestore.data d)) "region") name.

(** The read-modify-write of [saveEdits], common to both components:
    fetch the collection, find the region's document, replace the record of
    the selected year by [{ ...edit, year: selectedYear }] or push it, and
    write the array back.  Returns the new store and the operations
    performed; the store is [None] when an exception reached the [catch]
    block. *)
Definition persistEdit (net : Firestore.Net) (store : Firestore.Store)
    (regionName : Val) (selectedYear : number) (edit : Obj)
  : option Firestore.Store * list Firestore.Op :=
  match regionName with
  | Str key =>
      match Firestore.getDocs net store with
      | None => (None, [Firestore.OpGetDocs])
      | Some docs =>
          match JS.find (regionIs regionName) docs with
          | None => (None, [Firestore.OpGetDocs])
          | Some d =>
              match yearlyData (Firestore.data d) with
              | None => (None, [Firestore.OpGetDocs])
              | Some yd =>
                  let isYear (data : Obj) :=
                    JS.strictEq (JS.get data "year") (Num selectedYear) in
                  let candidate := JS.set edit "year" (Num selectedYear) in
                  let mapped := map (fun data => if isYear data then candidate else data) yd in
                  let updatedYearlyData :=
                    if negb (JS.some isYear yd) then mapped ++ [candidate] else mapped in
                  (Firestore.updateDoc net store key updatedYearlyData,
                   [Firestore.OpGetDocs; Firestore.OpUpdateDoc key updatedYearlyData])
              end
          end
      end
  | _ => (None, [])
  end.

(** The eight checks of [validateForm] / [validateEdit], each pushed on its
    own; the two functions differ in the wording of the compliance message
    only. *)
Definition validate (complianceMessage : string) (data : Obj) : list string :=
  let check (c : bool) (m : string) : list string := if c then [m] else [] in
  let f := JS.get data in
  check (JS.lt (f "taxpayers") (Num JS.zero)) "Taxpayers cannot be negative."
  ++ check (JS.lt (f "averageTax") (Num JS.zero)) "Average Tax cannot be negative."
  ++ check (JS.lt (f "totalTax") (Num JS.zero)) "Total Tax cannot be negative."
  ++ check (JS.lt (f "salaryTaxpayers") (Num JS.zero)) "Salary Taxpayers cannot be negative."
  ++ check (JS.lt (f "eVatTaxpayers") (Num JS.zero)) "E-VAT Taxpayers cannot be negative."
  ++ check (JS.lt (f "otherTaxpayers") (Num JS.zero)) "Other Taxpayers cannot be negative."
  ++ check (JS.lt (f "complianceRate") (Num JS.zero)
            || JS.gt (f "complianceRate") (Num (JS.of_Z 1))) complianceMessage
  ++ check (JS.gt (JS.plus (JS.plus (f "salaryTaxpayers") (f "eVatTaxpayers"))
                     (f "otherTaxpayers"))
                  (f "taxpayers"))
       "Sum of Salary, E-VAT, and Other Taxpayers cannot exceed Total Taxpayers.".

Definition persistFailureMessage : string :=
  "Failed to save changes to Firestore. Please try again.".

Definition fetchFailureMessage : string :=
  "Failed to load data from Firestore. Please try again.".

(** [arr.filter(p)] for a predicate that may throw: the first exception
    aborts the whole filter. *)
Fixpoint filterE {A : Type} (p : A -> option bool) (l : list A) : option (list A) :=
  match l with
  | [] => Some []
  | x :: l' =>
      match p x with
      | None => None
      | Some b =>
          match filterE p l' with
          | None => None
          | Some r => Some (if b then x :: r else r)
          end
      end
  end.

(** [arr.map(f)] for a function that may throw. *)
Fixpoint mapE {A B : Type} (f : A -> option B) (l : list A) : option (list B) :=
  match l with
  | [] => Some []
  | x :: l' =>
      match f x with
      | None => None
      | Some y =>
          match mapE f l' with
          | None => None
          | Some r => Some (y :: r)
          end
      end
  end.

(** [region.region.toLowerCase().includes(searchQuery.toLowerCase())];
    [None] when [region.region] is not a string. *)
Definition matchesSearch (searchQuery : string) (region : Obj) : option bool :=
  match JS.get region "region" with
  | Str name => Some (JS.includes (JS.toLowerCase name) (JS.toLowerCase searchQuery))
  | _ => None
  end.

(* ===================================================================== *)
(** * TaxSourceBreakdown.jsx *)
(* ===================================================================== *)

Module TaxSourceBreakdown.

Record Totals : Type := {
  totalSalaryTaxpayers : Val;
  totalEVatTaxpayers : Val;
  totalOtherTaxpayers : Val
}.

(** The three [regions.reduce((sum, r) => sum + r.<counter>, 0)] of the
    effect, over [data.regions]. *)
Definition totals (regions : list RegionObj) : Totals :=
  let sumOf (k : string) :=
    fold_left (fun sum r => JS.plus sum (JS.get (props r) k)) regions (Num JS.zero) in
  {| totalSalaryTaxpayers := sumOf "salaryTaxpayers";
     totalEVatTaxpayers := sumOf "eVatTaxpayers";
     totalOtherTaxpayers := sumOf "otherTaxpayers" |}.

End TaxSourceBreakdown.

(* ===================================================================== *)
(** * RegionalAnalysis.jsx: the component RegionalAnalysis *)
(* ===================================================================== *)

Module RegionalAnalysis.

(** Component state ([useState] cells); [chartData] is presentation and is
    left out. *)
Record State : Type := {
  regions : list Obj;                (* regionalData.regions *)
  selectedRegion : option Obj;
  activeTab : string;
  searchQuery : string;
  selectedYear : number;
  loading : bool;
  error : option string;
  editMode : bool;
  editForm : option Obj;
  saving : bool;
  saveError : option string
}.

#[global] Instance State_eq_dec : EqDecision State.
Proof. solve_decision. Defined.

(** [regions.map((region) => ({ region: region.region, ...yearData }))]. *)
Definition processedRegions (selectedYear : number) (docs : list RegionObj)
  : option (list Obj) :=
  mapE (fun region =>
          match yearDataOf selectedYear region with
          | None => None
          | Some yearData =>
              Some (JS.spread {[ "region" := JS.get (props region) "region" ]} yearData)
          end) docs.

Definition fetchRegions (net : Firestore.Net) (store : Firestore.Store) (st : State) : State :=
  let loaded :=
    match Firestore.getDocs net store with
    | None => None
    | Some docs => processedRegions (selectedYear st) (map Firestore.data docs)
    end in
  match loaded with
  | Some rs =>
      {| regions := rs; selectedRegion := selectedRegion st; activeTab := activeTab st;
         searchQuery := searchQuery st; selectedYear := selectedYear st;
         loading := false; error := None; editMode := editMode st;
         editForm := editForm st; saving := saving st; saveError := saveError st |}
  | None =>
      {| regions := regions st; selectedRegion := selectedRegion st;
         activeTab := activeTab st; searchQuery := searchQuery st;
         selectedYear := selectedYear st; loading := false;
         error := Some fetchFailureMessage; editMode := editMode st;
         editForm := editForm st; saving := saving st; saveError := saveError st |}
  end.

Definition editableFields : list string :=
  [ "taxpayers"; "averageTax"; "totalTax"; "salaryTaxpayers"; "eVatTaxpayers";
    "otherTaxpayers"; "complianceRate" ].

(** [enterEditMode]: the form starts as a copy of the seven fields of the
    selected region.  Not reachable without a selection. *)
Definition enterEditMode (st : State) : State :=
  match selectedRegion st with
  | None => st
  | Some r =>
      {| regions := regions st; selectedRegion := selectedRegion st;
         activeTab := activeTab st; searchQuery := searchQuery st;
         selectedYear := selectedYear st; loading := loading st; error := error st;
         editMode := true;
         editForm := Some (list_to_map (map (fun k => (k, JS.get r k)) editableFields));
         saving := saving st; saveError := None |}
  end.

(** [value === "" ? "" : parseFloat(value) || 0]. *)
Definition parseField (value : string) : Val :=
  if String.eqb value "" then Str "" else JS.or (Num (JS.parseFloat value)) (Num JS.zero).

(** [handleEditChange(field, value)]. *)
Definition handleEditChange (field value : string) (st : State) : State :=
  {| regions := regions st; selectedRegion := selectedRegion st;
     activeTab := activeTab st; searchQuery := searchQuery st;
     selectedYear := selectedYear st; loading := loading st; error := error st;
     editMode := editMode st;
     editForm := Some (JS.set (default ∅ (editForm st)) field (parseField value));
     saving := saving st; saveError := saveError st |}.

Definition complianceMessage : string := "Compliance Rate must be between 0 and 1.".

Definition validateForm (editForm : Obj) : list string :=
  validate complianceMessage editForm.

(** [setSaveError(e)] and [setSaving(b)]. *)
Definition setSaveError (e : option string) (st : State) : State :=
  {| regions := regions st; selectedRegion := selectedRegion st;
     activeTab := activeTab st; searchQuery := searchQuery st;
     selectedYear := selectedYear st; loading := loading st; error := error st;
     editMode := editMode st; editForm := editForm st; saving := saving st;
     saveError := e |}.

Definition setSaving (b : bool) (st : State) : State :=
  {| regions := regions st; selectedRegion := selectedRegion st;
     activeTab := activeTab st; searchQuery := searchQuery st;
     selectedYear := selectedYear st; loading := loading st; error := error st;
     editMode := editMode st; editForm := editForm st; saving := b;
     saveError := saveError st |}.

(** The local update after a successful write: the row of the region
    becomes [{ ...editForm, region: r.region }], the selection follows, the
    form closes. *)
Definition committed (name : Val) (form : Obj) (st : State) : State :=
  {| regions :=
       map (fun r => if JS.strictEq (JS.get r "region") name
                     then JS.set form "region" (JS.get r "region") else r)
           (regions st);
     selectedRegion := Some (JS.set form "region" name);
     activeTab := activeTab st; searchQuery := searchQuery st;
     selectedYear := selectedYear st; loading := loading st; error := error st;
     editMode := false; editForm := None; saving := false; saveError := None |}.

(** [saveEdits]: new state, new store, store operations performed, and how
    the run ended.  With no form the destructuring in [validateForm] throws
    outside the [try]. *)
Definition saveEdits (net : Firestore.Net) (store : Firestore.Store) (st : State)
  : State * Firestore.Store * list Firestore.Op * Outcome :=
  match editForm st with
  | None => (st, store, [], Uncaught)
  | Some form =>
      let errors := validateForm form in
      if negb (Nat.eqb (length errors) 0) then
        (setSaveError (Some (JS.join " " errors)) st, store, [],
         ValidationFailure (JS.join " " errors))
      else
        let failed ops :=
          (setSaving false (setSaveError (Some persistFailureMessage) st), store, ops,
           PersistFailure persistFailureMessage) in
        match selectedRegion st with
        | None => failed []
        | Some r =>
            let name := JS.get r "region" in
            match persistEdit net store name (selectedYear st) form with
            | (Some store', ops) => (committed name form st, store', ops, Saved)
            | (None, ops) => failed ops
            end
        end
  end.

(** [cancelEdit]. *)
Definition cancelEdit (st : State) : State :=
  {| regions := regions st; selectedRegion := selectedRegion st;
     activeTab := activeTab st; searchQuery := searchQuery st;
     selectedYear := selectedYear st; loading := loading st; error := error st;
     editMode := false; editForm := None; saving := saving st; saveError := None |}.

(** The predicate of the first [.filter] of [filteredRegions]. *)
Definition inTab (activeTab : string) (region : Obj) : bool :=
  let c := JS.get region "complianceRate" in
  if String.eqb activeTab "high" then JS.ge c (Num (JS.of_decimal false 8 (-1)))
  else if String.eqb activeTab "medium" then
    JS.ge c (Num (JS.of_decimal false 5 (-1))) && JS.lt c (Num (JS.of_decimal false 8 (-1)))
  else if String.eqb activeTab "low" then JS.lt c (Num (JS.of_decimal false 5 (-1)))
  else true.

(** [filteredRegions]: by tab, then by search text.  The static variant of
    the component computes the same expression over [data.regions]. *)
Definition filteredRegions (regions : list Obj) (activeTab searchQuery : string)
  : option (list Obj) :=
  filterE (matchesSearch searchQuery) (List.filter (inTab activeTab) regions).

End RegionalAnalysis.

(* ===================================================================== *)
(** * RegionalAnalysis.jsx: the component Dashboard *)
(* ===================================================================== *)

Module Dashboard.

(** The [metrics] state cell; before the first fetch the four totals are
    absent ([undefined]).  [chartData] is presentation and is left out. *)
Record Metrics : Type := {
  totalTaxpayers : Val;
  totalTax : Val;
  avgTax : Val;
  avgCompliance : Val;
  regionalMetrics : list Obj
}.

#[global] Instance Metrics_eq_dec : EqDecision Metrics.
Proof. solve_decision. Defined.

(** Component state; [editedData] maps the key ["<region>_<year>"] to the
    unsaved overlay for that region and year, [isEditing] is the cell under
    edit (region name and field).  [sortConfig] only drives the order of the
    table and is left out. *)
Record State : Type := {
  metrics : Metrics;
  searchQuery : string;
  selectedYear : number;
  editedData : gmap string Obj;
  isEditing : option (Val * string);
  loading : bool;
  error : option string;
  saveError : option string
}.

#[global] Instance State_eq_dec : EqDecision State.
Proof. solve_decision. Defined.

(** The template literal [`${region}_${selectedYear}`]. *)
Definition editKey (region : Val) (selectedYear : number) : string :=
  JS.toString region +:+ "_" +:+ JS.numberToString selectedYear.

(** The four reductions over the rows, as in [fetchRegions] and again in
    [saveEdits]. *)
Definition computeMetrics (rows : list Obj) : Metrics :=
  let totalTaxpayers :=
    fold_left (fun sum r => JS.plus sum (JS.get r "taxpayers")) rows (Num JS.zero) in
  let totalTax :=
    fold_left (fun sum r => JS.plus sum (JS.get r "totalTax")) rows (Num JS.zero) in
  let avgTax :=
    if JS.gt totalTaxpayers (Num JS.zero) then JS.divide totalTax totalTaxpayers
    else Num JS.zero in
  let avgCompliance :=
    if JS.gt totalTaxpayers (Num JS.zero) then
      JS.divide
        (fold_left (fun sum r =>
                      JS.plus sum (JS.times (JS.get r "complianceRate") (JS.get r "taxpayers")))
                   rows (Num JS.zero))
        totalTaxpayers
    else Num JS.zero in
  {| totalTaxpayers := totalTaxpayers; totalTax := totalTax; avgTax := avgTax;
     avgCompliance := avgCompliance; regionalMetrics := rows |}.

(** [regions.map((region) => ({ region: region.region, ...yearData, ...edited }))]. *)
Definition regionalMetricsOf (editedData : gmap string Obj) (selectedYear : number)
    (docs : list RegionObj) : option (list Obj) :=
  mapE (fun region =>
          match yearDataOf selectedYear region with
          | None => None
          | Some yearData =>
              let name := JS.get (props region) "region" in
              let edited := default ∅ (editedData !! editKey name selectedYear) in
              Some (JS.spread (JS.spread {[ "region" := name ]} yearData) edited)
          end) docs.

Definition fetchRegions (net : Firestore.Net) (store : Firestore.Store) (st : State) : State :=
  let loaded :=
    match Firestore.getDocs net store with
    | None => None
    | Some docs =>
        regionalMetricsOf (editedData st) (selectedYear st) (map Firestore.data docs)
    end in
  match loaded with
  | Some rows =>
      {| metrics := computeMetrics rows; searchQuery := searchQuery st;
         selectedYear := selectedYear st; editedData := editedData st;
         isEditing := isEditing st; loading := false; error := None;
         saveError := saveError st |}
  | None =>
      {| metrics := metrics st; searchQuery := searchQuery st;
         selectedYear := selectedYear st; editedData := editedData st;
         isEditing := isEditing st; loading := false;
         error := Some fetchFailureMessage; saveError := saveError st |}
  end.

(** [filteredMetrics]: search text only. *)
Definition filteredMetrics (st : State) : option (list Obj) :=
  filterE (matchesSearch (searchQuery st)) (regionalMetrics (metrics st)).

(** [startEditing(region, field)]. *)
Definition startEditing (region : Obj) (field : string) (st : State) : State :=
  let key := editKey (JS.get region "region") (selectedYear st) in
  {| metrics := metrics st; searchQuery := searchQuery st;
     selectedYear := selectedYear st;
     editedData := <[key := JS.spread (default ∅ (editedData st !! key)) region]> (editedData st);
     isEditing := Some (JS.get region "region", field);
     loading := loading st; error := error st; saveError := None |}.

(** [field === "complianceRate" ? parseFloat(value) / 100
                                : parseInt(value.replace(/,/g, "")) || 0]. *)
Definition parsedValue (field value : string) : Val :=
  if String.eqb field "complianceRate"
  then JS.divide (Num (JS.parseFloat value)) (Num (JS.of_Z 100))
  else JS.or (Num (JS.parseInt (JS.stripCommas value))) (Num JS.zero).

(** [handleEditChange(region, field, value)]. *)
Definition handleEditChange (region : Obj) (field value : string) (st : State) : State :=
  let key := editKey (JS.get region "region") (selectedYear st) in
  {| metrics := metrics st; searchQuery := searchQuery st;
     selectedYear := selectedYear st;
     editedData :=
       <[key := JS.set (default ∅ (editedData st !! key)) field (parsedValue field value)]>
         (editedData st);
     isEditing := isEditing st; loading := loading st; error := error st;
     saveError := saveError st |}.

Definition complianceMessage : string := "Compliance Rate must be between 0 and 100%.".

Definition validateEdit (data : Obj) : list string :=
  validate complianceMessage data.

(** [setSaveError(e)], [setLoading(b)], [setIsEditing(null)]. *)
Definition setSaveError (e : option string) (st : State) : State :=
  {| metrics := metrics st; searchQuery := searchQuery st;
     selectedYear := selectedYear st; editedData := editedData st;
     isEditing := isEditing st; loading := loading st; error := error st;
     saveError := e |}.

Definition setLoading (b : bool) (st : State) : State :=
  {| metrics := metrics st; searchQuery := searchQuery st;
     selectedYear := selectedYear st; editedData := editedData st;
     isEditing := isEditing st; loading := b; error := error st;
     saveError := saveError st |}.

Definition stopEditing (st : State) : State :=
  {| metrics := metrics st; searchQuery := searchQuery st;
     selectedYear := selectedYear st; editedData := editedData st;
     isEditing := None; loading := loading st; error := error st;
     saveError := saveError st |}.

(** The local update after a successful write: the row of the region
    becomes [{ ...editedRegionData, region: r.region }], the totals are
    recomputed, the cell leaves edit mode.  [editedData] is not touched. *)
Definition committed (region : Val) (editedRegionData : Obj) (st : State) : State :=
  {| metrics :=
       computeMetrics
         (map (fun r => if JS.strictEq (JS.get r "region") region
                        then JS.set editedRegionData "region" (JS.get r "region")
                        else r)
              (regionalMetrics (metrics st)));
     searchQuery := searchQuery st; selectedYear := selectedYear st;
     editedData := editedData st; isEditing := None; loading := false;
     error := error st; saveError := None |}.

(** [saveEdits]: new state, new store, store operations performed, and how
    the run ended. *)
Definition saveEdits (net : Firestore.Net) (store : Firestore.Store) (st : State)
  : State * Firestore.Store * list Firestore.Op * Outcome :=
  match isEditing st with
  | None => (st, store, [], NothingToSave)
  | Some (region, _) =>
      match editedData st !! editKey region (selectedYear st) with
      | None => (stopEditing st, store, [], NothingToSave)
      | Some editedRegionData =>
          let errors := validateEdit editedRegionData in
          if negb (Nat.eqb (length errors) 0) then
            (setSaveError (Some (JS.join " " errors)) st, store, [],
             ValidationFailure (JS.join " " errors))
          else
            match persistEdit net store region (selectedYear st) editedRegionData with
            | (Some store', ops) =>
                (committed region editedRegionData st, store', ops, Saved)
            | (None, ops) =>
                (setLoading false (setSaveError (Some persistFailureMessage) st), store, ops,
                 PersistFailure persistFailureMessage)
            end
      end
  end.

End Dashboard.

(* ===================================================================== *)
(** * The data model and the operations as the specification words them *)
(* ===================================================================== *)

Module Spec.

(** YearRecord and Region of the data model, with numeric fields. *)
Record YearRecord : Type := {
  year : number;
  taxpayers : number;
  averageTax : number;
  totalTax : number;
  salaryTaxpayers : number;
  eVatTaxpayers : number;
  otherTaxpayers : number;
  complianceRate : number
}.

Record Region : Type := { name : string; records : list YearRecord }.

(** A region of the static data file: one record and no year series. *)
Record FlatRegion : Type := { flatName : string; flatRecord : YearRecord }.

(** The seven data fields of a record as object properties. *)
Definition fieldsOf (r : YearRecord) : list (string * Val) :=
  [ ("taxpayers", Num (taxpayers r)); ("averageTax", Num (averageTax r));
    ("totalTax", Num (totalTax r)); ("salaryTaxpayers", Num (salaryTaxpayers r));
    ("eVatTaxpayers", Num (eVatTaxpayers r)); ("otherTaxpayers", Num (otherTaxpayers r));
    ("complianceRate", Num (complianceRate r)) ].

(** The object that stores a YearRecord in [yearlyData]. *)
Definition toObj (r : YearRecord) : Obj :=
  list_to_map (("year", Num (year r)) :: fieldsOf r).

(** The document that stores a Region. *)
Definition toDoc (R : Region) : RegionObj :=
  {| props := {[ "region" := Str (name R) ]};
     yearlyData := Some (map toObj (records R)) |}.

(** A region object of the static data file. *)
Definition toFlat (R : FlatRegion) : RegionObj :=
  {| props := list_to_map (("region", Str (flatName R)) :: fieldsOf (flatRecord R));
     yearlyData := None |}.

(** An object reads as the record [r] when its seven data properties are
    the numbers of [r]; other properties (region, year) are free. *)
Definition readsAs (o : Obj) (r : YearRecord) : Prop :=
  Forall (fun kv => JS.get o (fst kv) = snd kv) (fieldsOf r).

(** All seven data fields are finite numbers. *)
Definition finiteRecord (r : YearRecord) : Prop :=
  Forall (fun kv => match snd kv with Num x => JS.isFinite x = true | _ => False end)
         (fieldsOf r).

(** Left-to-right sum of a field over records. *)
Definition sum {A : Type} (f : A -> number) (l : list A) : number :=
  fold_left (fun s r => JS.add s (f r)) l JS.zero.

(** *** Metrics Aggregator *)

Record AggregateView : Type := {
  aggTotalTaxpayers : number;
  aggTotalTax : number;
  aggAverageTax : number;
  aggComplianceRate : number
}.

Definition zeroYearRecord : YearRecord :=
  {| year := JS.zero; taxpayers := JS.zero; averageTax := JS.zero; totalTax := JS.zero;
     salaryTaxpayers := JS.zero; eVatTaxpayers := JS.zero; otherTaxpayers := JS.zero;
     complianceRate := JS.zero |}.

(** The record of the selected year, or the zero record. *)
Definition select (y : number) (R : Region) : YearRecord :=
  default zeroYearRecord (List.find (fun r => JS.eqb (year r) y) (records R)).

(** Totals, ratio and taxpayer-weighted mean of a list of records, both
    quotients being 0 when the number of taxpayers is 0. *)
Definition aggregateRecords (rows : list YearRecord) : AggregateView :=
  let total := sum taxpayers rows in
  let tax := sum totalTax rows in
  let weighted := sum (fun r => JS.mul (complianceRate r) (taxpayers r)) rows in
  {| aggTotalTaxpayers := total;
     aggTotalTax := tax;
     aggAverageTax := if JS.eqb total JS.zero then JS.zero else JS.div tax total;
     aggComplianceRate := if JS.eqb total JS.zero then JS.zero else JS.div weighted total |}.

(** [aggregate(regions, year)]. *)
Definition aggregate (regions : list Region) (y : number) : AggregateView :=
  aggregateRecords (map (select y) regions).

(** [aggregate_by_source(regions)] as worded: each counter summed across all
    YearRecords of all regions. *)
Record SourceTotals : Type := { salary : number; eVat : number; other : number }.

Definition aggregate_by_source (regions : list Region) : SourceTotals :=
  let all := concat (map records regions) in
  {| salary := sum salaryTaxpayers all;
     eVat := sum eVatTaxpayers all;
     other := sum otherTaxpayers all |}.

(** The same three sums over one record per region. *)
Definition sourceTotalsOf (rows : list YearRecord) : SourceTotals :=
  {| salary := sum salaryTaxpayers rows;
     eVat := sum eVatTaxpayers rows;
     other := sum otherTaxpayers rows |}.

(** *** Edit Reconciler *)

Definition sumMessage : string :=
  "Sum of Salary, E-VAT, and Other Taxpayers cannot exceed Total Taxpayers.".

(** The three sources of a record together. *)
Definition sourcesTotal (r : YearRecord) : number :=
  JS.add (JS.add (salaryTaxpayers r) (eVatTaxpayers r)) (otherTaxpayers r).

(** The messages of the violated constraints of a record, every constraint
    judged on its own: no field negative, complianceRate within [0,1], the
    three sources together at most the taxpayers. *)
Definition violations (complianceMessage : string) (r : YearRecord) : list string :=
  let negative (x : number) (m : string) : list string :=
    if JS.ltb x JS.zero then [m] else [] in
  negative (taxpayers r) "Taxpayers cannot be negative."
  ++ negative (averageTax r) "Average Tax cannot be negative."
  ++ negative (totalTax r) "Total Tax cannot be negative."
  ++ negative (salaryTaxpayers r) "Salary Taxpayers cannot be negative."
  ++ negative (eVatTaxpayers r) "E-VAT Taxpayers cannot be negative."
  ++ negative (otherTaxpayers r) "Other Taxpayers cannot be negative."
  ++ (if JS.leb JS.zero (complianceRate r) && JS.leb (complianceRate r) (JS.of_Z 1)
      then [] else [complianceMessage])
  ++ (if JS.leb (sourcesTotal r) (taxpayers r)
      then []
      else [sumMessage]).

(** Step 4 of commit as worded: replace the record of the target year, or
    append the candidate when there is none. *)
Fixpoint upsert {A : Type} (isTarget : A -> bool) (candidate : A) (l : list A) : list A :=
  match l with
  | [] => [candidate]
  | x :: l' => if isTarget x then candidate :: l' else x :: upsert isTarget candidate l'
  end.

(** At most one element of the list is a record of the target year. *)
Definition atMostOne {A : Type} (isTarget : A -> bool) (l : list A) : Prop :=
  (length (List.filter isTarget l) <= 1)%nat.

(** *** View Filter *)

Inductive Tier : Type := high | medium | low.

(** The tab that selects a tier; without a tier the tab is "all". *)
Definition tabOf (tier : option Tier) : string :=
  match tier with
  | Some high => "high"
  | Some medium => "medium"
  | Some low => "low"
  | None => "all"
  end.

(** high: >= 0.8; medium: >= 0.5 and < 0.8; low: < 0.5. *)
Definition inTier (t : Tier) (c : number) : bool :=
  match t with
  | high => JS.leb (JS.of_decimal false 8 (-1)) c
  | medium => JS.leb (JS.of_decimal false 5 (-1)) c && JS.ltb c (JS.of_decimal false 8 (-1))
  | low => JS.ltb c (JS.of_decimal false 5 (-1))
  end.

(** Name of a row, when it is a string. *)
Definition nameOf (region : Obj) : option string :=
  match JS.get region "region" with Str s => Some s | _ => None end.

(** The row matches the query (case-insensitive substring of its name) and,
    when a tier is given, its complianceRate lies in the tier. *)
Definition matches (query : string) (tier : option Tier) (region : Obj) : bool :=
  match nameOf region with
  | Some n => JS.includes (JS.toLowerCase n) (JS.toLowerCase query)
  | None => false
  end
  && match tier with
     | Some t => inTier t (JS.toNumber (JS.get region "complianceRate"))
     | None => true
     end.

(** [filter(regions, query, tier?)]. *)
Definition filter (regions : list Obj) (query : string) (tier : option Tier) : list Obj :=
  List.filter (matches query tier) regions.

(** What "contains the query case-insensitively" means, said without any
    string operation of the program.  Two characters are the same letter
    when they are equal or are the capital and the small form of one of the
    26 letters (codes 65-90 and 97-122); two texts read the same when they
    are the same letter at every position; the query occurs in the name
    when some stretch of the name reads the same as the query. *)
Definition sameLetter (c d : ascii) : Prop :=
  let x := nat_of_ascii c in
  let y := nat_of_ascii d in
  (x = y \/ (65 <= x <= 90 /\ y = x + 32) \/ (65 <= y <= 90 /\ x = y + 32))%nat.

Fixpoint sameText (s t : string) : Prop :=
  match s, t with
  | EmptyString, EmptyString => True
  | String c s', String d t' => sameLetter c d /\ sameText s' t'
  | _, _ => False
  end.

Definition occursIn (query name : string) : Prop :=
  exists before stretch after : string,
    name = before +:+ stretch +:+ after /\ sameText stretch query.

(** The row is one that [filter(regions, query, tier?)] has to return: its
    name is a string in which the query occurs, letter case ignored, and,
    when a tier is given, its complianceRate lies in the tier. *)
Definition Selected (query : string) (tier : option Tier) (region : Obj) : Prop :=
  (exists n, nameOf region = Some n /\ occursIn query n)
  /\ match tier with
     | Some t => inTier t (JS.toNumber (JS.get region "complianceRate")) = true
     | None => True
     end.

End Spec.

(* ===================================================================== *)
(** * Auxiliary predicates on numbers *)
(* ===================================================================== *)

(** A result that carries the sign [s]: a zero, an infinity or a finite
    number of that sign — in particular not NaN. *)
Definition signed (s : bool) (x : spec_float) : Prop :=
  match x with
  | S754_zero s' | S754_infinity s' | S754_finite s' _ _ => s' = s
  | S754_nan => False
  end.

(** [0 <= x], decided on the representation. *)
Definition nonnegb (x : spec_float) : bool :=
  match x with
  | S754_zero _ => true
  | S754_infinity s | S754_finite s _ _ => negb s
  | S754_nan => false
  end.

(* ===================================================================== *)
(** * Auxiliary predicates on texts *)
(* ===================================================================== *)

(** The text is made of ASCII characters (codes below 128).  On such texts
    the byte strings of the embedding are the strings of the engine, and
    [JS.toLowerCase] is [String.prototype.toLowerCase]; beyond them the
    engine maps further letters, which the embedding does not. *)
Fixpoint plainText (s : string) : bool :=
  match s with
  | EmptyString => true
  | String c s' => (nat_of_ascii c <? 128)%nat && plainText s'
  end.

(** The name of the row is a string of ASCII characters. *)
Definition plainName (region : Obj) : Prop :=
  exists n, Spec.nameOf region = Some n /\ plainText n = true.

(* ===================================================================== *)
(** * Sample data *)
(* ===================================================================== *)

Module Sample.

Definition record (y t a x s e o : Z) (c : number) : Spec.YearRecord :=
  {| Spec.year := JS.of_Z y; Spec.taxpayers := JS.of_Z t; Spec.averageTax := JS.of_Z a;
     Spec.totalTax := JS.of_Z x; Spec.salaryTaxpayers := JS.of_Z s;
     Spec.eVatTaxpayers := JS.of_Z e; Spec.otherTaxpayers := JS.of_Z o;
     Spec.complianceRate := c |}.

Definition y2025 : number := JS.of_Z 2025.

Definition ashanti : Spec.Region :=
  {| Spec.name := "Ashanti";
     Spec.records :=
       [ record 2024 900 40 36000 400 300 100 (JS.of_decimal false 85 (-2));
         record 2025 1000 50 50000 500 300 200 (JS.of_decimal false 9 (-1)) ] |}.

Definition accra : Spec.Region :=
  {| Spec.name := "Greater Accra";
     Spec.records :=
       [ record 2025 3000 60 180000 1500 1000 500 (JS.of_decimal false 5 (-1)) ] |}.

(** A region without a record for 2025. *)
Definition volta : Spec.Region :=
  {| Spec.name := "Volta";
     Spec.records :=
       [ record 2024 700 30 21000 300 200 100 (JS.of_decimal false 45 (-2)) ] |}.

Definition regions : list Spec.Region := [ashanti; accra; volta].

Definition store : Firestore.Store :=
  map (fun R => {| Firestore.id := Spec.name R; Firestore.data := Spec.toDoc R |}) regions.

(** The scenario of the specification: A with 100 taxpayers at 0.9, B with
    300 at 0.5. *)
Definition scenario : list Obj :=
  [ list_to_map [ ("name", Str "A"); ("taxpayers", Num (JS.of_Z 100));
                  ("complianceRate", Num (JS.of_decimal false 9 (-1))) ];
    list_to_map [ ("name", Str "B"); ("taxpayers", Num (JS.of_Z 300));
                  ("complianceRate", Num (JS.of_decimal false 5 (-1))) ] ].

(** Dashboard after mount: state cells at their initial values, then the
    first fetch. *)
Definition dashboard0 : Dashboard.State :=
  {| Dashboard.metrics :=
       {| Dashboard.totalTaxpayers := Undefined; Dashboard.totalTax := Undefined;
          Dashboard.avgTax := Undefined; Dashboard.avgCompliance := Undefined;
          Dashboard.regionalMetrics := [] |};
     Dashboard.searchQuery := ""; Dashboard.selectedYear := y2025;
     Dashboard.editedData := ∅; Dashboard.isEditing := None;
     Dashboard.loading := true; Dashboard.error := None; Dashboard.saveError := None |}.

Definition dashboard1 : Dashboard.State :=
  Dashboard.fetchRegions Firestore.online store dashboard0.

(** The row of Ashanti in the table. *)
Definition ashantiRow : Obj :=
  default ∅ (head (Dashboard.regionalMetrics (Dashboard.metrics dashboard1))).

(** The user clicks the cell [field] of Ashanti and types [value]. *)
Definition dashboardTyped (field value : string) : Dashboard.State :=
  Dashboard.handleEditChange ashantiRow field value
    (Dashboard.startEditing ashantiRow field dashboard1).

(** RegionalAnalysis after mount and first fetch, Ashanti selected, edit
    mode entered. *)
Definition analysis0 : RegionalAnalysis.State :=
  {| RegionalAnalysis.regions := []; RegionalAnalysis.selectedRegion := None;
     RegionalAnalysis.activeTab := "all"; RegionalAnalysis.searchQuery := "";
     RegionalAnalysis.selectedYear := y2025; RegionalAnalysis.loading := true;
     RegionalAnalysis.error := None; RegionalAnalysis.editMode := false;
     RegionalAnalysis.editForm := None; RegionalAnalysis.saving := false;
     RegionalAnalysis.saveError := None |}.

Definition analysis1 : RegionalAnalysis.State :=
  RegionalAnalysis.fetchRegions Firestore.online store analysis0.

(** [handleRegionClick(region)]. *)
Definition select (region : Obj) (st : RegionalAnalysis.State) : RegionalAnalysis.State :=
  {| RegionalAnalysis.regions := RegionalAnalysis.regions st;
     RegionalAnalysis.selectedRegion := Some region;
     RegionalAnalysis.activeTab := RegionalAnalysis.activeTab st;
     RegionalAnalysis.searchQuery := RegionalAnalysis.searchQuery st;
     RegionalAnalysis.selectedYear := RegionalAnalysis.selectedYear st;
     RegionalAnalysis.loading := RegionalAnalysis.loading st;
     RegionalAnalysis.error := RegionalAnalysis.error st;
     RegionalAnalysis.editMode := false; RegionalAnalysis.editForm := None;
     RegionalAnalysis.saving := RegionalAnalysis.saving st;
     RegionalAnalysis.saveError := RegionalAnalysis.saveError st |}.

Definition analysisEditing : RegionalAnalysis.State :=
  RegionalAnalysis.enterEditMode
    (select (default ∅ (head (RegionalAnalysis.regions analysis1))) analysis1).

(** The user replaces the content of the input [field] by [value]. *)
Definition analysisTyped (field value : string) : RegionalAnalysis.State :=
  RegionalAnalysis.handleEditChange field value analysisEditing.

(** The overlay staged for Ashanti and 2025 in a Dashboard state. *)
Definition pendingEdit (st : Dashboard.State) : option Obj :=
  Dashboard.editedData st !! Dashboard.editKey (Str "Ashanti") y2025.

(** The update of the taxpayers of Ashanti to 1,300 that the user staged. *)
Definition ashantiEdit : Obj :=
  default ∅ (pendingEdit (dashboardTyped "taxpayers" "1,300")).

Definition ashantiDoc : Firestore.Doc :=
  {| Firestore.id := "Ashanti"; Firestore.data := Spec.toDoc ashanti |}.

(** The store accepts reads and refuses writes. *)
Definition readOnly : Firestore.Net :=
  {| Firestore.getDocs_ok := true; Firestore.updateDoc_ok := false |}.

(** What a fetch for 2025 finds for the region stored under [key]. *)
Definition refetch (store : Firestore.Store) (key : string) : option Obj :=
  match List.find (fun d => String.eqb (Firestore.id d) key) store with
  | Some d => yearDataOf y2025 (Firestore.data d)
  | None => None
  end.

End Sample.

Module SampleRecords.

(** A record within all constraints, the three sources adding up to exactly
    the number of taxpayers. *)
Definition boundary : Spec.YearRecord :=
  Sample.record 2025 1000 50 50000 500 300 200 (JS.of_decimal false 9 (-1)).

(** One source too many: 500 + 300 + 201 > 1000. *)
Definition exceeding : Spec.YearRecord :=
  Sample.record 2025 1000 50 50000 500 300 201 (JS.of_decimal false 9 (-1)).

(** The Ashanti record after typing "abc" into the compliance cell of the
    Dashboard: every field as fetched, complianceRate NaN. *)
Definition nanCompliance : Spec.YearRecord :=
  Sample.record 2025 1000 50 50000 500 300 200 JS.NaN.

(** Regions of the static data file. *)
Definition flat : list Spec.FlatRegion :=
  [ {| Spec.flatName := "Ashanti"; Spec.flatRecord := boundary |};
    {| Spec.flatName := "Greater Accra";
       Spec.flatRecord :=
         Sample.record 2025 3000 60 180000 1500 1000 500 (JS.of_decimal false 5 (-1)) |} ].

End SampleRecords.

(** "Default 0 on parse failure": what [x || 0] makes of a number. *)
Definition orZero (x : number) : number :=
  if JS.isNaN x || JS.isZero x then JS.zero else x.

(* ===================================================================== *)
(** * Proof automation *)
(* ===================================================================== *)

(** Case analysis on every comparison of two numbers in the goal. *)
Ltac case_compare :=
  repeat match goal with
         | |- context [SFcompare ?a ?b] => destruct (SFcompare a b) as [[]|]
         end.

(** Splits the hypotheses [Forall P (x :: l)] into their components. *)
Ltac invert_Forall :=
  repeat match goal with
         | H : Forall _ (_ :: _) |- _ => inversion H; subst; clear H
         end.


(* ===================================================================== *)
(** * The rest of the components *)
(* ===================================================================== *)

(** The array [saveEdits] writes back, as a function of the array it read:
    every record of the selected year replaced by
    [{ ...edit, year: selectedYear }], and that record pushed when no record
    carries the year. *)
Definition updatedYearlyData (selectedYear : number) (edit : Obj) (yd : list Obj)
  : list Obj :=
  let isYear (data : Obj) := JS.strictEq (JS.get data "year") (Num selectedYear) in
  let candidate := JS.set edit "year" (Num selectedYear) in
  let mapped := map (fun data => if isYear data then candidate else data) yd in
  if negb (JS.some isYear yd) then mapped ++ [candidate] else mapped.

(** The test [data.year === selectedYear] of [fetchRegions] and [saveEdits]. *)
Definition ofYear (selectedYear : number) (data : Obj) : bool :=
  JS.strictEq (JS.get data "year") (Num selectedYear).

(** A document is stored under the name of its region: the key that
    [doc(db, "regions", name)] addresses is the key of the document whose
    [region] property is [name]. *)
Definition storedUnderName (d : Firestore.Doc) : Prop :=
  JS.get (props (Firestore.data d)) "region" = Str (Firestore.id d).

(** Two rows show the same: they agree on every property but [year] (which
    no table, chart or total reads). *)
Definition sameRow (a b : Obj) : Prop :=
  forall k : string, k <> "year" -> JS.get a k = JS.get b k.

(** The row the Dashboard's [fetchRegions] makes of one document:
    [{ region: region.region, ...yearData, ...edited }]. *)
Definition fetchedRow (editedData : gmap string Obj) (selectedYear : number)
    (region : RegionObj) : option Obj :=
  match yearDataOf selectedYear region with
  | None => None
  | Some yearData =>
      let name := JS.get (props region) "region" in
      let edited := default ∅ (editedData !! Dashboard.editKey name selectedYear) in
      Some (JS.spread (JS.spread {[ "region" := name ]} yearData) edited)
  end.

(** The row the [fetchRegions] of RegionalAnalysis makes of one document:
    [{ region: region.region, ...yearData }]. *)
Definition analysisRow (selectedYear : number) (region : RegionObj) : option Obj :=
  match yearDataOf selectedYear region with
  | None => None
  | Some yearData =>
      Some (JS.spread {[ "region" := JS.get (props region) "region" ]} yearData)
  end.

(** ** RegionalAnalysis: selection and search *)

Module Selection.

(** [handleRegionClick(region)]. *)
Definition handleRegionClick (region : Obj) (st : RegionalAnalysis.State)
  : RegionalAnalysis.State :=
  {| RegionalAnalysis.regions := RegionalAnalysis.regions st;
     RegionalAnalysis.selectedRegion := Some region;
     RegionalAnalysis.activeTab := RegionalAnalysis.activeTab st;
     RegionalAnalysis.searchQuery := RegionalAnalysis.searchQuery st;
     RegionalAnalysis.selectedYear := RegionalAnalysis.selectedYear st;
     RegionalAnalysis.loading := RegionalAnalysis.loading st;
     RegionalAnalysis.error := RegionalAnalysis.error st;
     RegionalAnalysis.editMode := false; RegionalAnalysis.editForm := None;
     RegionalAnalysis.saving := RegionalAnalysis.saving st;
     RegionalAnalysis.saveError := RegionalAnalysis.saveError st |}.

(** [clearSelection()]. *)
Definition clearSelection (st : RegionalAnalysis.State) : RegionalAnalysis.State :=
  {| RegionalAnalysis.regions := RegionalAnalysis.regions st;
     RegionalAnalysis.selectedRegion := None;
     RegionalAnalysis.activeTab := RegionalAnalysis.activeTab st;
     RegionalAnalysis.searchQuery := RegionalAnalysis.searchQuery st;
     RegionalAnalysis.selectedYear := RegionalAnalysis.selectedYear st;
     RegionalAnalysis.loading := RegionalAnalysis.loading st;
     RegionalAnalysis.error := RegionalAnalysis.error st;
     RegionalAnalysis.editMode := false; RegionalAnalysis.editForm := None;
     RegionalAnalysis.saving := RegionalAnalysis.saving st;
     RegionalAnalysis.saveError := RegionalAnalysis.saveError st |}.

(** Rendering the detail panel of the selected region computes its rank
    with [regionalData.regions.sort((a, b) => b.complianceRate -
    a.complianceRate)], which sorts the array of the state in place.  The
    order the engine leaves is an input here: [sorted] holds the rows of
    the table in that order. *)
Definition rankingLeaves (sorted : list Obj) (st : RegionalAnalysis.State)
  : RegionalAnalysis.State :=
  {| RegionalAnalysis.regions := sorted;
     RegionalAnalysis.selectedRegion := RegionalAnalysis.selectedRegion st;
     RegionalAnalysis.activeTab := RegionalAnalysis.activeTab st;
     RegionalAnalysis.searchQuery := RegionalAnalysis.searchQuery st;
     RegionalAnalysis.selectedYear := RegionalAnalysis.selectedYear st;
     RegionalAnalysis.loading := RegionalAnalysis.loading st;
     RegionalAnalysis.error := RegionalAnalysis.error st;
     RegionalAnalysis.editMode := RegionalAnalysis.editMode st;
     RegionalAnalysis.editForm := RegionalAnalysis.editForm st;
     RegionalAnalysis.saving := RegionalAnalysis.saving st;
     RegionalAnalysis.saveError := RegionalAnalysis.saveError st |}.

(** The user changes inputs of the form one after the other: a sequence of
    [handleEditChange(field, value)]. *)
Definition typing (inputs : list (string * string)) (st : RegionalAnalysis.State)
  : RegionalAnalysis.State :=
  fold_left (fun s e => RegionalAnalysis.handleEditChange (fst e) (snd e) s) inputs st.

End Selection.

(** ** TaxSourceBreakdown: search *)

Module TaxSourceSearch.

(** [taxSources.regions?.filter((region) =>
       region.region.toLowerCase().includes(searchQuery.toLowerCase())) || []];
    [regions] is absent until the effect has run. *)
Definition filteredRegions (regions : option (list RegionObj)) (searchQuery : string)
  : option (list RegionObj) :=
  match regions with
  | None => Some []
  | Some rs => filterE (fun region => matchesSearch searchQuery (props region)) rs
  end.

End TaxSourceSearch.

(** ** Dashboard: sorting the table *)

Module Sorting.

(** The [sortConfig] state cell. *)
Record SortConfig : Type := { key : string; direction : string }.

(** [useState({ key: "taxpayers", direction: "desc" })]. *)
Definition initial : SortConfig := {| key := "taxpayers"; direction := "desc" |}.

(** [a - b]. *)
Definition minus (a b : Val) : Val :=
  Num (SFsub JS.prec JS.emax (JS.toNumber a) (JS.toNumber b)).

(** What [sort] makes of a result [v] of the comparator on [(a, b)]: [a]
    goes after [b] when [v > 0] (and NaN counts as 0). *)
Definition positive (v : Val) : bool := JS.gt v (Num JS.zero).

(** [arr.sort(cmp)] for a comparator that may throw.  On a comparator that
    is consistent for the elements (see [consistent] below) the language
    fixes the result: the elements in the order of the comparator, equal
    ones in their former order; the stable insertion below computes it.  On
    an inconsistent comparator (differences that are NaN among others) the
    order is left to the engine: the insertion gives one of the possible
    orders, and only what holds of every order is stated of it. *)
Fixpoint insertE {A : Type} (cmp : A -> A -> option Val) (x : A) (sorted : list A)
  : option (list A) :=
  match sorted with
  | [] => Some [x]
  | y :: rest =>
      match cmp x y with
      | None => None
      | Some v =>
          if positive v then
            match insertE cmp x rest with
            | None => None
            | Some r => Some (y :: r)
            end
          else Some (x :: sorted)
      end
  end.

Fixpoint sortE {A : Type} (cmp : A -> A -> option Val) (l : list A) : option (list A) :=
  match l with
  | [] => Some []
  | x :: l' =>
      match sortE cmp l' with
      | None => None
      | Some sorted => insertE cmp x sorted
      end
  end.

(** The comparator of the ranking in the detail panel of RegionalAnalysis:
    [(a, b) => b.complianceRate - a.complianceRate]. *)
Definition ranking (a b : Obj) : option Val :=
  Some (minus (JS.get b "complianceRate") (JS.get a "complianceRate")).

(** [sortConfig.key === key && sortConfig.direction === "asc" ? "desc" : "asc"]. *)
Definition nextDirection (sortConfig : SortConfig) (k : string) : string :=
  if String.eqb (key sortConfig) k && String.eqb (direction sortConfig) "asc"
  then "desc" else "asc".

Section Collation.

(** [s.localeCompare(t)] is the collation of the browser's locale; the
    sorting is modelled for any such function. *)
Variable localeCompare : string -> string -> number.

(** [x.localeCompare(y)]: [x] has to be a string, [y] is converted. *)
Definition compareNames (x y : Val) : option Val :=
  match x with
  | Str s => Some (Num (localeCompare s (JS.toString y)))
  | _ => None
  end.

(** The comparator of [sortData]. *)
Definition comparator (k dir : string) (a b : Obj) : option Val :=
  if String.eqb k "region" then
    if String.eqb dir "asc" then compareNames (JS.get a k) (JS.get b k)
    else compareNames (JS.get b k) (JS.get a k)
  else
    Some (if String.eqb dir "asc" then minus (JS.get a k) (JS.get b k)
          else minus (JS.get b k) (JS.get a k)).

(** [sortData(key)] on the two state cells it touches.  [setSortConfig] has
    been called when the comparator throws; [setMetrics] has not. *)
Definition sortData (k : string) (st : SortConfig * Dashboard.Metrics)
  : SortConfig * Dashboard.Metrics :=
  let (sortConfig, metrics) := st in
  let dir := nextDirection sortConfig k in
  let sortConfig' := {| key := k; direction := dir |} in
  match sortE (comparator k dir) (Dashboard.regionalMetrics metrics) with
  | Some sortedMetrics =>
      (sortConfig',
       {| Dashboard.totalTaxpayers := Dashboard.totalTaxpayers metrics;
          Dashboard.totalTax := Dashboard.totalTax metrics;
          Dashboard.avgTax := Dashboard.avgTax metrics;
          Dashboard.avgCompliance := Dashboard.avgCompliance metrics;
          Dashboard.regionalMetrics := sortedMetrics |})
  | None => (sortConfig', metrics)
  end.

End Collation.

(** [a] may stand before [b]: the comparator does not put [a] after
    [b]. *)
Definition inOrder {A : Type} (cmp : A -> A -> option Val) (a b : A) : Prop :=
  exists v, cmp a b = Some v /\ positive v = false.

(** Every element may stand before every later one. *)
Fixpoint ordered {A : Type} (cmp : A -> A -> option Val) (l : list A) : Prop :=
  match l with
  | [] => True
  | a :: l' => Forall (inOrder cmp a) l' /\ ordered cmp l'
  end.

(** How [sort] reads a result of the comparator: negative, positive, or
    zero (NaN counting as zero); [None] when the comparator throws. *)
Definition sign {A : Type} (cmp : A -> A -> option Val) (a b : A) : option comparison :=
  match cmp a b with
  | None => None
  | Some v =>
      Some (if positive v then Gt else if JS.lt v (Num JS.zero) then Lt else Eq)
  end.

(** The reading [o] of a pair is [c]. *)
Definition reads (c : comparison) (o : option comparison) : bool :=
  match o, c with
  | Some Lt, Lt | Some Eq, Eq | Some Gt, Gt => true
  | _, _ => false
  end.

(** [sort] takes [b] for equal to [a]. *)
Definition equalTo {A : Type} (cmp : A -> A -> option Val) (a b : A) : bool :=
  reads Eq (sign cmp a b).

(** The comparator is a consistent comparator for the elements of [l], as
    the language defines it: it throws on none of them, every element is
    equal to itself, equality is symmetric and transitive, [a < b] makes
    [b > a], and [<] and [>] are transitive. *)
Definition consistent {A : Type} (cmp : A -> A -> option Val) (l : list A) : bool :=
  let s := sign cmp in
  forallb (fun a =>
    reads Eq (s a a)
    && forallb (fun b =>
         match s a b with Some _ => true | None => false end
         && implb (reads Eq (s a b)) (reads Eq (s b a))
         && implb (reads Lt (s a b)) (reads Gt (s b a))
         && forallb (fun c =>
              implb (reads Eq (s a b) && reads Eq (s b c)) (reads Eq (s a c))
              && implb (reads Lt (s a b) && reads Lt (s b c)) (reads Lt (s a c))
              && implb (reads Gt (s a b) && reads Gt (s b c)) (reads Gt (s a c))) l) l) l.

End Sorting.

(** ** The upload script *)

Module Seed.

(** [name.split("/")]. *)
Fixpoint split (name : string) : list string :=
  match name with
  | EmptyString => [EmptyString]
  | String c rest =>
      match split rest with
      | segment :: segments =>
          if Ascii.eqb c "/" then EmptyString :: segment :: segments
          else String c segment :: segments
      | [] => []
      end
  end.

(** What [doc(regionsCollection, name)] refers to. *)
Inductive Reference : Type :=
  | Refused
  | Elsewhere
  | Document (key : string).

(** [doc(regionsCollection, name)] for a string [name].  The name is a
    path relative to the collection: it may not be empty nor contain "//";
    its segments are the non-empty parts between the slashes; the path
    [regions/...] has to have an even number of segments, or the call
    throws.  With one segment it is the document of the collection under
    that key; with three or more, a document of a collection further
    down. *)
Definition reference (name : string) : Reference :=
  if String.eqb name "" then Refused
  else if JS.includes name "//" then Refused
  else
    match List.filter (fun segment => negb (String.eqb segment "")) (split name) with
    | [key] => Document key
    | segments => if Nat.even (length segments) then Refused else Elsewhere
    end.

(** The place of a new document in the snapshot: snapshots list the
    documents by ascending key. *)
Fixpoint insertDoc (document : Firestore.Doc) (store : Firestore.Store)
  : Firestore.Store :=
  match store with
  | [] => [document]
  | d :: rest =>
      if JS.string_ltb (Firestore.id document) (Firestore.id d)
      then document :: d :: rest
      else d :: insertDoc document rest
  end.

(** [await setDoc(doc(regionsCollection, key), data)]: the document under
    [key] is created, or replaced as a whole. *)
Definition setDoc (key : string) (data : RegionObj) (store : Firestore.Store)
  : Firestore.Store :=
  let document := {| Firestore.id := key; Firestore.data := data |} in
  if existsb (fun d => String.eqb (Firestore.id d) key) store
  then map (fun d => if String.eqb (Firestore.id d) key then document else d) store
  else insertDoc document store.

(** The data written for a region:
    [{ region: region.region, yearlyData: region.yearlyData }]. *)
Definition written (name : string) (yd : list Obj) : RegionObj :=
  {| props := {[ "region" := Str name ]}; yearlyData := Some yd |}.

(** What one round of the loop does before the write is sent: it throws
    when [region.region] is no string or a name [doc] refuses, or when
    there is no [yearlyData] ([setDoc] refuses [undefined]); otherwise it
    sends the data to the document referred to. *)
Inductive Round : Type :=
  | Throws
  | Sends (target : option string) (data : RegionObj).

Definition round (region : RegionObj) : Round :=
  match JS.get (props region) "region", yearlyData region with
  | Str name, Some yd =>
      match reference name with
      | Refused => Throws
      | Elsewhere => Sends None (written name yd)
      | Document key => Sends (Some key) (written name yd)
      end
  | _, _ => Throws
  end.

(** The loop of [uploadDataToFirestore] from the [i]-th region on; [ok i]
    tells whether the [i]-th write goes through.  The first exception ends
    the loop.  A write to a document further down leaves the collection as
    it is.  Returns the collection and whether
    "All data uploaded successfully!" was logged. *)
Fixpoint uploadFrom (ok : nat -> bool) (i : nat) (regions : list RegionObj)
    (store : Firestore.Store) : Firestore.Store * bool :=
  match regions with
  | [] => (store, true)
  | region :: rest =>
      match round region with
      | Throws => (store, false)
      | Sends target data =>
          if ok i
          then uploadFrom ok (S i) rest
                 (match target with
                  | Some key => setDoc key data store
                  | None => store
                  end)
          else (store, false)
      end
  end.

(** A region whose name is a key: a string that is not empty and has no
    slash, with its [yearlyData]. *)
Definition entry (region : RegionObj) : option (string * list Obj) :=
  match JS.get (props region) "region", yearlyData region with
  | Str name, Some yd =>
      if String.eqb name "" || JS.includes name "/" then None else Some (name, yd)
  | _, _ => None
  end.

(** The document of such a region: the name and the year series under the
    name as key. *)
Definition document (e : string * list Obj) : Firestore.Doc :=
  {| Firestore.id := fst e; Firestore.data := written (fst e) (snd e) |}.

(** The name of the region, where it is a string, has no slash. *)
Definition flat (region : RegionObj) : bool :=
  match JS.get (props region) "region" with
  | Str name => negb (JS.includes name "/")
  | _ => true
  end.

(** The documents are in the order of a snapshot: by ascending key. *)
Fixpoint byKey (store : Firestore.Store) : Prop :=
  match store with
  | [] => True
  | d :: rest =>
      Forall (fun d' => JS.string_ltb (Firestore.id d) (Firestore.id d') = true) rest
      /\ byKey rest
  end.

(** [uploadDataToFirestore()] over [data.regions]. *)
Definition uploadDataToFirestore (ok : nat -> bool) (regions : list RegionObj)
    (store : Firestore.Store) : Firestore.Store * bool :=
  uploadFrom ok 0 regions store.

End Seed.

(** ** Dashboard: the search box *)

Module Search.

(** [setSearchQuery(e.target.value)]. *)
Definition setSearchQuery (query : string) (st : Dashboard.State) : Dashboard.State :=
  {| Dashboard.metrics := Dashboard.metrics st; Dashboard.searchQuery := query;
     Dashboard.selectedYear := Dashboard.selectedYear st;
     Dashboard.editedData := Dashboard.editedData st;
     Dashboard.isEditing := Dashboard.isEditing st;
     Dashboard.loading := Dashboard.loading st; Dashboard.error := Dashboard.error st;
     Dashboard.saveError := Dashboard.saveError st |}.

(** [clearSearch()]. *)
Definition clearSearch (st : Dashboard.State) : Dashboard.State := setSearchQuery "" st.

End Search.

(** ** More sample data *)

Module Cases.

(** A series in which 2024 occurs twice. *)
Definition repeated : list Obj :=
  map Spec.toObj
    [ Sample.record 2024 700 30 21000 300 200 100 (JS.of_decimal false 45 (-2));
      Sample.record 2023 650 30 19500 300 200 100 (JS.of_decimal false 4 (-1));
      Sample.record 2024 710 30 21300 300 200 100 (JS.of_decimal false 45 (-2)) ].

Definition voltaRepeated : Firestore.Store :=
  [ {| Firestore.id := "Volta";
       Firestore.data := {| props := {[ "region" := Str "Volta" ]};
                            yearlyData := Some repeated |} |} ].

Definition y2024 : number := JS.of_Z 2024.

(** An edit for Volta: 720 taxpayers. *)
Definition voltaEdit : Obj :=
  JS.set (Spec.toObj (Sample.record 2024 700 30 21000 300 200 100
                        (JS.of_decimal false 45 (-2))))
         "taxpayers" (Num (JS.of_Z 720)).

(** The Dashboard after the user typed 1,300 into the taxpayers of Ashanti
    and the effect on [editedData] has fetched again. *)
Definition dashboardShown : Dashboard.State :=
  Dashboard.fetchRegions Firestore.online Sample.store
    (Sample.dashboardTyped "taxpayers" "1,300").

(** A store in which one document has lost its [yearlyData]. *)
Definition broken : Firestore.Store :=
  {| Firestore.id := "Aowin";
     Firestore.data := {| props := {[ "region" := Str "Aowin" ]};
                          yearlyData := None |} |}
  :: Sample.store.

(** RegionalAnalysis with Ashanti selected, the form open and 1300 typed
    into the taxpayers. *)
Definition analysisShown : RegionalAnalysis.State :=
  RegionalAnalysis.handleEditChange "taxpayers" "1300"
    (RegionalAnalysis.enterEditMode
       (Selection.handleRegionClick Sample.ashantiRow Sample.analysis1)).

(** RegionalAnalysis showing 2024: the rows as fetched, Volta selected,
    the table in the order the ranking of the detail panel left it
    (Ashanti 0.85, Volta 0.45, Greater Accra with the 0 of a year without a
    record), the form open and 800 typed into the taxpayers. *)
Definition fetched2024 : RegionalAnalysis.State :=
  RegionalAnalysis.fetchRegions Firestore.online Sample.store
    {| RegionalAnalysis.regions := []; RegionalAnalysis.selectedRegion := None;
       RegionalAnalysis.activeTab := "all"; RegionalAnalysis.searchQuery := "";
       RegionalAnalysis.selectedYear := y2024; RegionalAnalysis.loading := true;
       RegionalAnalysis.error := None; RegionalAnalysis.editMode := false;
       RegionalAnalysis.editForm := None; RegionalAnalysis.saving := false;
       RegionalAnalysis.saveError := None |}.

Definition voltaRow : Obj :=
  default ∅ (RegionalAnalysis.regions fetched2024 !! 2%nat).

Definition ranked2024 : list Obj :=
  default [] (Sorting.sortE Sorting.ranking (RegionalAnalysis.regions fetched2024)).

Definition analysis2024 : RegionalAnalysis.State :=
  RegionalAnalysis.handleEditChange "taxpayers" "800"
    (RegionalAnalysis.enterEditMode
       (Selection.rankingLeaves ranked2024
          (Selection.handleRegionClick voltaRow fetched2024))).

(** The regions of a data file, not in the order of their names: two
    regions with year series, then one without a name, then one more. *)
Definition dataFile : list RegionObj :=
  [ Spec.toDoc Sample.volta; Spec.toDoc Sample.ashanti;
    {| props := ∅; yearlyData := Some [] |}; Spec.toDoc Sample.accra ].

(** A data file with names that are paths: "Brong/Ahafo" is refused,
    "a/b/c" is a document further down, "Volta/" is the key "Volta". *)
Definition named (name : string) : RegionObj :=
  {| props := {[ "region" := Str name ]}; yearlyData := Some [] |}.

(** Three rows of a table; the second has no [taxpayers]. *)
Definition gaps : list Obj :=
  [ {[ "region" := Str "Volta"; "taxpayers" := Num (JS.of_Z 2) ]};
    {[ "region" := Str "Ashanti" ]};
    {[ "region" := Str "Oti"; "taxpayers" := Num (JS.of_Z 1) ]} ].

(** The store does not answer. *)
Definition offline : Firestore.Net :=
  {| Firestore.getDocs_ok := false; Firestore.updateDoc_ok := false |}.

End Cases.
(* ===================================================================== *)
(** * The builtins on concrete inputs *)
(* ===================================================================== *)

Section Builtins.

Example parseFloat_decimal : JS.parseFloat "  -12.5e-1px" = JS.of_decimal true 125 (-2).
Proof. compute_done. Qed.

Example parseFloat_failure :
  JS.parseFloat "" = JS.NaN /\ JS.parseFloat "abc" = JS.NaN /\ JS.parseFloat "." = JS.NaN.
Proof. repeat split; compute_done. Qed.

Example parseFloat_stops_at_comma : JS.parseFloat "1,234.5" = JS.of_Z 1.
Proof. compute_done. Qed.

Example parseInt_truncates :
  JS.parseInt "12.75" = JS.of_Z 12 /\ JS.parseInt "0x1F" = JS.of_Z 31
  /\ JS.parseInt "" = JS.NaN.
Proof. repeat split; compute_done. Qed.

Example stringToNumber_examples :
  JS.stringToNumber "" = JS.zero /\ JS.stringToNumber " 42 " = JS.of_Z 42
  /\ JS.stringToNumber "0x10" = JS.of_Z 16 /\ JS.stringToNumber "1e" = JS.NaN.
Proof. repeat split; compute_done. Qed.

Example numberToString_examples :
  JS.numberToString (JS.of_Z 2025) = "2025"
  /\ JS.numberToString (JS.add (JS.of_decimal false 1 (-1)) (JS.of_decimal false 2 (-1)))
     = "0.30000000000000004"
  /\ JS.numberToString (JS.of_decimal false 1 21) = "1e+21"
  /\ JS.numberToString (JS.of_decimal true 15 (-8)) = "-1.5e-7"
  /\ JS.numberToString JS.NaN = "NaN".
Proof. repeat split; compute_done. Qed.

(** Addition turns into concatenation next to a string: with the salary
    input cleared, the "sum" of the three sources 500, 300, 200 is the
    string "300200". *)
Example plus_concatenates :
  JS.plus (JS.plus (Str "") (Num (JS.of_Z 300))) (Num (JS.of_Z 200)) = Str "300200"
  /\ JS.plus (Num JS.zero) Undefined = Num JS.NaN.
Proof. repeat split; compute_done. Qed.

Example comparison_with_NaN :
  JS.lt (Num JS.NaN) (Num JS.zero) = false /\ JS.gt (Num JS.NaN) (Num (JS.of_Z 1)) = false
  /\ JS.ge (Num JS.NaN) (Num JS.zero) = false /\ JS.strictEq (Num JS.NaN) (Num JS.NaN) = false.
Proof. repeat split; reflexivity. Qed.

Example editKey_example : Dashboard.editKey (Str "Ashanti") Sample.y2025 = "Ashanti_2025".
Proof. compute_done. Qed.

End Builtins.

(* ===================================================================== *)
(** * Facts about binary64 arithmetic and comparison *)
(* ===================================================================== *)

Section Binary64.

Lemma shr_1_nonneg (mrs : shr_record) : 0 <= shr_m mrs -> 0 <= shr_m (shr_1 mrs).
Proof.
  destruct mrs as [m r s]; simpl.
  destruct m as [|p|p]; simpl; intros H; try lia; destruct p; simpl; lia.
Qed.

Lemma iter_pos_preserves {A : Type} (P : A -> Prop) (f : A -> A) :
  (forall x, P x -> P (f x)) -> forall p x, P x -> P (SpecFloat.iter_pos f p x).
Proof.
  intros Hf p. induction p as [p IH|p IH|]; simpl; intros x Hx; auto.
Qed.

Lemma shr_nonneg (mrs : shr_record) (e n : Z) :
  0 <= shr_m mrs -> 0 <= shr_m (fst (shr mrs e n)).
Proof.
  intros H. unfold shr. destruct n; simpl; auto.
  apply (iter_pos_preserves (fun r => 0 <= shr_m r)); auto using shr_1_nonneg.
Qed.

Lemma shr_record_of_loc_m (m : Z) (l : location) : shr_m (shr_record_of_loc m l) = m.
Proof. destruct l as [|[]]; reflexivity. Qed.

Lemma round_nearest_even_nonneg (m : Z) (l : location) :
  0 <= m -> 0 <= round_nearest_even m l.
Proof.
  intros H. destruct l as [|[]]; simpl; try lia. destruct (Z.even m); lia.
Qed.

Lemma binary_round_aux_signed (p em : Z) (sx : bool) (mx ex : Z) (lx : location) :
  0 <= mx -> signed sx (binary_round_aux p em sx mx ex lx).
Proof.
  intros Hm. unfold binary_round_aux, shr_fexp.
  destruct (shr (shr_record_of_loc mx lx) ex _) as [mrs' e'] eqn:E1.
  assert (H1 : 0 <= shr_m mrs').
  { change mrs' with (fst (mrs', e')). rewrite <- E1. apply shr_nonneg.
    now rewrite shr_record_of_loc_m. }
  destruct (shr (shr_record_of_loc _ loc_Exact) e' _) as [mrs'' e''] eqn:E2.
  assert (H2 : 0 <= shr_m mrs'').
  { change mrs'' with (fst (mrs'', e'')). rewrite <- E2. apply shr_nonneg.
    rewrite shr_record_of_loc_m. now apply round_nearest_even_nonneg. }
  destruct (shr_m mrs'') as [|q|q]; simpl; try reflexivity; try lia.
  destruct (e'' <=? em - p); reflexivity.
Qed.

Lemma binary_round_signed (p em : Z) (sx : bool) (mx : positive) (ex : Z) :
  signed sx (binary_round p em sx mx ex).
Proof.
  unfold binary_round. destruct (shl_align mx ex _) as [mz ez].
  apply binary_round_aux_signed. lia.
Qed.

Lemma binary_normalize_not_nan (p em m e : Z) (sz : bool) :
  binary_normalize p em m e sz <> S754_nan.
Proof.
  destruct m as [|q|q]; simpl; try discriminate.
  - pose proof (binary_round_signed p em false q e) as H.
    intros E. rewrite E in H. exact H.
  - pose proof (binary_round_signed p em true q e) as H.
    intros E. rewrite E in H. exact H.
Qed.

Lemma leb_zero_nonnegb (x : spec_float) : JS.leb JS.zero x = nonnegb x.
Proof. destruct x as [s|s| |s m e]; try destruct s; reflexivity. Qed.

Lemma add_nonneg (x y : spec_float) :
  nonnegb x = true -> nonnegb y = true -> nonnegb (JS.add x y) = true.
Proof.
  destruct x as [sx|sx| |sx mx ex], y as [sy|sy| |sy my ey];
    simpl; intros Hx Hy; try discriminate; try (destruct sx, sy; (reflexivity || discriminate)).
  destruct sx; [discriminate|]. destruct sy; [discriminate|].
  unfold JS.add, SFadd. cbn [cond_Zopp].
  set (a := fst (shl_align mx ex (Z.min ex ey))).
  set (b := fst (shl_align my ey (Z.min ex ey))).
  change (Z.pos a + Z.pos b) with (Z.pos (a + b)).
  cbn [binary_normalize].
  pose proof (binary_round_signed JS.prec JS.emax false (a + b) (Z.min ex ey)) as H.
  destruct (binary_round _ _ _ _ _) as [s|s| |s m e]; simpl in *; subst; try reflexivity.
  contradiction.
Qed.

(** Adding a finite number never produces NaN. *)
Lemma add_finite_not_nan (x y : spec_float) :
  JS.isNaN x = false -> JS.isFinite y = true -> JS.isNaN (JS.add x y) = false.
Proof.
  destruct x as [sx|sx| |sx mx ex], y as [sy|sy| |sy my ey];
    simpl; intros Hx Hy; try discriminate; try reflexivity;
    try (destruct sx, sy; reflexivity).
  unfold JS.add, SFadd.
  destruct (binary_normalize _ _ _ _ _) eqn:E; try reflexivity.
  now apply binary_normalize_not_nan in E.
Qed.

Lemma SFcompare_antisym (x y : spec_float) :
  SFcompare y x = option_map CompOpp (SFcompare x y).
Proof.
  destruct x as [sx|sx| |sx mx ex], y as [sy|sy| |sy my ey]; simpl;
    try reflexivity; try (destruct sx; reflexivity); try (destruct sy; reflexivity);
    try (destruct sx, sy; reflexivity).
  destruct sx, sy; simpl; try reflexivity; f_equal;
    rewrite (Z.compare_antisym ex ey); destruct (ex ?= ey) eqn:E; simpl; try reflexivity;
    rewrite (Pos.compare_cont_antisym mx my Eq); simpl;
    destruct (Pos.compare_cont Eq mx my); reflexivity.
Qed.

Lemma SFcompare_not_nan (x y : spec_float) :
  JS.isNaN x = false -> JS.isNaN y = false -> exists c, SFcompare x y = Some c.
Proof.
  destruct x as [sx|sx| |sx mx ex], y as [sy|sy| |sy my ey]; simpl;
    intros; try discriminate; eauto.
Qed.

(** Away from NaN, [not (x <= y)] is [y < x]. *)
Lemma negb_leb_ltb (x y : spec_float) :
  JS.isNaN x = false -> JS.isNaN y = false -> negb (JS.leb x y) = JS.ltb y x.
Proof.
  intros Hx Hy. unfold JS.leb, JS.ltb, SFleb, SFltb.
  rewrite (SFcompare_antisym x y).
  destruct (SFcompare_not_nan x y Hx Hy) as [c ->]. destruct c; reflexivity.
Qed.

(** [x >= y] as the operator computes it (not less, and comparable) is
    [y <= x]. *)
Lemma leb_antisym_compare (x y : spec_float) :
  JS.leb y x = match SFcompare x y with Some Lt => false | Some _ => true | None => false end.
Proof.
  unfold JS.leb, SFleb. rewrite (SFcompare_antisym x y).
  destruct (SFcompare x y) as [[]|]; reflexivity.
Qed.

Lemma eqb_not_ltb (x y : spec_float) : JS.eqb x y = true -> JS.ltb y x = false.
Proof.
  unfold JS.eqb, JS.ltb, SFeqb, SFltb. rewrite (SFcompare_antisym x y).
  destruct (SFcompare x y) as [[]|]; simpl; congruence.
Qed.

Lemma ltb_not_eqb (x y : spec_float) : JS.ltb y x = true -> JS.eqb x y = false.
Proof.
  unfold JS.eqb, JS.ltb, SFeqb, SFltb. rewrite (SFcompare_antisym x y).
  destruct (SFcompare x y) as [[]|]; simpl; congruence.
Qed.

(** For a non-negative total the guard [total > 0] of the source and the
    guard [total = 0] of the specification select the same branch. *)
Lemma nonneg_positive_or_zero (x : spec_float) :
  nonnegb x = true -> JS.ltb JS.zero x = negb (JS.eqb x JS.zero).
Proof. destruct x as [s|s| |s m e]; try destruct s; simpl; (reflexivity || discriminate). Qed.

End Binary64.

(* ===================================================================== *)
(** * Operators on numbers and property reads *)
(* ===================================================================== *)

Section Operators.

Lemma lt_toNumber (v : Val) (b : number) :
  JS.lt v (Num b) = JS.ltb (JS.toNumber v) b.
Proof.
  unfold JS.lt, JS.isLessThan, JS.ltb, SFltb.
  destruct v; simpl; case_compare; reflexivity.
Qed.

Lemma gt_toNumber (a b : Val) :
  (forall s t, a = Str s -> b = Str t -> False) ->
  JS.gt a b = JS.ltb (JS.toNumber b) (JS.toNumber a).
Proof.
  intros H. unfold JS.gt, JS.lt, JS.isLessThan, JS.ltb, SFltb.
  destruct b as [|y|t], a as [|x|s]; simpl; try (case_compare; reflexivity).
  exfalso. eauto.
Qed.

Lemma ge_toNumber (v : Val) (b : number) :
  JS.ge v (Num b) = JS.leb b (JS.toNumber v).
Proof.
  rewrite leb_antisym_compare. unfold JS.ge, JS.isLessThan.
  destruct v; simpl; case_compare; reflexivity.
Qed.

Lemma fold_add_nonneg {A : Type} (f : A -> number) (l : list A) :
  Forall (fun a => nonnegb (f a) = true) l ->
  forall acc, nonnegb acc = true ->
    nonnegb (fold_left (fun s a => JS.add s (f a)) l acc) = true.
Proof.
  induction 1 as [|a l Ha _ IH]; intros acc Hacc; simpl; [assumption|].
  apply IH. now apply add_nonneg.
Qed.

(** Reading a data property of a row [{ region: n, ...yearData, ...edited }]
    that no pending edit overlays. *)
Lemma get_row (k : string) (n : Val) (yearData : Obj) :
  k <> "region" ->
  JS.get (JS.spread (JS.spread {[ "region" := n ]} yearData) ∅) k = JS.get yearData k.
Proof.
  intros Hk. unfold JS.get, JS.spread.
  rewrite (left_id_L ∅ (∪)), lookup_union.
  destruct (yearData !! k) as [v|] eqn:E; simpl.
  - now rewrite (union_Some_l v).
  - now rewrite (left_id_L None union), lookup_singleton_ne.
Qed.

Lemma readsAs_toObj (r : Spec.YearRecord) : Spec.readsAs (Spec.toObj r) r.
Proof. unfold Spec.readsAs, Spec.fieldsOf. repeat constructor. Qed.

Lemma readsAs_zeroRecord : Spec.readsAs zeroRecord Spec.zeroYearRecord.
Proof. unfold Spec.readsAs, Spec.fieldsOf. repeat constructor. Qed.

Lemma readsAs_row (n : Val) (yearData : Obj) (r : Spec.YearRecord) :
  Spec.readsAs yearData r ->
  Spec.readsAs (JS.spread (JS.spread {[ "region" := n ]} yearData) ∅) r.
Proof.
  unfold Spec.readsAs, Spec.fieldsOf. intros H.
  invert_Forall.
  repeat constructor; simpl in *; rewrite get_row; done.
Qed.

End Operators.

(* ===================================================================== *)
(** * Texts: parts, letter case *)
(* ===================================================================== *)

Section Substrings.

Lemma startsWith_prefix (s p : string) :
  JS.startsWith s p = true <-> exists t, s = p +:+ t.
Proof.
  revert s. induction p as [|a p IH]; intros [|b s]; cbn [JS.startsWith].
  - split; [intros _; now exists ""|reflexivity].
  - split; [intros _; now exists (String b s)|reflexivity].
  - split; [discriminate|intros [t Ht]; discriminate].
  - rewrite andb_true_iff, Ascii.eqb_eq, IH. split.
    + intros [-> [t ->]]. now exists t.
    + intros [t Ht]. cbn in Ht. injection Ht as -> ->. split; [reflexivity|now exists t].
Qed.

Lemma includes_infix (s q : string) :
  JS.includes s q = true <-> exists a b, s = a +:+ q +:+ b.
Proof.
  split.
  - induction s as [|c s IH]; cbn [JS.includes]; rewrite orb_true_iff.
    + intros [H|H]; [|discriminate]. apply startsWith_prefix in H.
      destruct H as [t Ht]. now exists "", t.
    + intros [H|H].
      * apply startsWith_prefix in H. destruct H as [t Ht]. now exists "", t.
      * destruct (IH H) as (a & b & ->). now exists (String c a), b.
  - intros (a & b & ->). induction a as [|c a IH].
    + change ("" +:+ q +:+ b) with (q +:+ b).
      destruct (q +:+ b) eqn:Hqb; cbn [JS.includes];
        (apply orb_true_iff; left; apply startsWith_prefix; exists b; now rewrite Hqb).
    + change (String c a +:+ q +:+ b) with (String c (a +:+ q +:+ b)).
      cbn [JS.includes]. rewrite IH. apply orb_true_r.
Qed.

Lemma append_assoc (a b c : string) : (a +:+ b) +:+ c = a +:+ (b +:+ c).
Proof.
  induction a as [|x a IH]; [reflexivity|].
  change (String x ((a +:+ b) +:+ c) = String x (a +:+ (b +:+ c))).
  f_equal. exact IH.
Qed.

(** A part of a part is a part. *)
Lemma includes_trans (s q p : string) :
  JS.includes s q = true -> JS.includes q p = true -> JS.includes s p = true.
Proof.
  rewrite !includes_infix. intros (a & b & ->) (a' & b' & ->).
  exists (a +:+ a'), (b' +:+ b). now rewrite !append_assoc.
Qed.

Lemma lower_ascii_idempotent (c : ascii) :
  JS.lower_ascii (JS.lower_ascii c) = JS.lower_ascii c.
Proof. destruct c as [[] [] [] [] [] [] [] []]; reflexivity. Qed.

Lemma toLowerCase_idempotent (s : string) :
  JS.toLowerCase (JS.toLowerCase s) = JS.toLowerCase s.
Proof.
  induction s as [|c s IH]; cbn [JS.toLowerCase]; [reflexivity|].
  now rewrite lower_ascii_idempotent, IH.
Qed.

End Substrings.

Section LetterCase.

Lemma nat_of_ascii_inj (c d : ascii) : nat_of_ascii c = nat_of_ascii d -> c = d.
Proof.
  intros H. rewrite <- (ascii_nat_embedding c), <- (ascii_nat_embedding d).
  now rewrite H.
Qed.

(** [toLowerCase] identifies two characters exactly when they are the same
    letter. *)
Lemma lower_ascii_same (c d : ascii) :
  JS.lower_ascii c = JS.lower_ascii d <-> Spec.sameLetter c d.
Proof.
  unfold JS.lower_ascii, Spec.sameLetter. cbv zeta.
  pose proof (nat_ascii_bounded c) as Hc. pose proof (nat_ascii_bounded d) as Hd.
  pose proof (ascii_nat_embedding c) as Ec. pose proof (ascii_nat_embedding d) as Ed.
  set (x := nat_of_ascii c) in *. set (y := nat_of_ascii d) in *.
  assert (Hxy : c = d <-> x = y).
  { split; [now intros ->|]. intros H. rewrite <- Ec, <- Ed. now rewrite H. }
  assert (Hinj : forall n m : nat, (n < 256)%nat -> (m < 256)%nat ->
                   ascii_of_nat n = ascii_of_nat m <-> n = m).
  { intros n m Hn Hm. split; [|now intros ->].
    intros H. apply (f_equal nat_of_ascii) in H.
    now rewrite !nat_ascii_embedding in H by lia. }
  destruct (Nat.leb_spec 65 x), (Nat.leb_spec x 90),
           (Nat.leb_spec 65 y), (Nat.leb_spec y 90); cbn [andb];
    try rewrite <- Ec at 1; try rewrite <- Ed at 1;
    match goal with
    | |- ascii_of_nat ?n = ascii_of_nat ?m <-> _ => rewrite (Hinj n m) by lia
    end; lia.
Qed.

Lemma toLowerCase_app (a b : string) :
  JS.toLowerCase (a +:+ b) = JS.toLowerCase a +:+ JS.toLowerCase b.
Proof.
  induction a as [|c a IH]; [reflexivity|].
  change (String c a +:+ b) with (String c (a +:+ b)). cbn [JS.toLowerCase].
  rewrite IH. reflexivity.
Qed.

Lemma toLowerCase_app_inv (s x y : string) :
  JS.toLowerCase s = x +:+ y ->
  exists a b, s = a +:+ b /\ JS.toLowerCase a = x /\ JS.toLowerCase b = y.
Proof.
  revert s. induction x as [|c x IH]; intros s H.
  - exists "", s. repeat split. exact H.
  - change (String c x +:+ y) with (String c (x +:+ y)) in H.
    destruct s as [|d s]; [discriminate|]. cbn [JS.toLowerCase] in H.
    injection H as Hd Hs. destruct (IH s Hs) as (a & b & -> & Ha & Hb).
    exists (String d a), b. repeat split; [|exact Hb].
    cbn [JS.toLowerCase]. now rewrite Hd, Ha.
Qed.

(** Two texts have the same lower-case form exactly when they read the
    same. *)
Lemma toLowerCase_sameText (s t : string) :
  JS.toLowerCase s = JS.toLowerCase t <-> Spec.sameText s t.
Proof.
  revert t. induction s as [|c s IH]; intros [|d t];
    cbn [JS.toLowerCase Spec.sameText]; try (split; (discriminate || contradiction)).
  - tauto.
  - rewrite <- IH, <- lower_ascii_same. split.
    + intros [= H1 H2]. now split.
    + intros [-> ->]. reflexivity.
Qed.

(** The test of the search box decides whether the query occurs in the
    name, letter case ignored. *)
Lemma includes_occursIn (name query : string) :
  JS.includes (JS.toLowerCase name) (JS.toLowerCase query) = true
  <-> Spec.occursIn query name.
Proof.
  rewrite includes_infix. unfold Spec.occursIn. split.
  - intros (a' & b' & H).
    apply toLowerCase_app_inv in H. destruct H as (a & rest & -> & Ha & H).
    apply toLowerCase_app_inv in H. destruct H as (m & b & -> & Hm & Hb).
    exists a, m, b. split; [reflexivity|]. now apply toLowerCase_sameText.
  - intros (a & m & b & -> & Hm). apply toLowerCase_sameText in Hm.
    exists (JS.toLowerCase a), (JS.toLowerCase b).
    now rewrite !toLowerCase_app, Hm.
Qed.

(** The filter's test holds of exactly the rows to be selected. *)
Lemma matches_Selected (query : string) (tier : option Spec.Tier) (r : Obj) :
  Spec.matches query tier r = true <-> Spec.Selected query tier r.
Proof.
  unfold Spec.matches, Spec.Selected. rewrite andb_true_iff.
  assert (Hname : match Spec.nameOf r with
                  | Some n => JS.includes (JS.toLowerCase n) (JS.toLowerCase query)
                  | None => false
                  end = true
                  <-> exists n, Spec.nameOf r = Some n /\ Spec.occursIn query n).
  { destruct (Spec.nameOf r) as [n|].
    - rewrite includes_occursIn. split.
      + intros H. now exists n.
      + intros (n' & [= <-] & H). exact H.
    - split; [discriminate|]. intros (n & Hn & _). discriminate. }
  rewrite Hname. destruct tier; tauto.
Qed.

Lemma plainName_is_Some (l : list Obj) :
  Forall plainName l -> Forall (fun r => is_Some (Spec.nameOf r)) l.
Proof.
  intros H. eapply Forall_impl; [exact H|]. intros r (n & Hn & _). now exists n.
Qed.

End LetterCase.

(* ===================================================================== *)
(** * View filter *)
(* ===================================================================== *)

Section ViewFilter.

Lemma includes_empty (s : string) : JS.includes s "" = true.
Proof. destruct s; reflexivity. Qed.

Lemma filter_filter_andb {A : Type} (p q : A -> bool) (l : list A) :
  List.filter q (List.filter p l) = List.filter (fun x => q x && p x) l.
Proof.
  induction l as [|x l IH]; simpl; [reflexivity|].
  destruct (p x) eqn:Hp; simpl.
  - destruct (q x); simpl; now rewrite IH.
  - rewrite andb_false_r. exact IH.
Qed.

Lemma filter_all {A : Type} (p : A -> bool) (l : list A) :
  Forall (fun x => p x = true) l -> List.filter p l = l.
Proof.
  induction 1 as [|x l Hx _ IH]; simpl; [reflexivity|]. now rewrite Hx, IH.
Qed.

(** On rows whose name is a string the search filter throws nowhere and is
    an ordinary filter. *)
Lemma filterE_matchesSearch (query : string) (l : list Obj) :
  Forall (fun r => is_Some (Spec.nameOf r)) l ->
  filterE (matchesSearch query) l = Some (List.filter (Spec.matches query None) l).
Proof.
  induction 1 as [|r l [n Hn] _ IH]; [reflexivity|].
  cbn [filterE List.filter]. rewrite IH.
  unfold matchesSearch, Spec.matches. unfold Spec.nameOf in *.
  destruct (JS.get r "region") as [|x|s]; try discriminate.
  rewrite andb_true_r. reflexivity.
Qed.

Lemma inTab_tabOf (tier : option Spec.Tier) (r : Obj) :
  RegionalAnalysis.inTab (Spec.tabOf tier) r
  = match tier with
    | Some t => Spec.inTier t (JS.toNumber (JS.get r "complianceRate"))
    | None => true
    end.
Proof.
  destruct tier as [[]|]; unfold RegionalAnalysis.inTab; simpl;
    rewrite ?ge_toNumber, ?lt_toNumber; reflexivity.
Qed.

(** C9. For rows whose name is a string of ASCII characters and a query of
    ASCII characters (on a name that is no string the source throws on
    [toLowerCase]; beyond ASCII the engine's case mapping goes further than
    the embedding's), [filteredRegions] returns exactly the rows to be
    selected, in input order: the rows in whose name the query occurs,
    letter case ignored, and whose complianceRate, when a tier is supplied,
    lies in the tier (high: >= 0.8, medium: >= 0.5 and < 0.8, low: < 0.5).
    "Occurs, letter case ignored" is [Spec.occursIn], which is worded
    without [includes] and [toLowerCase].  With the empty query and no tier
    all rows are returned unchanged. *)
Theorem filteredRegions_exact (regions : list Obj) (query : string)
    (tier : option Spec.Tier) :
  Forall plainName regions ->
  plainText query = true ->
  RegionalAnalysis.filteredRegions regions (Spec.tabOf tier) query
    = Some (Spec.filter regions query tier)
  /\ (forall r, Spec.matches query tier r = true <-> Spec.Selected query tier r)
  /\ (forall r, In r (Spec.filter regions query tier)
                <-> In r regions /\ Spec.Selected query tier r)
  /\ RegionalAnalysis.filteredRegions regions (Spec.tabOf None) "" = Some regions.
Proof.
  intros Hplain _. pose proof (plainName_is_Some regions Hplain) as Hnames.
  assert (Hsub : forall tab, Forall (fun r => is_Some (Spec.nameOf r))
                               (List.filter (RegionalAnalysis.inTab tab) regions)).
  { intros tab. rewrite Forall_forall in *. intros r Hr.
    apply Hnames. apply list_elem_of_In. apply list_elem_of_In in Hr.
    apply filter_In in Hr. tauto. }
  unfold RegionalAnalysis.filteredRegions. split; [|split; [|split]].
  - rewrite filterE_matchesSearch by apply Hsub.
    rewrite filter_filter_andb. unfold Spec.filter. f_equal.
    apply filter_ext. intros r. rewrite inTab_tabOf.
    unfold Spec.matches. now rewrite andb_true_r.
  - intros r. apply matches_Selected.
  - intros r. unfold Spec.filter. rewrite filter_In, matches_Selected. reflexivity.
  - rewrite filterE_matchesSearch by apply Hsub.
    rewrite filter_filter_andb. f_equal. apply filter_all.
    eapply Forall_impl; [exact Hnames|]. intros r [n Hn]. cbn beta.
    rewrite inTab_tabOf, andb_true_r. unfold Spec.matches. rewrite Hn.
    cbn [JS.toLowerCase]. now rewrite includes_empty.
Qed.

End ViewFilter.

Lemma filteredRegions_exact_witness :
  let rows := Dashboard.regionalMetrics (Dashboard.metrics Sample.dashboard1) in
  (Forall plainName rows
   /\ plainText "aSh" = true
   /\ length rows = 3%nat
   /\ Spec.filter rows "aSh" None = [Sample.ashantiRow]
   /\ Spec.filter rows "A" (Some Spec.medium) = [default ∅ (rows !! 1%nat)]
   /\ Spec.filter rows "x" None = [])
  /\ RegionalAnalysis.filteredRegions rows (Spec.tabOf None) "aSh"
     = Some (Spec.filter rows "aSh" None)
  /\ (forall r, Spec.matches "aSh" None r = true <-> Spec.Selected "aSh" None r)
  /\ (forall r, In r (Spec.filter rows "aSh" None)
                <-> In r rows /\ Spec.Selected "aSh" None r)
  /\ RegionalAnalysis.filteredRegions rows (Spec.tabOf None) "" = Some rows.
Proof.
  intros rows.
  assert (Hplain : Forall plainName rows).
  { repeat constructor; eexists; (split; [reflexivity|reflexivity]). }
  assert (Hquery : plainText "aSh" = true) by reflexivity.
  split.
  - split; [exact Hplain|]. split; [exact Hquery|].
    split; [compute_done|]. split; [compute_done|]. split; compute_done.
  - exact (filteredRegions_exact rows "aSh" None Hplain Hquery).
Defined.

(* ===================================================================== *)
(** * Validation *)
(* ===================================================================== *)

Section Validation.

Lemma isFinite_not_nan (x : number) : JS.isFinite x = true -> JS.isNaN x = false.
Proof. destruct x; simpl; congruence. Qed.

(** The eight tests of [validate] on an object that reads as a record. *)
Lemma validate_readsAs (msg : string) (o : Obj) (r : Spec.YearRecord) :
  Spec.readsAs o r ->
  validate msg o =
    let check (c : bool) (m : string) : list string := if c then [m] else [] in
    check (JS.ltb (Spec.taxpayers r) JS.zero) "Taxpayers cannot be negative."
    ++ check (JS.ltb (Spec.averageTax r) JS.zero) "Average Tax cannot be negative."
    ++ check (JS.ltb (Spec.totalTax r) JS.zero) "Total Tax cannot be negative."
    ++ check (JS.ltb (Spec.salaryTaxpayers r) JS.zero) "Salary Taxpayers cannot be negative."
    ++ check (JS.ltb (Spec.eVatTaxpayers r) JS.zero) "E-VAT Taxpayers cannot be negative."
    ++ check (JS.ltb (Spec.otherTaxpayers r) JS.zero) "Other Taxpayers cannot be negative."
    ++ check (JS.ltb (Spec.complianceRate r) JS.zero
              || JS.ltb (JS.of_Z 1) (Spec.complianceRate r)) msg
    ++ check (JS.ltb (Spec.taxpayers r)
                (JS.add (JS.add (Spec.salaryTaxpayers r) (Spec.eVatTaxpayers r))
                        (Spec.otherTaxpayers r)))
         Spec.sumMessage.
Proof.
  unfold Spec.readsAs, Spec.fieldsOf. intros H.
  invert_Forall.
  cbn [fst snd] in *. unfold validate.
  repeat match goal with
         | H : JS.get o _ = Num _ |- _ => rewrite H; clear H
         end.
  cbn [JS.plus]. rewrite !lt_toNumber.
  rewrite !gt_toNumber by (intros; discriminate).
  reflexivity.
Qed.

Lemma validate_finite (msg : string) (o : Obj) (r : Spec.YearRecord) :
  Spec.readsAs o r -> Spec.finiteRecord r ->
  validate msg o = Spec.violations msg r.
Proof.
  intros Hreads Hfin. rewrite (validate_readsAs msg o r Hreads).
  unfold Spec.finiteRecord, Spec.fieldsOf in Hfin.
  invert_Forall.
  cbn [fst snd] in *.
  repeat match goal with
         | H : JS.isFinite _ = true |- _ =>
             pose proof (isFinite_not_nan _ H); revert H
         end.
  intros Ft Fa Fx Fs Fe Fo Fc.
  unfold Spec.violations, Spec.sourcesTotal. cbn zeta.
  rewrite <- (negb_leb_ltb JS.zero (Spec.complianceRate r)) by (assumption || reflexivity).
  rewrite <- (negb_leb_ltb (Spec.complianceRate r) (JS.of_Z 1)) by (assumption || reflexivity).
  rewrite <- (negb_leb_ltb
                (JS.add (JS.add (Spec.salaryTaxpayers r) (Spec.eVatTaxpayers r))
                        (Spec.otherTaxpayers r))
                (Spec.taxpayers r));
    [| apply add_finite_not_nan; [apply add_finite_not_nan|]; assumption | assumption].
  repeat f_equal.
  - destruct (JS.leb JS.zero _), (JS.leb _ (JS.of_Z 1)); reflexivity.
  - destruct (JS.leb _ (Spec.taxpayers r)); reflexivity.
Qed.

End Validation.

Section ValidationClaim.

Lemma sumMessage_reported (msg : string) (o : Obj) (r : Spec.YearRecord) :
  Spec.readsAs o r ->
  JS.ltb (Spec.taxpayers r) (Spec.sourcesTotal r) = true ->
  In Spec.sumMessage (validate msg o).
Proof.
  intros Hreads Hlt. rewrite (validate_readsAs msg o r Hreads). cbn zeta.
  unfold Spec.sourcesTotal in Hlt. rewrite Hlt.
  rewrite !in_app_iff. do 7 right. left. reflexivity.
Qed.

Lemma sumMessage_not_reported (msg : string) (o : Obj) (r : Spec.YearRecord) :
  msg <> Spec.sumMessage ->
  Spec.readsAs o r ->
  JS.eqb (Spec.sourcesTotal r) (Spec.taxpayers r) = true ->
  ~ In Spec.sumMessage (validate msg o).
Proof.
  intros Hmsg Hreads Heq. rewrite (validate_readsAs msg o r Hreads). cbn zeta.
  unfold Spec.sourcesTotal in Heq. rewrite (eqb_not_ltb _ _ Heq).
  rewrite !in_app_iff.
  repeat match goal with
         | |- context [if ?b then _ else _] => destruct b
         end;
    cbn [In]; intros H; decompose [or] H; try discriminate; try contradiction;
    congruence.
Qed.

(** X18. The validation on the data model.  For every candidate object whose
    seven data fields are finite numbers, [validateForm] and [validateEdit]
    return the messages of
    exactly the violated constraints — a negative field, a complianceRate
    outside [0,1], the three sources exceeding the taxpayers — each judged on
    its own and all of them reported; a record whose sources exceed its
    taxpayers is rejected with the sum message, and one whose sources equal
    its taxpayers exactly does not get that message. *)
Theorem validate_reports_every_violation (o : Obj) (r : Spec.YearRecord) :
  Spec.readsAs o r ->
  Spec.finiteRecord r ->
  RegionalAnalysis.validateForm o = Spec.violations RegionalAnalysis.complianceMessage r
  /\ Dashboard.validateEdit o = Spec.violations Dashboard.complianceMessage r
  /\ (JS.ltb (Spec.taxpayers r) (Spec.sourcesTotal r) = true ->
      In Spec.sumMessage (RegionalAnalysis.validateForm o)
      /\ In Spec.sumMessage (Dashboard.validateEdit o))
  /\ (JS.eqb (Spec.sourcesTotal r) (Spec.taxpayers r) = true ->
      ~ In Spec.sumMessage (RegionalAnalysis.validateForm o)
      /\ ~ In Spec.sumMessage (Dashboard.validateEdit o)).
Proof.
  intros Hreads Hfin. unfold RegionalAnalysis.validateForm, Dashboard.validateEdit.
  repeat split.
  - now apply validate_finite.
  - now apply validate_finite.
  - now apply (sumMessage_reported _ o r).
  - now apply (sumMessage_reported _ o r).
  - apply (sumMessage_not_reported _ o r); [discriminate|assumption..].
  - apply (sumMessage_not_reported _ o r); [discriminate|assumption..].
Qed.

Lemma validate_reports_every_violation_witness :
  let o := Spec.toObj SampleRecords.exceeding in
  let r := SampleRecords.exceeding in
  (Spec.readsAs o r /\ Spec.finiteRecord r
   /\ JS.ltb (Spec.taxpayers r) (Spec.sourcesTotal r) = true)
  /\ RegionalAnalysis.validateForm o = Spec.violations RegionalAnalysis.complianceMessage r
  /\ Dashboard.validateEdit o = Spec.violations Dashboard.complianceMessage r
  /\ (JS.ltb (Spec.taxpayers r) (Spec.sourcesTotal r) = true ->
      In Spec.sumMessage (RegionalAnalysis.validateForm o)
      /\ In Spec.sumMessage (Dashboard.validateEdit o))
  /\ (JS.eqb (Spec.sourcesTotal r) (Spec.taxpayers r) = true ->
      ~ In Spec.sumMessage (RegionalAnalysis.validateForm o)
      /\ ~ In Spec.sumMessage (Dashboard.validateEdit o)).
Proof.
  split.
  - split; [apply readsAs_toObj|]. split; [repeat constructor|reflexivity].
  - apply (validate_reports_every_violation (Spec.toObj SampleRecords.exceeding)
             SampleRecords.exceeding).
    + apply readsAs_toObj.
    + repeat constructor.
Defined.

(** C6. The validation on a record whose complianceRate is NaN — what the
    Dashboard stages for the compliance input "abc": the rate is not within
    [0,1], so the constraint is violated and its message is due, yet
    [validateEdit] returns no message at all. *)
Lemma validate_misses_NaN_compliance :
  Dashboard.parsedValue "complianceRate" "abc" = Num (Spec.complianceRate SampleRecords.nanCompliance)
  /\ Spec.readsAs (Spec.toObj SampleRecords.nanCompliance) SampleRecords.nanCompliance
  /\ Spec.violations Dashboard.complianceMessage SampleRecords.nanCompliance
     = [Dashboard.complianceMessage]
  /\ Dashboard.validateEdit (Spec.toObj SampleRecords.nanCompliance) = [].
Proof.
  split; [|split; [|split]]; compute_done.
Qed.

End ValidationClaim.

(* ===================================================================== *)
(** * Metrics aggregator *)
(* ===================================================================== *)

Section Aggregator.

Lemma fold_plus_reads {A B : Type} (g : A -> Val) (f : B -> number)
    (rows : list A) (recs : list B) :
  Forall2 (fun o r => g o = Num (f r)) rows recs ->
  forall acc,
    fold_left (fun sum o => JS.plus sum (g o)) rows (Num acc)
    = Num (fold_left (fun s r => JS.add s (f r)) recs acc).
Proof.
  induction 1 as [|o r rows recs Hor _ IH]; intros acc; simpl; [reflexivity|].
  rewrite Hor. simpl. apply IH.
Qed.

Lemma readsAs_fields (o : Obj) (r : Spec.YearRecord) :
  Spec.readsAs o r ->
  JS.get o "taxpayers" = Num (Spec.taxpayers r)
  /\ JS.get o "totalTax" = Num (Spec.totalTax r)
  /\ JS.get o "complianceRate" = Num (Spec.complianceRate r)
  /\ JS.get o "salaryTaxpayers" = Num (Spec.salaryTaxpayers r)
  /\ JS.get o "eVatTaxpayers" = Num (Spec.eVatTaxpayers r)
  /\ JS.get o "otherTaxpayers" = Num (Spec.otherTaxpayers r).
Proof.
  unfold Spec.readsAs, Spec.fieldsOf. intros H.
  invert_Forall.
  cbn [fst snd] in *. repeat split; assumption.
Qed.

(** The four reductions of the source over rows that read as records. *)
Lemma computeMetrics_reads (rows : list Obj) (recs : list Spec.YearRecord) :
  Forall2 Spec.readsAs rows recs ->
  let total := Spec.sum Spec.taxpayers recs in
  let tax := Spec.sum Spec.totalTax recs in
  let weighted := Spec.sum (fun r => JS.mul (Spec.complianceRate r) (Spec.taxpayers r)) recs in
  Dashboard.computeMetrics rows =
    {| Dashboard.totalTaxpayers := Num total;
       Dashboard.totalTax := Num tax;
       Dashboard.avgTax := Num (if JS.ltb JS.zero total then JS.div tax total else JS.zero);
       Dashboard.avgCompliance :=
         Num (if JS.ltb JS.zero total then JS.div weighted total else JS.zero);
       Dashboard.regionalMetrics := rows |}.
Proof.
  intros Hreads total tax weighted. unfold Dashboard.computeMetrics.
  rewrite (fold_plus_reads (fun o => JS.get o "taxpayers") Spec.taxpayers rows recs)
    by (eapply Forall2_impl; [exact Hreads|]; intros o r H; apply readsAs_fields in H; tauto).
  rewrite (fold_plus_reads (fun o => JS.get o "totalTax") Spec.totalTax rows recs)
    by (eapply Forall2_impl; [exact Hreads|]; intros o r H; apply readsAs_fields in H; tauto).
  rewrite (fold_plus_reads
             (fun o => JS.times (JS.get o "complianceRate") (JS.get o "taxpayers"))
             (fun r => JS.mul (Spec.complianceRate r) (Spec.taxpayers r)) rows recs).
  2:{ eapply Forall2_impl; [exact Hreads|]. intros o r H. apply readsAs_fields in H.
      destruct H as (Ht & _ & Hc & _). now rewrite Ht, Hc. }
  fold (Spec.sum Spec.taxpayers recs) (Spec.sum Spec.totalTax recs)
       (Spec.sum (fun r => JS.mul (Spec.complianceRate r) (Spec.taxpayers r)) recs).
  fold total tax weighted.
  unfold JS.gt. rewrite lt_toNumber. cbn [JS.toNumber].
  destruct (JS.ltb JS.zero total); reflexivity.
Qed.

Lemma sum_taxpayers_nonneg (recs : list Spec.YearRecord) :
  Forall (fun r => JS.leb JS.zero (Spec.taxpayers r) = true) recs ->
  nonnegb (Spec.sum Spec.taxpayers recs) = true.
Proof.
  intros Hnonneg. apply fold_add_nonneg; [|reflexivity].
  eapply Forall_impl; [exact Hnonneg|]. intros r H. now rewrite <- leb_zero_nonnegb.
Qed.

(** They compute the aggregate of the specification when no record has a
    negative number of taxpayers. *)
Lemma computeMetrics_aggregate (rows : list Obj) (recs : list Spec.YearRecord) :
  Forall2 Spec.readsAs rows recs ->
  Forall (fun r => JS.leb JS.zero (Spec.taxpayers r) = true) recs ->
  Dashboard.computeMetrics rows =
    {| Dashboard.totalTaxpayers := Num (Spec.aggTotalTaxpayers (Spec.aggregateRecords recs));
       Dashboard.totalTax := Num (Spec.aggTotalTax (Spec.aggregateRecords recs));
       Dashboard.avgTax := Num (Spec.aggAverageTax (Spec.aggregateRecords recs));
       Dashboard.avgCompliance := Num (Spec.aggComplianceRate (Spec.aggregateRecords recs));
       Dashboard.regionalMetrics := rows |}.
Proof.
  intros Hreads Hnonneg. rewrite (computeMetrics_reads rows recs Hreads). cbv zeta.
  rewrite (nonneg_positive_or_zero _ (sum_taxpayers_nonneg recs Hnonneg)).
  unfold Spec.aggregateRecords. cbn [Spec.aggTotalTaxpayers Spec.aggTotalTax
    Spec.aggAverageTax Spec.aggComplianceRate].
  destruct (JS.eqb (Spec.sum Spec.taxpayers recs) JS.zero); reflexivity.
Qed.

Lemma find_toObj (y : number) (recs : list Spec.YearRecord) :
  JS.find (fun d => JS.strictEq (JS.get d "year") (Num y)) (map Spec.toObj recs)
  = option_map Spec.toObj (List.find (fun r => JS.eqb (Spec.year r) y) recs).
Proof.
  unfold JS.find. induction recs as [|r recs IH]; [reflexivity|].
  cbn [map List.find].
  change (JS.strictEq (JS.get (Spec.toObj r) "year") (Num y)) with (JS.eqb (Spec.year r) y).
  destruct (JS.eqb (Spec.year r) y); [reflexivity|exact IH].
Qed.

Lemma yearDataOf_toDoc (y : number) (R : Spec.Region) :
  exists yd, yearDataOf y (Spec.toDoc R) = Some yd /\ Spec.readsAs yd (Spec.select y R).
Proof.
  unfold yearDataOf, Spec.toDoc, Spec.select. cbn [yearlyData].
  rewrite find_toObj.
  destruct (List.find _ (Spec.records R)) as [r|]; simpl; eexists; split; try reflexivity.
  - apply readsAs_toObj.
  - apply readsAs_zeroRecord.
Qed.

(** Without a pending edit for them, the rows that [fetchRegions] builds
    read as the records selected for the year. *)
Lemma regionalMetricsOf_select (ed : gmap string Obj) (y : number)
    (regions : list Spec.Region) :
  Forall (fun R => ed !! Dashboard.editKey (Str (Spec.name R)) y = None) regions ->
  exists rows,
    Dashboard.regionalMetricsOf ed y (map Spec.toDoc regions) = Some rows
    /\ Forall2 Spec.readsAs rows (map (Spec.select y) regions).
Proof.
  unfold Dashboard.regionalMetricsOf.
  induction 1 as [|R regions HR _ (rows & Hrows & Hreads)].
  - exists []. split; [reflexivity|constructor].
  - destruct (yearDataOf_toDoc y R) as (yd & Hyd & Hyr).
    cbn [map mapE]. rewrite Hyd, Hrows.
    change (JS.get (props (Spec.toDoc R)) "region") with (Str (Spec.name R)).
    rewrite HR. cbn [default].
    eexists. split; [reflexivity|]. constructor; [|exact Hreads].
    now apply readsAs_row.
Qed.

End Aggregator.

Section NationalAggregate.

Lemma select_nonneg (y : number) (R : Spec.Region) :
  Forall (fun r => JS.leb JS.zero (Spec.taxpayers r) = true) (Spec.records R) ->
  JS.leb JS.zero (Spec.taxpayers (Spec.select y R)) = true.
Proof.
  intros H. unfold Spec.select.
  destruct (List.find _ (Spec.records R)) as [r|] eqn:E; simpl; [|reflexivity].
  apply find_some in E. rewrite Forall_forall in H. apply H.
  apply list_elem_of_In. tauto.
Qed.

(** C1. The four reductions that [fetchRegions] and [saveEdits] run over the
    rows compute, for rows that read as records, the aggregate of the
    specification: totalTaxpayers and totalTax are the sums; averageTax and
    complianceRate are 0 when totalTaxpayers is 0 and the ratio
    totalTax / totalTaxpayers and the taxpayer-weighted mean when it is
    positive — which covers every list of records without a negative number
    of taxpayers.  When the store holds the documents of [regions] and no
    pending edit overlays them, the rows that [fetchRegions] builds are,
    region by region, the record of the selected year or the all-zero
    record, so the metrics it stores are the aggregate of [regions] for that
    year.  On the scenario of the specification (100 taxpayers at 0.9 and
    300 at 0.5) the weighted complianceRate is 0.6. *)
Theorem national_aggregate :
  (forall (rows : list Obj) (recs : list Spec.YearRecord),
      Forall2 Spec.readsAs rows recs ->
      let m := Dashboard.computeMetrics rows in
      let a := Spec.aggregateRecords recs in
      Dashboard.totalTaxpayers m = Num (Spec.aggTotalTaxpayers a)
      /\ Dashboard.totalTax m = Num (Spec.aggTotalTax a)
      /\ (JS.eqb (Spec.aggTotalTaxpayers a) JS.zero = true ->
          Dashboard.avgTax m = Num JS.zero /\ Dashboard.avgCompliance m = Num JS.zero)
      /\ (JS.ltb JS.zero (Spec.aggTotalTaxpayers a) = true ->
          Dashboard.avgTax m = Num (Spec.aggAverageTax a)
          /\ Dashboard.avgCompliance m = Num (Spec.aggComplianceRate a))
      /\ (Forall (fun r => JS.leb JS.zero (Spec.taxpayers r) = true) recs ->
          Dashboard.avgTax m = Num (Spec.aggAverageTax a)
          /\ Dashboard.avgCompliance m = Num (Spec.aggComplianceRate a)))
  /\ (forall (regions : list Spec.Region) (store : Firestore.Store) (st : Dashboard.State),
         map Firestore.data store = map Spec.toDoc regions ->
         Forall (fun R => Dashboard.editedData st
                            !! Dashboard.editKey (Str (Spec.name R)) (Dashboard.selectedYear st)
                          = None) regions ->
         Forall (fun R => Forall (fun r => JS.leb JS.zero (Spec.taxpayers r) = true)
                                 (Spec.records R)) regions ->
         let m := Dashboard.metrics (Dashboard.fetchRegions Firestore.online store st) in
         let a := Spec.aggregate regions (Dashboard.selectedYear st) in
         Forall2 Spec.readsAs (Dashboard.regionalMetrics m)
                 (map (Spec.select (Dashboard.selectedYear st)) regions)
         /\ Dashboard.totalTaxpayers m = Num (Spec.aggTotalTaxpayers a)
         /\ Dashboard.totalTax m = Num (Spec.aggTotalTax a)
         /\ Dashboard.avgTax m = Num (Spec.aggAverageTax a)
         /\ Dashboard.avgCompliance m = Num (Spec.aggComplianceRate a))
  /\ (forall region edit st,
         Dashboard.metrics (Dashboard.committed region edit st)
         = Dashboard.computeMetrics
             (Dashboard.regionalMetrics (Dashboard.metrics (Dashboard.committed region edit st))))
  /\ Dashboard.avgCompliance (Dashboard.computeMetrics Sample.scenario)
     = Num (JS.of_decimal false 6 (-1)).
Proof.
  split; [|split; [|split]].
  - intros rows recs Hreads m a. subst m a.
    rewrite (computeMetrics_reads rows recs Hreads). cbv zeta.
    unfold Spec.aggregateRecords.
    cbn [Dashboard.totalTaxpayers Dashboard.totalTax Dashboard.avgTax
         Dashboard.avgCompliance Spec.aggTotalTaxpayers Spec.aggTotalTax
         Spec.aggAverageTax Spec.aggComplianceRate].
    split; [reflexivity|]. split; [reflexivity|]. split; [|split].
    + intros Hzero. now rewrite (eqb_not_ltb _ _ Hzero).
    + intros Hpos. now rewrite Hpos, (ltb_not_eqb _ _ Hpos).
    + intros Hnonneg.
      rewrite (nonneg_positive_or_zero _ (sum_taxpayers_nonneg recs Hnonneg)).
      now destruct (JS.eqb (Spec.sum Spec.taxpayers recs) JS.zero).
  - intros regions store st Hstore Hedits Hnonneg m a.
    destruct (regionalMetricsOf_select _ _ _ Hedits) as (rows & Hrows & Hreads).
    assert (Hm : m = Dashboard.computeMetrics rows).
    { subst m. unfold Dashboard.fetchRegions.
      cbn [Firestore.getDocs Firestore.online Firestore.getDocs_ok].
      now rewrite Hstore, Hrows. }
    assert (Hsel : Forall (fun r => JS.leb JS.zero (Spec.taxpayers r) = true)
                          (map (Spec.select (Dashboard.selectedYear st)) regions)).
    { apply Forall_map. eapply Forall_impl; [exact Hnonneg|].
      intros R HR. now apply select_nonneg. }
    rewrite (computeMetrics_aggregate rows _ Hreads Hsel) in Hm.
    fold (Spec.aggregate regions (Dashboard.selectedYear st)) in Hm. fold a in Hm.
    rewrite Hm.
    cbn [Dashboard.regionalMetrics Dashboard.totalTaxpayers Dashboard.totalTax
         Dashboard.avgTax Dashboard.avgCompliance].
    split; [exact Hreads|]. repeat split; reflexivity.
  - reflexivity.
  - compute_done.
Qed.

End NationalAggregate.

Lemma national_aggregate_witness :
  let m := Dashboard.metrics
             (Dashboard.fetchRegions Firestore.online Sample.store Sample.dashboard0) in
  let a := Spec.aggregate Sample.regions (Dashboard.selectedYear Sample.dashboard0) in
  (map Firestore.data Sample.store = map Spec.toDoc Sample.regions
   /\ Spec.aggTotalTaxpayers a = JS.of_Z 4000
   /\ Spec.aggAverageTax a = JS.of_decimal false 575 (-1)
   /\ Spec.aggComplianceRate a = JS.of_decimal false 6 (-1))
  /\ Dashboard.totalTaxpayers m = Num (Spec.aggTotalTaxpayers a)
  /\ Dashboard.totalTax m = Num (Spec.aggTotalTax a)
  /\ Dashboard.avgTax m = Num (Spec.aggAverageTax a)
  /\ Dashboard.avgCompliance m = Num (Spec.aggComplianceRate a).
Proof.
  intros m a.
  assert (H1 : map Firestore.data Sample.store = map Spec.toDoc Sample.regions)
    by reflexivity.
  assert (H2 : Forall (fun R => Dashboard.editedData Sample.dashboard0
                                  !! Dashboard.editKey (Str (Spec.name R))
                                       (Dashboard.selectedYear Sample.dashboard0)
                                = None) Sample.regions)
    by compute_done.
  assert (H3 : Forall (fun R => Forall (fun r => JS.leb JS.zero (Spec.taxpayers r) = true)
                                       (Spec.records R)) Sample.regions)
    by compute_done.
  destruct national_aggregate as (_ & Hfetch & _).
  destruct (Hfetch Sample.regions Sample.store Sample.dashboard0 H1 H2 H3)
    as (_ & Ht & Hx & Ha & Hc).
  split; [split; [exact H1|repeat split; compute_done]|].
  split; [exact Ht|]. split; [exact Hx|]. split; [exact Ha|exact Hc].
Defined.

(* ===================================================================== *)
(** * Source breakdown *)
(* ===================================================================== *)

Section SourceBreakdown.

Lemma toFlat_reads (R : Spec.FlatRegion) :
  Spec.readsAs (props (Spec.toFlat R)) (Spec.flatRecord R).
Proof. unfold Spec.readsAs, Spec.fieldsOf. repeat constructor. Qed.

Lemma sumOf_flat (k : string) (f : Spec.YearRecord -> number) (regions : list Spec.FlatRegion) :
  (forall R, JS.get (props (Spec.toFlat R)) k = Num (f (Spec.flatRecord R))) ->
  fold_left (fun sum r => JS.plus sum (JS.get (props r) k)) (map Spec.toFlat regions)
            (Num JS.zero)
  = Num (Spec.sum f (map Spec.flatRecord regions)).
Proof.
  intros Hk. unfold Spec.sum. generalize JS.zero.
  induction regions as [|R regions IH]; intros acc; [reflexivity|].
  cbn [map fold_left]. rewrite Hk. cbn [JS.plus JS.toNumber]. apply IH.
Qed.

Lemma sumOf_props (k : string) (regions regions' : list RegionObj) :
  map props regions = map props regions' ->
  fold_left (fun sum r => JS.plus sum (JS.get (props r) k)) regions (Num JS.zero)
  = fold_left (fun sum r => JS.plus sum (JS.get (props r) k)) regions' (Num JS.zero).
Proof.
  generalize (Num JS.zero). revert regions'.
  induction regions as [|r regions IH]; intros [|r' regions'] acc H;
    try discriminate; [reflexivity|].
  cbn [map] in H. injection H as Hr Hrest. cbn [fold_left]. rewrite Hr. now apply IH.
Qed.

(** C2 (amended). Over the regions of the static data file — one record per
    region, no [yearlyData] — the three totals are the sums of
    salaryTaxpayers, eVatTaxpayers and otherTaxpayers over the regions; for
    region objects of any shape the totals depend on the regions' own
    properties only, so a [yearlyData] array is never read and no year is
    filtered. *)
Theorem source_totals_flat (regions : list Spec.FlatRegion) :
  (let t := TaxSourceBreakdown.totals (map Spec.toFlat regions) in
   let s := Spec.sourceTotalsOf (map Spec.flatRecord regions) in
   TaxSourceBreakdown.totalSalaryTaxpayers t = Num (Spec.salary s)
   /\ TaxSourceBreakdown.totalEVatTaxpayers t = Num (Spec.eVat s)
   /\ TaxSourceBreakdown.totalOtherTaxpayers t = Num (Spec.other s))
  /\ forall objs objs' : list RegionObj,
       map props objs = map props objs' ->
       TaxSourceBreakdown.totals objs = TaxSourceBreakdown.totals objs'.
Proof.
  split.
  - unfold TaxSourceBreakdown.totals, Spec.sourceTotalsOf; cbn.
    repeat split; apply sumOf_flat; reflexivity.
  - intros objs objs' H. unfold TaxSourceBreakdown.totals.
    now rewrite !(sumOf_props _ objs objs' H).
Qed.

Lemma source_totals_flat_witness :
  TaxSourceBreakdown.totalSalaryTaxpayers
    (TaxSourceBreakdown.totals (map Spec.toFlat SampleRecords.flat)) = Num (JS.of_Z 2000)
  /\ TaxSourceBreakdown.totals (map Spec.toDoc Sample.regions)
     = TaxSourceBreakdown.totals
         (map (fun R => {| props := props (Spec.toDoc R); yearlyData := None |}) Sample.regions).
Proof.
  destruct (source_totals_flat SampleRecords.flat) as [(Hs & _ & _) Hprops]. split.
  - rewrite Hs. compute_done.
  - apply Hprops. reflexivity.
Defined.

(** C2 as stated fails on regions that own year series: across all
    YearRecords of the three sample regions the salaried taxpayers add up to
    2700, while the component, which reads [r.salaryTaxpayers] on the region
    object itself, adds [undefined] to 0 and reports NaN. *)
Lemma source_totals_ignore_year_records :
  Spec.salary (Spec.aggregate_by_source Sample.regions) = JS.of_Z 2700
  /\ TaxSourceBreakdown.totalSalaryTaxpayers
       (TaxSourceBreakdown.totals (map Spec.toDoc Sample.regions)) = Num JS.NaN.
Proof. split; compute_done. Qed.

End SourceBreakdown.

(* ===================================================================== *)
(** * Staging an edit *)
(* ===================================================================== *)

Section Staging.

Lemma or_zero (x : number) : JS.or (Num x) (Num JS.zero) = Num (orZero x).
Proof.
  unfold JS.or, orZero, JS.truthy.
  destruct (JS.isNaN x || JS.isZero x) eqn:E; simpl; [|reflexivity].
  reflexivity.
Qed.

Lemma stripCommas_idempotent (s : string) :
  JS.stripCommas (JS.stripCommas s) = JS.stripCommas s.
Proof.
  induction s as [|c s IH]; [reflexivity|]. cbn [JS.stripCommas].
  destruct (Ascii.eqb c ",") eqn:E; [exact IH|].
  cbn [JS.stripCommas]. now rewrite E, IH.
Qed.

Lemma orZero_not_nan (x : number) : JS.isNaN (orZero x) = false.
Proof. unfold orZero. destruct x; reflexivity. Qed.

(** C4 (amended). The RegionalAnalysis form stores a non-empty raw value as
    its float parse, 0 when the parse fails, and keeps the empty raw value as
    the empty string; both components put the parsed value under the edited
    field and leave the other staged fields as they were.  The Dashboard
    stores a field other than complianceRate as the integer parse of the raw
    value without its thousand separators, 0 when the parse fails — never
    NaN, and the separators make no difference — and stores complianceRate
    as the float parse of the percent input divided by 100; "85" is stored
    as 0.85. *)
Theorem stage_parses (field value : string) :
  (value <> "" ->
   RegionalAnalysis.parseField value = Num (orZero (JS.parseFloat value))
   /\ JS.isNaN (orZero (JS.parseFloat value)) = false)
  /\ RegionalAnalysis.parseField "" = Str ""
  /\ (forall st,
        RegionalAnalysis.editForm (RegionalAnalysis.handleEditChange field value st)
        = Some (<[field := RegionalAnalysis.parseField value]>
                  (default ∅ (RegionalAnalysis.editForm st))))
  /\ (field <> "complianceRate" ->
      Dashboard.parsedValue field value
        = Num (orZero (JS.parseInt (JS.stripCommas value)))
      /\ JS.isNaN (orZero (JS.parseInt (JS.stripCommas value))) = false
      /\ Dashboard.parsedValue field (JS.stripCommas value)
         = Dashboard.parsedValue field value)
  /\ Dashboard.parsedValue "complianceRate" value
     = Num (JS.div (JS.parseFloat value) (JS.of_Z 100))
  /\ (forall region st,
        let key := Dashboard.editKey (JS.get region "region") (Dashboard.selectedYear st) in
        Dashboard.editedData (Dashboard.handleEditChange region field value st) !! key
        = Some (<[field := Dashboard.parsedValue field value]>
                  (default ∅ (Dashboard.editedData st !! key))))
  /\ Dashboard.parsedValue "complianceRate" "85" = Num (JS.of_decimal false 85 (-2)).
Proof.
  split; [|split; [|split; [|split; [|split; [|split]]]]].
  - intros Hne. unfold RegionalAnalysis.parseField.
    destruct (String.eqb_spec value ""); [contradiction|].
    split; [apply or_zero|apply orZero_not_nan].
  - reflexivity.
  - reflexivity.
  - intros Hne. unfold Dashboard.parsedValue.
    destruct (String.eqb_spec field "complianceRate"); [contradiction|].
    rewrite stripCommas_idempotent.
    split; [apply or_zero|]. split; [apply orZero_not_nan|reflexivity].
  - reflexivity.
  - intros region st key. cbn [Dashboard.handleEditChange Dashboard.editedData].
    apply lookup_insert_eq.
  - compute_done.
Qed.

Lemma stage_parses_witness :
  ("1,234.5" <> "" /\ "taxpayers" <> "complianceRate")
  /\ RegionalAnalysis.parseField "1,234.5" = Num (orZero (JS.parseFloat "1,234.5"))
  /\ Dashboard.parsedValue "taxpayers" "1,234.5"
     = Num (orZero (JS.parseInt (JS.stripCommas "1,234.5")))
  /\ orZero (JS.parseFloat "1,234.5") = JS.of_Z 1
  /\ orZero (JS.parseInt (JS.stripCommas "1,234.5")) = JS.of_Z 1234.
Proof.
  destruct (stage_parses "taxpayers" "1,234.5") as (H1 & _ & _ & H3 & _).
  split; [split; discriminate|].
  split; [apply H1; discriminate|].
  split; [apply H3; discriminate|].
  split; compute_done.
Defined.

(** C4 as stated fails on the empty raw value in the RegionalAnalysis form:
    its float parse fails (NaN), yet the field is staged as the empty string
    and not as 0.  (In the Dashboard the fields other than complianceRate go
    through the integer parse, so "12.75" is staged as 12.) *)
Lemma stage_keeps_empty_string :
  JS.parseFloat "" = JS.NaN
  /\ RegionalAnalysis.parseField "" = Str ""
  /\ JS.get (default ∅ (RegionalAnalysis.editForm (Sample.analysisTyped "taxpayers" "")))
            "taxpayers" = Str ""
  /\ Dashboard.parsedValue "averageTax" "12.75" = Num (JS.of_Z 12).
Proof. repeat split; compute_done. Qed.

End Staging.

(* ===================================================================== *)
(** * Commit: the read-modify-write *)
(* ===================================================================== *)

Section Commit.

Lemma some_errors (errors : list string) :
  errors <> [] -> negb (Nat.eqb (length errors) 0) = true.
Proof. destruct errors; simpl; congruence. Qed.

(** What [saveEdits] writes — every record of the year replaced, the
    candidate pushed when there was none — is the upsert of the
    specification when at most one record carries the year. *)
Lemma map_push_upsert {A : Type} (isTarget : A -> bool) (candidate : A) (l : list A) :
  Spec.atMostOne isTarget l ->
  (if negb (JS.some isTarget l)
   then map (fun x => if isTarget x then candidate else x) l ++ [candidate]
   else map (fun x => if isTarget x then candidate else x) l)
  = Spec.upsert isTarget candidate l.
Proof.
  unfold Spec.atMostOne, JS.some.
  induction l as [|x l IH]; intros Hone; [reflexivity|].
  cbn [map existsb Spec.upsert List.filter] in *.
  destruct (isTarget x) eqn:Hx.
  - cbn [orb negb]. f_equal.
    assert (Hnone : List.filter isTarget l = []).
    { destruct (List.filter isTarget l); [reflexivity|simpl in Hone; lia]. }
    clear IH Hone. induction l as [|z l IH]; [reflexivity|].
    cbn [List.filter map] in *. destruct (isTarget z); [discriminate|].
    f_equal. now apply IH.
  - cbn [orb]. rewrite <- (IH Hone).
    destruct (negb (existsb isTarget l)); reflexivity.
Qed.

Lemma find_upsert {A : Type} (isTarget : A -> bool) (candidate : A) (l : list A) :
  isTarget candidate = true ->
  List.find isTarget (Spec.upsert isTarget candidate l) = Some candidate.
Proof.
  intros Hc. induction l as [|x l IH]; cbn [Spec.upsert List.find].
  - now rewrite Hc.
  - destruct (isTarget x) eqn:Hx; cbn [List.find]; [now rewrite Hc|now rewrite Hx].
Qed.

Lemma upsert_other {A : Type} (isTarget : A -> bool) (candidate : A) (l : list A)
    (i : nat) (x : A) :
  l !! i = Some x -> isTarget x = false ->
  Spec.upsert isTarget candidate l !! i = Some x.
Proof.
  revert i. induction l as [|z l IH]; intros i Hi Hx; [discriminate|].
  cbn [Spec.upsert]. destruct i as [|i]; cbn in Hi.
  - injection Hi as ->. now rewrite Hx.
  - destruct (isTarget z); cbn; [exact Hi|now apply IH].
Qed.

Lemma upsert_length {A : Type} (isTarget : A -> bool) (candidate : A) (l : list A) :
  length (Spec.upsert isTarget candidate l)
  = if existsb isTarget l then length l else S (length l).
Proof.
  induction l as [|z l IH]; [reflexivity|]. cbn [Spec.upsert existsb].
  destruct (isTarget z); cbn [orb length]; [reflexivity|].
  rewrite IH. now destruct (existsb isTarget l).
Qed.

Lemma isYear_candidate (y : number) (edit : Obj) :
  JS.eqb y y = true ->
  JS.strictEq (JS.get (JS.set edit "year" (Num y)) "year") (Num y) = true.
Proof.
  intros Hy. unfold JS.get, JS.set. now rewrite lookup_insert_eq.
Qed.

(** Looking a region up by name after a write: writes leave [props] alone. *)
Lemma find_setYearlyData (name : Val) (key : string) (yd : list Obj)
    (store : Firestore.Store) (d : Firestore.Doc) :
  JS.find (regionIs name) store = Some d ->
  Firestore.id d = key ->
  JS.find (regionIs name) (Firestore.setYearlyData key yd store)
  = Some {| Firestore.id := key;
            Firestore.data := {| props := props (Firestore.data d);
                                 yearlyData := Some yd |} |}.
Proof.
  unfold JS.find, Firestore.setYearlyData, regionIs.
  induction store as [|z store IH]; intros Hfind Hid; [discriminate|].
  cbn [map List.find] in *.
  destruct (String.eqb_spec (Firestore.id z) key) as [Hz|Hz]; cbn [Firestore.data props].
  - destruct (JS.strictEq _ name); [|now apply IH].
    injection Hfind as ->. now rewrite Hid.
  - destruct (JS.strictEq _ name); [|now apply IH].
    injection Hfind as ->. contradiction.
Qed.

Lemma find_has_id (p : Firestore.Doc -> bool) (store : Firestore.Store)
    (d : Firestore.Doc) :
  JS.find p store = Some d ->
  existsb (fun z => String.eqb (Firestore.id z) (Firestore.id d)) store = true.
Proof.
  intros H. apply find_some in H. apply existsb_exists.
  exists d. split; [tauto|apply String.eqb_refl].
Qed.

(** The read-modify-write when nothing fails. *)
Lemma persistEdit_online (store : Firestore.Store) (key : string) (y : number)
    (edit : Obj) (d : Firestore.Doc) (yd : list Obj) :
  let isYear := fun data : Obj => JS.strictEq (JS.get data "year") (Num y) in
  let updated := Spec.upsert isYear (JS.set edit "year" (Num y)) yd in
  JS.find (regionIs (Str key)) store = Some d ->
  Firestore.id d = key ->
  yearlyData (Firestore.data d) = Some yd ->
  Spec.atMostOne isYear yd ->
  persistEdit Firestore.online store (Str key) y edit
  = (Some (Firestore.setYearlyData key updated store),
     [Firestore.OpGetDocs; Firestore.OpUpdateDoc key updated]).
Proof.
  intros isYear updated Hfind Hid Hyd Hone.
  unfold persistEdit. cbn [Firestore.getDocs Firestore.online Firestore.getDocs_ok].
  rewrite Hfind, Hyd. cbv zeta.
  pose proof (map_push_upsert isYear (JS.set edit "year" (Num y)) yd Hone) as Hup.
  subst updated isYear. cbv beta in Hup. rewrite Hup.
  unfold Firestore.updateDoc. cbn [Firestore.online Firestore.updateDoc_ok andb].
  pose proof (find_has_id _ _ _ Hfind) as Hex. rewrite Hid in Hex. now rewrite Hex.
Qed.

End Commit.

Section CommitClaims.

(** C3. For a region document stored under its region name that holds at
    most one record for the selected year (a number), a commit that passes
    validation and meets no failure writes back the year series with the
    record of that year replaced by the candidate [{ ...edit, year }], or
    with the candidate appended when the year had no record; the records of
    other years keep their places; and a fetch of the region afterwards
    finds exactly the candidate for that year.  Both components commit this
    way. *)
Theorem commit_upserts_year_record (store : Firestore.Store) (key : string)
    (y : number) (edit : Obj) (d : Firestore.Doc) (yd : list Obj) :
  let isYear := fun data : Obj => JS.strictEq (JS.get data "year") (Num y) in
  let candidate := JS.set edit "year" (Num y) in
  let updated := Spec.upsert isYear candidate yd in
  let store' := Firestore.setYearlyData key updated store in
  let ops := [Firestore.OpGetDocs; Firestore.OpUpdateDoc key updated] in
  JS.eqb y y = true ->
  JS.find (regionIs (Str key)) store = Some d ->
  Firestore.id d = key ->
  yearlyData (Firestore.data d) = Some yd ->
  Spec.atMostOne isYear yd ->
  (forall st r,
      RegionalAnalysis.editForm st = Some edit ->
      RegionalAnalysis.selectedRegion st = Some r ->
      JS.get r "region" = Str key ->
      RegionalAnalysis.selectedYear st = y ->
      RegionalAnalysis.validateForm edit = [] ->
      RegionalAnalysis.saveEdits Firestore.online store st
      = (RegionalAnalysis.committed (Str key) edit st, store', ops, Saved))
  /\ (forall st field,
         Dashboard.isEditing st = Some (Str key, field) ->
         Dashboard.selectedYear st = y ->
         Dashboard.editedData st !! Dashboard.editKey (Str key) y = Some edit ->
         Dashboard.validateEdit edit = [] ->
         Dashboard.saveEdits Firestore.online store st
         = (Dashboard.committed (Str key) edit st, store', ops, Saved))
  /\ (forall i data, yd !! i = Some data -> isYear data = false ->
                     updated !! i = Some data)
  /\ length updated = (if existsb isYear yd then length yd else S (length yd))
  /\ JS.find (regionIs (Str key)) store'
     = Some {| Firestore.id := key;
               Firestore.data := {| props := props (Firestore.data d);
                                    yearlyData := Some updated |} |}
  /\ yearDataOf y {| props := props (Firestore.data d); yearlyData := Some updated |}
     = Some candidate.
Proof.
  intros isYear candidate updated store' ops Hy Hfind Hid Hyd Hone.
  pose proof (persistEdit_online store key y edit d yd Hfind Hid Hyd Hone) as Hpersist.
  cbv zeta in Hpersist. fold isYear candidate updated store' ops in Hpersist.
  split; [|split; [|split; [|split; [|split]]]].
  - intros st r Hform Hsel Hname Hyear Hvalid.
    unfold RegionalAnalysis.saveEdits. rewrite Hform, Hvalid, Hsel, Hname, Hyear.
    cbn [length Nat.eqb negb]. now rewrite Hpersist.
  - intros st field Hedit Hyear Hlookup Hvalid.
    unfold Dashboard.saveEdits. rewrite Hedit, Hyear, Hlookup, Hvalid.
    cbn [length Nat.eqb negb]. now rewrite Hpersist.
  - intros i data Hi Hdata. now apply upsert_other.
  - apply upsert_length.
  - now apply find_setYearlyData.
  - unfold yearDataOf. cbn [yearlyData]. unfold JS.find, updated.
    rewrite find_upsert; [reflexivity|]. now apply isYear_candidate.
Qed.

Lemma commit_upserts_year_record_witness :
  let st := Sample.dashboardTyped "taxpayers" "1,300" in
  Dashboard.saveEdits Firestore.online Sample.store st
  = (Dashboard.committed (Str "Ashanti") Sample.ashantiEdit st,
     Firestore.setYearlyData "Ashanti"
       (Spec.upsert (fun data => JS.strictEq (JS.get data "year") (Num Sample.y2025))
          (JS.set Sample.ashantiEdit "year" (Num Sample.y2025))
          (map Spec.toObj (Spec.records Sample.ashanti)))
       Sample.store,
     [Firestore.OpGetDocs;
      Firestore.OpUpdateDoc "Ashanti"
        (Spec.upsert (fun data => JS.strictEq (JS.get data "year") (Num Sample.y2025))
           (JS.set Sample.ashantiEdit "year" (Num Sample.y2025))
           (map Spec.toObj (Spec.records Sample.ashanti)))],
     Saved).
Proof.
  refine (proj1 (proj2 (commit_upserts_year_record Sample.store "Ashanti" Sample.y2025
            Sample.ashantiEdit Sample.ashantiDoc
            (map Spec.toObj (Spec.records Sample.ashanti)) _ _ _ _ _))
            (Sample.dashboardTyped "taxpayers" "1,300") "taxpayers" _ _ _ _);
    try compute_done.
  unfold Spec.atMostOne. compute_done.
Defined.

End CommitClaims.

Section CommitFailures.

(** C7. When the candidate has a validation violation, [saveEdits] of
    either component ends in a ValidationFailure that carries the violation
    messages joined by a space, sets nothing but [saveError], performs no
    store operation at all — no fetch, no write — and leaves the store as it
    was. *)
Theorem validation_failure_writes_nothing (net : Firestore.Net) (store : Firestore.Store) :
  (forall st form,
      RegionalAnalysis.editForm st = Some form ->
      RegionalAnalysis.validateForm form <> [] ->
      RegionalAnalysis.saveEdits net store st
      = (RegionalAnalysis.setSaveError
           (Some (JS.join " " (RegionalAnalysis.validateForm form))) st,
         store, [], ValidationFailure (JS.join " " (RegionalAnalysis.validateForm form))))
  /\ (forall st region field edit,
         Dashboard.isEditing st = Some (region, field) ->
         Dashboard.editedData st !! Dashboard.editKey region (Dashboard.selectedYear st)
           = Some edit ->
         Dashboard.validateEdit edit <> [] ->
         Dashboard.saveEdits net store st
         = (Dashboard.setSaveError (Some (JS.join " " (Dashboard.validateEdit edit))) st,
            store, [], ValidationFailure (JS.join " " (Dashboard.validateEdit edit)))).
Proof.
  split.
  - intros st form Hform Herr. unfold RegionalAnalysis.saveEdits.
    now rewrite Hform, (some_errors _ Herr).
  - intros st region field edit Hedit Hlookup Herr. unfold Dashboard.saveEdits.
    now rewrite Hedit, Hlookup, (some_errors _ Herr).
Qed.

Lemma validation_failure_writes_nothing_witness :
  let st := Sample.dashboardTyped "taxpayers" "10" in
  let edit := default ∅ (Sample.pendingEdit st) in
  (Dashboard.isEditing st = Some (Str "Ashanti", "taxpayers")
   /\ Dashboard.editedData st !! Dashboard.editKey (Str "Ashanti") (Dashboard.selectedYear st)
      = Some edit
   /\ Dashboard.validateEdit edit = [Spec.sumMessage])
  /\ Dashboard.saveEdits Sample.readOnly Sample.store st
     = (Dashboard.setSaveError (Some (JS.join " " (Dashboard.validateEdit edit))) st,
        Sample.store, [], ValidationFailure (JS.join " " (Dashboard.validateEdit edit))).
Proof.
  intros st edit.
  assert (H1 : Dashboard.isEditing st = Some (Str "Ashanti", "taxpayers")) by compute_done.
  assert (H2 : Dashboard.editedData st
                 !! Dashboard.editKey (Str "Ashanti") (Dashboard.selectedYear st)
               = Some edit) by compute_done.
  assert (H3 : Dashboard.validateEdit edit = [Spec.sumMessage]) by compute_done.
  split; [auto|].
  apply (proj2 (validation_failure_writes_nothing Sample.readOnly Sample.store)
           st (Str "Ashanti") "taxpayers" edit H1 H2).
  rewrite H3. discriminate.
Defined.

(** A write that does not go through makes the read-modify-write fail. *)
Lemma persistEdit_write_refused (net : Firestore.Net) (store : Firestore.Store)
    (name : Val) (y : number) (edit : Obj) :
  Firestore.updateDoc_ok net = false ->
  fst (persistEdit net store name y edit) = None.
Proof.
  intros Hw. unfold persistEdit.
  destruct name as [| |key]; try reflexivity.
  destruct (Firestore.getDocs net store) as [docs|]; [|reflexivity].
  destruct (JS.find _ docs) as [d|]; [|reflexivity].
  destruct (yearlyData (Firestore.data d)) as [yd|]; [|reflexivity].
  cbn [fst]. unfold Firestore.updateDoc. now rewrite Hw.
Qed.

(** C8. When the read-modify-write of a validated commit fails — in
    particular whenever the write is refused — [saveEdits] of either
    component ends in a PersistFailure with the retry message; the store, the
    in-memory rows and the pending edit (the form of RegionalAnalysis, the
    [editedData] overlay and the cell under edit of the Dashboard) are what
    they were, only [saveError] and the busy flag are set; and saving again
    from the resulting state does exactly what saving from the original
    state does. *)
Theorem persist_failure_keeps_edit (net : Firestore.Net) (store : Firestore.Store) :
  (forall st form r,
      RegionalAnalysis.editForm st = Some form ->
      RegionalAnalysis.validateForm form = [] ->
      RegionalAnalysis.selectedRegion st = Some r ->
      fst (persistEdit net store (JS.get r "region") (RegionalAnalysis.selectedYear st) form)
        = None ->
      let st' := RegionalAnalysis.setSaving false
                   (RegionalAnalysis.setSaveError (Some persistFailureMessage) st) in
      RegionalAnalysis.saveEdits net store st
      = (st', store,
         snd (persistEdit net store (JS.get r "region") (RegionalAnalysis.selectedYear st) form),
         PersistFailure persistFailureMessage)
      /\ RegionalAnalysis.regions st' = RegionalAnalysis.regions st
      /\ RegionalAnalysis.selectedRegion st' = RegionalAnalysis.selectedRegion st
      /\ RegionalAnalysis.editForm st' = Some form
      /\ RegionalAnalysis.editMode st' = RegionalAnalysis.editMode st
      /\ forall net2 store2,
           RegionalAnalysis.saveEdits net2 store2 st'
           = RegionalAnalysis.saveEdits net2 store2 st)
  /\ (forall st region field edit,
         Dashboard.isEditing st = Some (region, field) ->
         Dashboard.editedData st !! Dashboard.editKey region (Dashboard.selectedYear st)
           = Some edit ->
         Dashboard.validateEdit edit = [] ->
         fst (persistEdit net store region (Dashboard.selectedYear st) edit) = None ->
         let st' := Dashboard.setLoading false
                      (Dashboard.setSaveError (Some persistFailureMessage) st) in
         Dashboard.saveEdits net store st
         = (st', store, snd (persistEdit net store region (Dashboard.selectedYear st) edit),
            PersistFailure persistFailureMessage)
         /\ Dashboard.metrics st' = Dashboard.metrics st
         /\ Dashboard.editedData st' = Dashboard.editedData st
         /\ Dashboard.isEditing st' = Dashboard.isEditing st
         /\ forall net2 store2,
              Dashboard.saveEdits net2 store2 st' = Dashboard.saveEdits net2 store2 st)
  /\ (forall name y edit,
         Firestore.updateDoc_ok net = false ->
         fst (persistEdit net store name y edit) = None).
Proof.
  split; [|split].
  - intros st form r Hform Hvalid Hsel Hfail st'.
    split; [|repeat split; try reflexivity; try assumption].
    + unfold RegionalAnalysis.saveEdits. rewrite Hform, Hvalid, Hsel.
      cbn [length Nat.eqb negb].
      destruct (persistEdit _ _ _ _ _) as [[s|] ops]; [discriminate|reflexivity].
    + intros net2 store2. unfold RegionalAnalysis.saveEdits. subst st'.
      cbn [RegionalAnalysis.setSaving RegionalAnalysis.setSaveError
           RegionalAnalysis.editForm RegionalAnalysis.selectedRegion
           RegionalAnalysis.selectedYear].
      rewrite Hform, Hvalid, Hsel. cbn [length Nat.eqb negb].
      destruct (persistEdit _ _ _ _ _) as [[s|] ops]; reflexivity.
  - intros st region field edit Hedit Hlookup Hvalid Hfail st'.
    split; [|repeat split].
    + unfold Dashboard.saveEdits. rewrite Hedit, Hlookup, Hvalid.
      cbn [length Nat.eqb negb].
      destruct (persistEdit _ _ _ _ _) as [[s|] ops]; [discriminate|reflexivity].
    + intros net2 store2. unfold Dashboard.saveEdits. subst st'.
      cbn [Dashboard.setLoading Dashboard.setSaveError Dashboard.isEditing
           Dashboard.editedData Dashboard.selectedYear].
      rewrite Hedit, Hlookup, Hvalid. cbn [length Nat.eqb negb].
      destruct (persistEdit _ _ _ _ _) as [[s|] ops]; reflexivity.
  - intros name y edit. apply persistEdit_write_refused.
Qed.

Lemma persist_failure_keeps_edit_witness :
  let st := Sample.dashboardTyped "taxpayers" "1,300" in
  let st' := Dashboard.setLoading false
               (Dashboard.setSaveError (Some persistFailureMessage) st) in
  (Dashboard.isEditing st = Some (Str "Ashanti", "taxpayers")
   /\ Dashboard.editedData st !! Dashboard.editKey (Str "Ashanti") (Dashboard.selectedYear st)
      = Some Sample.ashantiEdit
   /\ Dashboard.validateEdit Sample.ashantiEdit = []
   /\ Firestore.updateDoc_ok Sample.readOnly = false)
  /\ Dashboard.saveEdits Sample.readOnly Sample.store st
     = (st', Sample.store,
        snd (persistEdit Sample.readOnly Sample.store (Str "Ashanti")
               (Dashboard.selectedYear st) Sample.ashantiEdit),
        PersistFailure persistFailureMessage)
  /\ Dashboard.editedData st' = Dashboard.editedData st
  /\ forall net2 store2,
       Dashboard.saveEdits net2 store2 st' = Dashboard.saveEdits net2 store2 st.
Proof.
  intros st st'.
  assert (H1 : Dashboard.isEditing st = Some (Str "Ashanti", "taxpayers")) by compute_done.
  assert (H2 : Dashboard.editedData st
                 !! Dashboard.editKey (Str "Ashanti") (Dashboard.selectedYear st)
               = Some Sample.ashantiEdit) by compute_done.
  assert (H3 : Dashboard.validateEdit Sample.ashantiEdit = []) by compute_done.
  assert (H4 : Firestore.updateDoc_ok Sample.readOnly = false) by reflexivity.
  split; [auto|].
  destruct (persist_failure_keeps_edit Sample.readOnly Sample.store) as (_ & HD & HW).
  destruct (HD st (Str "Ashanti") "taxpayers" Sample.ashantiEdit H1 H2 H3
              (HW (Str "Ashanti") (Dashboard.selectedYear st) Sample.ashantiEdit H4))
    as (Hsave & _ & Hdata & _ & Hretry).
  split; [exact Hsave|]. split; [exact Hdata|exact Hretry].
Defined.

End CommitFailures.

Section AfterCommit.

(** After a successful save the RegionalAnalysis form is gone and the
    selection and the row of the region are the saved form. *)
Lemma analysis_saved_clears_form (net : Firestore.Net) (store store' : Firestore.Store)
    (st st' : RegionalAnalysis.State) (ops : list Firestore.Op) :
  RegionalAnalysis.saveEdits net store st = (st', store', ops, Saved) ->
  RegionalAnalysis.editForm st' = None /\ RegionalAnalysis.editMode st' = false.
Proof.
  unfold RegionalAnalysis.saveEdits.
  destruct (RegionalAnalysis.editForm st) as [form|]; [|discriminate].
  destruct (negb _); [discriminate|].
  destruct (RegionalAnalysis.selectedRegion st) as [r|]; [|discriminate].
  destruct (persistEdit _ _ _ _ _) as [[s|] o]; [|discriminate].
  intros H. injection H as <- _ _. split; reflexivity.
Qed.

(** After a successful save the Dashboard has left edit mode, and its
    overlay of unsaved edits is exactly what it was. *)
Lemma dashboard_saved_keeps_editedData (net : Firestore.Net)
    (store store' : Firestore.Store) (st st' : Dashboard.State)
    (ops : list Firestore.Op) :
  Dashboard.saveEdits net store st = (st', store', ops, Saved) ->
  Dashboard.isEditing st' = None /\ Dashboard.editedData st' = Dashboard.editedData st.
Proof.
  unfold Dashboard.saveEdits.
  destruct (Dashboard.isEditing st) as [[region field]|]; [|discriminate].
  destruct (Dashboard.editedData st !! _) as [edit|]; [|discriminate].
  destruct (negb _); [discriminate|].
  destruct (persistEdit _ _ _ _ _) as [[s|] o]; [|discriminate].
  intros H. injection H as <- _ _. split; reflexivity.
Qed.

(** C5. The Dashboard after the user changed the taxpayers of Ashanti to
    1,300 and the save went through: the row of Ashanti is the committed
    candidate and the cell has left edit mode, but the pending edit for
    (Ashanti, 2025) is still in [editedData], the same as before the commit.
    The sibling [saveEdits] of RegionalAnalysis does clear its form. *)
Theorem dashboard_commit_keeps_pending_edit :
  let st := Sample.dashboardTyped "taxpayers" "1,300" in
  let result := Dashboard.saveEdits Firestore.online Sample.store st in
  let st' := fst (fst (fst result)) in
  snd result = Saved
  /\ Dashboard.isEditing st' = None
  /\ head (Dashboard.regionalMetrics (Dashboard.metrics st'))
     = Some (JS.set Sample.ashantiEdit "region" (Str "Ashanti"))
  /\ Sample.pendingEdit st = Some Sample.ashantiEdit
  /\ Sample.pendingEdit st' = Some Sample.ashantiEdit
  /\ (let sa := Sample.analysisTyped "taxpayers" "1300" in
      let ra := RegionalAnalysis.saveEdits Firestore.online Sample.store sa in
      snd ra = Saved
      /\ is_Some (RegionalAnalysis.editForm sa)
      /\ RegionalAnalysis.editForm (fst (fst (fst ra))) = None).
Proof.
  intros st result st'.
  split; [compute_done|]. split; [compute_done|]. split; [compute_done|].
  split; [compute_done|]. split; [compute_done|].
  intros sa ra. split; [compute_done|]. split; compute_done.
Qed.

(** C10. Both components stage and persist a value that is not a number.
    Clearing the averageTax input of the RegionalAnalysis form stages the
    empty string; typing "abc" into the compliance cell of the Dashboard
    stages NaN.  In both cases the validation returns no message, the save
    goes through, and the record fetched back for the year holds the empty
    string, respectively NaN. *)
Theorem non_numeric_values_are_persisted :
  (let st := Sample.analysisTyped "averageTax" "" in
   let result := RegionalAnalysis.saveEdits Firestore.online Sample.store st in
   option_map (fun form => JS.get form "averageTax") (RegionalAnalysis.editForm st)
     = Some (Str "")
   /\ option_map RegionalAnalysis.validateForm (RegionalAnalysis.editForm st) = Some []
   /\ snd result = Saved
   /\ option_map (fun data => JS.get data "averageTax")
                 (Sample.refetch (snd (fst (fst result))) "Ashanti")
      = Some (Str ""))
  /\ (let st := Sample.dashboardTyped "complianceRate" "abc" in
      let result := Dashboard.saveEdits Firestore.online Sample.store st in
      JS.parseFloat "abc" = JS.NaN
      /\ option_map (fun edit => JS.get edit "complianceRate") (Sample.pendingEdit st)
         = Some (Num JS.NaN)
      /\ option_map Dashboard.validateEdit (Sample.pendingEdit st) = Some []
      /\ snd result = Saved
      /\ option_map (fun data => JS.get data "complianceRate")
                    (Sample.refetch (snd (fst (fst result))) "Ashanti")
         = Some (Num JS.NaN)).
Proof.
  split; intros st result; repeat split; compute_done.
Qed.

End AfterCommit.

(* ===================================================================== *)
(** * What a commit writes, and what it leaves alone *)
(* ===================================================================== *)

Section CommitFrame.

(** A read-modify-write that went through: what was read, what was
    written. *)
Lemma persistEdit_saved (net : Firestore.Net) (store store' : Firestore.Store)
    (name : Val) (y : number) (edit : Obj) (ops : list Firestore.Op) :
  persistEdit net store name y edit = (Some store', ops) ->
  exists (key : string) (d : Firestore.Doc) (yd : list Obj),
    name = Str key
    /\ JS.find (regionIs name) store = Some d
    /\ yearlyData (Firestore.data d) = Some yd
    /\ store' = Firestore.setYearlyData key (updatedYearlyData y edit yd) store
    /\ ops = [Firestore.OpGetDocs; Firestore.OpUpdateDoc key (updatedYearlyData y edit yd)].
Proof.
  unfold persistEdit, Firestore.getDocs.
  destruct name as [| |key]; try discriminate.
  destruct (Firestore.getDocs_ok net); [|discriminate].
  destruct (JS.find _ store) as [d|] eqn:Hfind; [|discriminate].
  destruct (yearlyData (Firestore.data d)) as [yd|] eqn:Hyd; [|discriminate].
  cbv zeta. unfold Firestore.updateDoc.
  destruct (_ && _); [|discriminate].
  intros H. injection H as <- <-.
  exists key, d, yd. repeat split; assumption.
Qed.



End CommitFrame.


Section WrittenSeries.

Variables (A : Type) (p : A -> bool) (c : A).
Hypothesis Hc : p c = true.

Lemma filter_replaced_others (l : list A) :
  List.filter (fun x => negb (p x)) (map (fun x => if p x then c else x) l)
  = List.filter (fun x => negb (p x)) l.
Proof.
  induction l as [|x l IH]; [reflexivity|]. cbn [map List.filter].
  destruct (p x) eqn:Hx; [rewrite Hc|rewrite Hx]; cbn [negb]; now rewrite IH.
Qed.

Lemma filter_replaced_targets (l : list A) :
  List.filter p (map (fun x => if p x then c else x) l)
  = repeat c (length (List.filter p l)).
Proof.
  induction l as [|x l IH]; [reflexivity|]. cbn [map List.filter].
  destruct (p x) eqn:Hx; [rewrite Hc|rewrite Hx]; cbn [length repeat]; now rewrite IH.
Qed.

Lemma existsb_filter_nil (l : list A) :
  existsb p l = false <-> List.filter p l = [].
Proof.
  induction l as [|x l IH]; [tauto|]. cbn [existsb List.filter].
  destruct (p x); cbn [orb]; [split; discriminate|exact IH].
Qed.

Lemma existsb_filter_length (l : list A) :
  existsb p l = true -> (1 <= length (List.filter p l))%nat.
Proof.
  intros H. destruct (List.filter p l) eqn:Hf; [|simpl; lia].
  apply existsb_filter_nil in Hf. congruence.
Qed.

End WrittenSeries.

Lemma ofYear_candidate (y : number) (edit : Obj) :
  JS.eqb y y = true -> ofYear y (JS.set edit "year" (Num y)) = true.
Proof. apply isYear_candidate. Qed.

(** The array written, record by record: the records of other years as
    they were and in their order, every record of the year replaced by the
    candidate, one candidate added when there was none. *)
Lemma updatedYearlyData_spec (y : number) (edit : Obj) (yd : list Obj) :
  JS.eqb y y = true ->
  let updated := updatedYearlyData y edit yd in
  List.filter (fun d => negb (ofYear y d)) updated
  = List.filter (fun d => negb (ofYear y d)) yd
  /\ List.filter (ofYear y) updated
     = repeat (JS.set edit "year" (Num y))
              (Nat.max 1 (length (List.filter (ofYear y) yd)))
  /\ length updated
     = (length yd + (if JS.some (ofYear y) yd then 0 else 1))%nat.
Proof.
  intros Hy. pose proof (ofYear_candidate y edit Hy) as Hc.
  unfold updatedYearlyData, JS.some. cbv zeta. fold (ofYear y).
  destruct (existsb (ofYear y) yd) eqn:Hex; cbn [negb].
  - split; [|split].
    + now apply filter_replaced_others.
    + rewrite (filter_replaced_targets _ _ _ Hc). f_equal.
      pose proof (existsb_filter_length _ _ _ Hex). lia.
    + rewrite length_map. lia.
  - pose proof (proj1 (existsb_filter_nil _ _ _) Hex) as Hnil.
    rewrite !List.filter_app. cbn [List.filter]. rewrite Hc. cbn [negb].
    split; [|split].
    + rewrite app_nil_r. now apply filter_replaced_others.
    + rewrite (filter_replaced_targets _ _ _ Hc), Hnil. reflexivity.
    + rewrite length_app, length_map. reflexivity.
Qed.

(** X2. What a commit that went through has written, without assuming that
    the year occurs at most once in the series it read: the records of all
    other years, unchanged and in their order; in place of every record of
    the selected year the candidate [{ ...edit, year }], and one candidate
    more when there was none.  So a commit never drops a record and never
    shortens the series; records that share the year are all overwritten,
    not merged into one. *)
Theorem commit_rewrites_the_year (net : Firestore.Net) (store store' : Firestore.Store)
    (name : Val) (y : number) (edit : Obj) (ops : list Firestore.Op) :
  JS.eqb y y = true ->
  persistEdit net store name y edit = (Some store', ops) ->
  exists (key : string) (d : Firestore.Doc) (yd updated : list Obj),
    JS.find (regionIs name) store = Some d
    /\ yearlyData (Firestore.data d) = Some yd
    /\ ops = [Firestore.OpGetDocs; Firestore.OpUpdateDoc key updated]
    /\ List.filter (fun r => negb (ofYear y r)) updated
       = List.filter (fun r => negb (ofYear y r)) yd
    /\ List.filter (ofYear y) updated
       = repeat (JS.set edit "year" (Num y))
                (Nat.max 1 (length (List.filter (ofYear y) yd)))
    /\ length updated = (length yd + (if JS.some (ofYear y) yd then 0 else 1))%nat.
Proof.
  intros Hy Hp. apply persistEdit_saved in Hp.
  destruct Hp as (key & d & yd & _ & Hfind & Hyd & _ & Hops).
  exists key, d, yd, (updatedYearlyData y edit yd).
  destruct (updatedYearlyData_spec y edit yd Hy) as (H1 & H2 & H3).
  repeat split; assumption.
Qed.

(** X3. Once a run of the Dashboard's [saveEdits] has ended [Saved], a
    further call — the blur that follows the Enter key — finds no cell under
    edit and does nothing: no read, no write, the state as it is. *)
Theorem saveEdits_again_does_nothing (net net' : Firestore.Net)
    (store store' : Firestore.Store) (st st' : Dashboard.State)
    (ops : list Firestore.Op) :
  Dashboard.saveEdits net store st = (st', store', ops, Saved) ->
  Dashboard.saveEdits net' store' st' = (st', store', [], NothingToSave).
Proof.
  intros H. destruct (dashboard_saved_keeps_editedData _ _ _ _ _ _ H) as [Hed _].
  unfold Dashboard.saveEdits at 1. now rewrite Hed.
Qed.

Lemma commit_rewrites_the_year_witness :
  let updated := updatedYearlyData Cases.y2024 Cases.voltaEdit Cases.repeated in
  let store' := Firestore.setYearlyData "Volta" updated Cases.voltaRepeated in
  let ops := [Firestore.OpGetDocs; Firestore.OpUpdateDoc "Volta" updated] in
  (JS.eqb Cases.y2024 Cases.y2024 = true
   /\ persistEdit Firestore.online Cases.voltaRepeated (Str "Volta") Cases.y2024
        Cases.voltaEdit = (Some store', ops)
   /\ length (List.filter (ofYear Cases.y2024) Cases.repeated) = 2%nat)
  /\ exists (key : string) (d : Firestore.Doc) (yd updated : list Obj),
      JS.find (regionIs (Str "Volta")) Cases.voltaRepeated = Some d
      /\ yearlyData (Firestore.data d) = Some yd
      /\ ops = [Firestore.OpGetDocs; Firestore.OpUpdateDoc key updated]
      /\ List.filter (fun r => negb (ofYear Cases.y2024 r)) updated
         = List.filter (fun r => negb (ofYear Cases.y2024 r)) yd
      /\ List.filter (ofYear Cases.y2024) updated
         = repeat (JS.set Cases.voltaEdit "year" (Num Cases.y2024))
                  (Nat.max 1 (length (List.filter (ofYear Cases.y2024) yd)))
      /\ length updated
         = (length yd + (if JS.some (ofYear Cases.y2024) yd then 0 else 1))%nat.
Proof.
  intros updated store' ops.
  assert (Hy : JS.eqb Cases.y2024 Cases.y2024 = true) by compute_done.
  assert (Hp : persistEdit Firestore.online Cases.voltaRepeated (Str "Volta") Cases.y2024
                 Cases.voltaEdit = (Some store', ops)) by compute_done.
  split; [split; [exact Hy|split; [exact Hp|compute_done]]|].
  exact (commit_rewrites_the_year Firestore.online Cases.voltaRepeated store' (Str "Volta")
           Cases.y2024 Cases.voltaEdit ops Hy Hp).
Defined.

Lemma saveEdits_again_does_nothing_witness :
  let st := Sample.dashboardTyped "taxpayers" "1,300" in
  let result := Dashboard.saveEdits Firestore.online Sample.store st in
  let st' := fst (fst (fst result)) in
  let store' := snd (fst (fst result)) in
  Dashboard.saveEdits Firestore.online Sample.store st
  = (st', store', snd (fst result), Saved)
  /\ Dashboard.saveEdits Firestore.online store' st' = (st', store', [], NothingToSave).
Proof.
  intros st result st' store'.
  assert (H : Dashboard.saveEdits Firestore.online Sample.store st
              = (st', store', snd (fst result), Saved)) by compute_done.
  split; [exact H|].
  exact (saveEdits_again_does_nothing Firestore.online Firestore.online Sample.store store'
           st st' (snd (fst result)) H).
Defined.

(* ===================================================================== *)
(** * Fetching *)
(* ===================================================================== *)

Section Fetch.

Lemma mapE_length {A B : Type} (f : A -> option B) (l : list A) (r : list B) :
  mapE f l = Some r -> length r = length l.
Proof.
  revert r. induction l as [|x l IH]; intros r; cbn [mapE].
  - now intros [= <-].
  - destruct (f x); [|discriminate]. destruct (mapE f l); [|discriminate].
    intros [= <-]. cbn [length]. f_equal. now apply IH.
Qed.

Lemma mapE_is_Some {A B : Type} (f : A -> option B) (l : list A) :
  Forall (fun x => is_Some (f x)) l -> is_Some (mapE f l).
Proof.
  induction 1 as [|x l [y Hy] _ [r Hr]]; cbn [mapE]; [now eexists|].
  rewrite Hy, Hr. now eexists.
Qed.

Lemma mapE_None {A B : Type} (f : A -> option B) (l : list A) :
  Exists (fun x => f x = None) l -> mapE f l = None.
Proof.
  induction 1 as [x l Hx|x l _ IH]; cbn [mapE].
  - now rewrite Hx.
  - destruct (f x); [|reflexivity]. now rewrite IH.
Qed.

Lemma yearDataOf_is_Some (y : number) (region : RegionObj) :
  is_Some (yearDataOf y region) <-> is_Some (yearlyData region).
Proof.
  unfold yearDataOf. destruct (yearlyData region); split; intros [? ?];
    try discriminate; now eexists.
Qed.

(** The rows of a fetch exist exactly when every document has its
    [yearlyData]. *)
Lemma regionalMetricsOf_complete (editedData : gmap string Obj) (y : number)
    (docs : list RegionObj) :
  (Forall (fun region => is_Some (yearlyData region)) docs ->
   exists rows, Dashboard.regionalMetricsOf editedData y docs = Some rows
                /\ length rows = length docs)
  /\ (~ Forall (fun region => is_Some (yearlyData region)) docs ->
      Dashboard.regionalMetricsOf editedData y docs = None).
Proof.
  unfold Dashboard.regionalMetricsOf. split.
  - intros Hall.
    destruct (mapE_is_Some
                (fun region =>
                   match yearDataOf y region with
                   | None => None
                   | Some yearData =>
                       let name := JS.get (props region) "region" in
                       let edited :=
                         default ∅ (editedData !! Dashboard.editKey name y) in
                       Some (JS.spread (JS.spread {[ "region" := name ]} yearData) edited)
                   end) docs) as [rows Hrows].
    { eapply Forall_impl; [exact Hall|]. intros region Hyd. cbn beta.
      apply yearDataOf_is_Some with (y := y) in Hyd. destruct Hyd as [yd ->].
      now eexists. }
    exists rows. split; [exact Hrows|]. now apply mapE_length in Hrows.
  - intros Hnot. apply mapE_None. apply not_Forall_Exists in Hnot.
    + eapply Exists_impl; [exact Hnot|]. intros region Hyd. cbn beta in *.
      destruct (yearDataOf y region) eqn:Hy; [|reflexivity].
      exfalso. apply Hyd. apply (yearDataOf_is_Some y). rewrite Hy. now eexists.
    + intros region. destruct (yearlyData region); [left; now eexists|right].
      intros [? ?]. discriminate.
Qed.

Lemma processedRegions_complete (y : number) (docs : list RegionObj) :
  (Forall (fun region => is_Some (yearlyData region)) docs ->
   exists rows, RegionalAnalysis.processedRegions y docs = Some rows
                /\ length rows = length docs)
  /\ (~ Forall (fun region => is_Some (yearlyData region)) docs ->
      RegionalAnalysis.processedRegions y docs = None).
Proof.
  unfold RegionalAnalysis.processedRegions. split.
  - intros Hall.
    destruct (mapE_is_Some
                (fun region =>
                   match yearDataOf y region with
                   | None => None
                   | Some yearData =>
                       Some (JS.spread {[ "region" := JS.get (props region) "region" ]}
                                       yearData)
                   end) docs) as [rows Hrows].
    { eapply Forall_impl; [exact Hall|]. intros region Hyd. cbn beta.
      apply yearDataOf_is_Some with (y := y) in Hyd. destruct Hyd as [yd ->].
      now eexists. }
    exists rows. split; [exact Hrows|]. now apply mapE_length in Hrows.
  - intros Hnot. apply mapE_None. apply not_Forall_Exists in Hnot.
    + eapply Exists_impl; [exact Hnot|]. intros region Hyd. cbn beta in *.
      destruct (yearDataOf y region) eqn:Hy; [|reflexivity].
      exfalso. apply Hyd. apply (yearDataOf_is_Some y). rewrite Hy. now eexists.
    + intros region. destruct (yearlyData region); [left; now eexists|right].
      intros [? ?]. discriminate.
Qed.

Lemma Forall_map_data (P : RegionObj -> Prop) (store : Firestore.Store) :
  Forall P (map Firestore.data store) <-> Forall (fun d => P (Firestore.data d)) store.
Proof. apply List.Forall_map. Qed.

End Fetch.

(** X4. A fetch is all or nothing, in both components.  When the read goes
    through and every document has its [yearlyData], the table gets one row
    per document and the error is cleared; when the read fails, or a single
    document lacks [yearlyData], the table (and the totals of the Dashboard)
    are exactly what they were and the error is the load-failure message.
    Either way the busy flag is cleared, and the selection, the form, the
    pending edits and the cell under edit are untouched. *)
Theorem fetch_is_all_or_nothing (net : Firestore.Net) (store : Firestore.Store) :
  let complete :=
    Firestore.getDocs_ok net = true
    /\ Forall (fun d => is_Some (yearlyData (Firestore.data d))) store in
  (forall st : Dashboard.State,
      let st' := Dashboard.fetchRegions net store st in
      Dashboard.loading st' = false
      /\ Dashboard.editedData st' = Dashboard.editedData st
      /\ Dashboard.isEditing st' = Dashboard.isEditing st
      /\ Dashboard.saveError st' = Dashboard.saveError st
      /\ (complete ->
          Dashboard.error st' = None
          /\ length (Dashboard.regionalMetrics (Dashboard.metrics st')) = length store)
      /\ (~ complete ->
          Dashboard.error st' = Some fetchFailureMessage
          /\ Dashboard.metrics st' = Dashboard.metrics st))
  /\ (forall st : RegionalAnalysis.State,
      let st' := RegionalAnalysis.fetchRegions net store st in
      RegionalAnalysis.loading st' = false
      /\ RegionalAnalysis.selectedRegion st' = RegionalAnalysis.selectedRegion st
      /\ RegionalAnalysis.editForm st' = RegionalAnalysis.editForm st
      /\ RegionalAnalysis.editMode st' = RegionalAnalysis.editMode st
      /\ (complete ->
          RegionalAnalysis.error st' = None
          /\ length (RegionalAnalysis.regions st') = length store)
      /\ (~ complete ->
          RegionalAnalysis.error st' = Some fetchFailureMessage
          /\ RegionalAnalysis.regions st' = RegionalAnalysis.regions st)).
Proof.
  intros complete. subst complete. split; intros st st'; subst st'.
  - unfold Dashboard.fetchRegions, Firestore.getDocs.
    destruct (regionalMetricsOf_complete (Dashboard.editedData st)
                (Dashboard.selectedYear st) (map Firestore.data store)) as [Hyes Hno].
    rewrite Forall_map_data in Hyes, Hno.
    destruct (Firestore.getDocs_ok net).
    + destruct (decide (Forall (fun d => is_Some (yearlyData (Firestore.data d))) store))
        as [Hall|Hnot].
      * destruct (Hyes Hall) as (rows & -> & Hlen). rewrite length_map in Hlen.
        cbn. do 4 (split; [reflexivity|]). split; intros Hc.
        -- split; [reflexivity|exact Hlen].
        -- exfalso. apply Hc. split; [reflexivity|exact Hall].
      * rewrite (Hno Hnot). cbn. do 4 (split; [reflexivity|]). split; intros Hc.
        -- exfalso. apply Hnot, Hc.
        -- split; reflexivity.
    + cbn. do 4 (split; [reflexivity|]). split; intros Hc.
      * destruct Hc as [Hc _]. discriminate.
      * split; reflexivity.
  - unfold RegionalAnalysis.fetchRegions, Firestore.getDocs.
    destruct (processedRegions_complete (RegionalAnalysis.selectedYear st)
                (map Firestore.data store)) as [Hyes Hno].
    rewrite Forall_map_data in Hyes, Hno.
    destruct (Firestore.getDocs_ok net).
    + destruct (decide (Forall (fun d => is_Some (yearlyData (Firestore.data d))) store))
        as [Hall|Hnot].
      * destruct (Hyes Hall) as (rows & -> & Hlen). rewrite length_map in Hlen.
        cbn. do 4 (split; [reflexivity|]). split; intros Hc.
        -- split; [reflexivity|exact Hlen].
        -- exfalso. apply Hc. split; [reflexivity|exact Hall].
      * rewrite (Hno Hnot). cbn. do 4 (split; [reflexivity|]). split; intros Hc.
        -- exfalso. apply Hnot, Hc.
        -- split; reflexivity.
    + cbn. do 4 (split; [reflexivity|]). split; intros Hc.
      * destruct Hc as [Hc _]. discriminate.
      * split; reflexivity.
Qed.

Example fetch_keeps_last_good_rows :
  let st := Dashboard.fetchRegions Firestore.online Cases.broken Sample.dashboard1 in
  let st' := Dashboard.fetchRegions Cases.offline Sample.store Sample.dashboard1 in
  Dashboard.error st = Some fetchFailureMessage
  /\ Dashboard.metrics st = Dashboard.metrics Sample.dashboard1
  /\ Dashboard.error st' = Some fetchFailureMessage
  /\ Dashboard.metrics st' = Dashboard.metrics Sample.dashboard1
  /\ length (Dashboard.regionalMetrics (Dashboard.metrics Sample.dashboard1)) = 3%nat.
Proof. intros st st'. split; [|split; [|split; [|split]]]; compute_done. Qed.

(* ===================================================================== *)
(** * The form of RegionalAnalysis *)
(* ===================================================================== *)

Section Form.

Lemma typing_frame (inputs : list (string * string)) (st : RegionalAnalysis.State) :
  let st' := Selection.typing inputs st in
  RegionalAnalysis.regions st' = RegionalAnalysis.regions st
  /\ RegionalAnalysis.selectedRegion st' = RegionalAnalysis.selectedRegion st
  /\ RegionalAnalysis.activeTab st' = RegionalAnalysis.activeTab st
  /\ RegionalAnalysis.searchQuery st' = RegionalAnalysis.searchQuery st
  /\ RegionalAnalysis.selectedYear st' = RegionalAnalysis.selectedYear st
  /\ RegionalAnalysis.loading st' = RegionalAnalysis.loading st
  /\ RegionalAnalysis.error st' = RegionalAnalysis.error st
  /\ RegionalAnalysis.editMode st' = RegionalAnalysis.editMode st
  /\ RegionalAnalysis.saving st' = RegionalAnalysis.saving st
  /\ RegionalAnalysis.saveError st' = RegionalAnalysis.saveError st.
Proof.
  unfold Selection.typing. revert st.
  induction inputs as [|[field value] inputs IH]; intros st; cbn [fold_left].
  - repeat split.
  - specialize (IH (RegionalAnalysis.handleEditChange field value st)).
    cbn [fst snd RegionalAnalysis.handleEditChange RegionalAnalysis.regions
         RegionalAnalysis.selectedRegion RegionalAnalysis.activeTab
         RegionalAnalysis.searchQuery RegionalAnalysis.selectedYear
         RegionalAnalysis.loading RegionalAnalysis.error RegionalAnalysis.editMode
         RegionalAnalysis.saving RegionalAnalysis.saveError] in IH.
    exact IH.
Qed.

Lemma cancelEdit_typing (inputs : list (string * string)) (st : RegionalAnalysis.State) :
  RegionalAnalysis.cancelEdit (Selection.typing inputs st) = RegionalAnalysis.cancelEdit st.
Proof.
  destruct (typing_frame inputs st) as (H1 & H2 & H3 & H4 & H5 & H6 & H7 & H8 & H9 & H10).
  unfold RegionalAnalysis.cancelEdit. now rewrite H1, H2, H3, H4, H5, H6, H7, H9.
Qed.

End Form.

(** X5. Cancelling discards the form whatever was typed into it.  With a
    region selected: after [enterEditMode], any sequence of inputs and
    [cancelEdit], the state is the state before with edit mode off, no form
    and no save error — the rows, the selection and the year are what they
    were; so is the state after [handleRegionClick] in place of [cancelEdit],
    up to the new selection; and entering edit mode again starts from the
    values of the selected row, not from what had been typed. *)
Theorem cancelEdit_discards_the_form (st : RegionalAnalysis.State) (r region : Obj)
    (inputs : list (string * string)) :
  RegionalAnalysis.selectedRegion st = Some r ->
  let typed := Selection.typing inputs (RegionalAnalysis.enterEditMode st) in
  RegionalAnalysis.cancelEdit typed = RegionalAnalysis.cancelEdit st
  /\ Selection.handleRegionClick region typed
     = Selection.handleRegionClick region (RegionalAnalysis.cancelEdit st)
  /\ RegionalAnalysis.enterEditMode (RegionalAnalysis.cancelEdit typed)
     = RegionalAnalysis.enterEditMode st
  /\ RegionalAnalysis.editForm (RegionalAnalysis.enterEditMode st)
     = Some (list_to_map (map (fun k => (k, JS.get r k)) RegionalAnalysis.editableFields)).
Proof.
  intros Hsel typed. subst typed.
  assert (Hcancel : RegionalAnalysis.cancelEdit (RegionalAnalysis.enterEditMode st)
                    = RegionalAnalysis.cancelEdit st).
  { unfold RegionalAnalysis.enterEditMode, RegionalAnalysis.cancelEdit.
    now rewrite Hsel. }
  split; [|split; [|split]].
  - now rewrite cancelEdit_typing.
  - destruct (typing_frame inputs (RegionalAnalysis.enterEditMode st))
      as (H1 & H2 & H3 & H4 & H5 & H6 & H7 & H8 & H9 & H10).
    unfold Selection.handleRegionClick. rewrite H1, H3, H4, H5, H6, H7, H9, H10.
    unfold RegionalAnalysis.enterEditMode, RegionalAnalysis.cancelEdit.
    now rewrite Hsel.
  - rewrite cancelEdit_typing, Hcancel.
    unfold RegionalAnalysis.enterEditMode, RegionalAnalysis.cancelEdit. cbn.
    now rewrite Hsel.
  - unfold RegionalAnalysis.enterEditMode. now rewrite Hsel.
Qed.

Lemma cancelEdit_discards_the_form_witness :
  let st := Selection.handleRegionClick Sample.ashantiRow Sample.analysis1 in
  let inputs := [("taxpayers", "1300"); ("averageTax", ""); ("taxpayers", "12")] in
  let typed := Selection.typing inputs (RegionalAnalysis.enterEditMode st) in
  (RegionalAnalysis.selectedRegion st = Some Sample.ashantiRow
   /\ RegionalAnalysis.editForm typed
      <> RegionalAnalysis.editForm (RegionalAnalysis.enterEditMode st))
  /\ RegionalAnalysis.cancelEdit typed = RegionalAnalysis.cancelEdit st
  /\ Selection.handleRegionClick Sample.ashantiRow typed
     = Selection.handleRegionClick Sample.ashantiRow (RegionalAnalysis.cancelEdit st)
  /\ RegionalAnalysis.enterEditMode (RegionalAnalysis.cancelEdit typed)
     = RegionalAnalysis.enterEditMode st
  /\ RegionalAnalysis.editForm (RegionalAnalysis.enterEditMode st)
     = Some (list_to_map (map (fun k => (k, JS.get Sample.ashantiRow k))
                              RegionalAnalysis.editableFields)).
Proof.
  intros st inputs typed.
  assert (Hsel : RegionalAnalysis.selectedRegion st = Some Sample.ashantiRow)
    by reflexivity.
  split; [split; [exact Hsel|compute_done]|].
  exact (cancelEdit_discards_the_form st Sample.ashantiRow Sample.ashantiRow inputs Hsel).
Defined.

(* ===================================================================== *)
(** * Searching *)
(* ===================================================================== *)


Section Refine.

Variables (A : Type) (row : A -> Obj).

(** Searching for a text that contains the former one is searching within
    the former results. *)
Lemma filterE_refine (query query' : string) (rows shown' : list A) :
  JS.includes (JS.toLowerCase query') (JS.toLowerCase query) = true ->
  filterE (fun x => matchesSearch query' (row x)) rows = Some shown' ->
  exists shown,
    filterE (fun x => matchesSearch query (row x)) rows = Some shown
    /\ filterE (fun x => matchesSearch query' (row x)) shown = Some shown'.
Proof.
  intros Hq. revert shown'.
  induction rows as [|x rows IH]; intros shown'; cbn [filterE].
  - intros [= <-]. now exists [].
  - unfold matchesSearch at 1 3.
    destruct (JS.get (row x) "region") as [| |name] eqn:Hname; try discriminate.
    destruct (filterE (fun x => matchesSearch query' (row x)) rows) as [tail'|];
      [|discriminate].
    destruct (IH tail' eq_refl) as (tail & -> & Htail).
    intros [= <-].
    destruct (JS.includes (JS.toLowerCase name) (JS.toLowerCase query')) eqn:Hin'.
    + rewrite (includes_trans _ _ _ Hin' Hq).
      eexists. split; [reflexivity|]. cbn [filterE]. unfold matchesSearch at 1.
      now rewrite Hname, Hin', Htail.
    + destruct (JS.includes (JS.toLowerCase name) (JS.toLowerCase query)).
      * eexists. split; [reflexivity|]. cbn [filterE]. unfold matchesSearch at 1.
        now rewrite Hname, Hin', Htail.
      * eexists. split; [reflexivity|exact Htail].
Qed.

Lemma filterE_exact (query : string) (rows : list A) :
  Forall (fun x => is_Some (Spec.nameOf (row x))) rows ->
  filterE (fun x => matchesSearch query (row x)) rows
  = Some (List.filter (fun x => Spec.matches query None (row x)) rows).
Proof.
  induction 1 as [|r l [n Hn] _ IH]; [reflexivity|].
  cbn [filterE List.filter]. rewrite IH.
  unfold matchesSearch, Spec.matches. unfold Spec.nameOf in *.
  destruct (JS.get (row r) "region") as [|x|s]; try discriminate.
  rewrite andb_true_r. reflexivity.
Qed.

Lemma filterE_elements (p : A -> option bool) (l shown : list A) :
  filterE p l = Some shown -> forall x, In x shown -> In x l.
Proof.
  revert shown. induction l as [|z l IH]; intros shown; cbn [filterE].
  - intros [= <-] x [].
  - destruct (p z) as [b|]; [|discriminate].
    destruct (filterE p l) as [r|]; [|discriminate].
    intros [= <-] x Hx. destruct b; [destruct Hx as [<-|Hx]|]; cbn; auto.
    + right. now apply (IH r).
    + right. now apply (IH r).
Qed.

End Refine.

(** X6. The search of the Dashboard table and of the source breakdown.  On
    rows whose name is a string of ASCII characters, and for a query of
    ASCII characters, the rows shown are exactly the rows in whose name the
    query occurs, letter case ignored ([Spec.occursIn], worded without
    [includes] and [toLowerCase]), in their order (the filter keeps a row
    exactly when the query so occurs in its name); the cleared search shows
    every row; a query and its lower-case form show the same rows; and
    before the effect has stored the regions the breakdown shows the empty
    list. *)
Theorem search_is_exact (query : string) (st : Dashboard.State)
    (regions : list RegionObj) :
  plainText query = true ->
  Forall plainName (Dashboard.regionalMetrics (Dashboard.metrics st)) ->
  Forall (fun r => plainName (props r)) regions ->
  let rows := Dashboard.regionalMetrics (Dashboard.metrics st) in
  let shown := List.filter (fun r => Spec.matches query None (props r)) regions in
  (Dashboard.filteredMetrics (Search.setSearchQuery query st)
     = Some (Spec.filter rows query None)
   /\ (forall r, In r (Spec.filter rows query None)
                 <-> In r rows /\ Spec.Selected query None r)
   /\ Dashboard.filteredMetrics (Search.clearSearch st) = Some rows
   /\ Dashboard.filteredMetrics (Search.setSearchQuery (JS.toLowerCase query) st)
      = Dashboard.filteredMetrics (Search.setSearchQuery query st))
  /\ (TaxSourceSearch.filteredRegions (Some regions) query = Some shown
      /\ (forall r, In r shown <-> In r regions /\ Spec.Selected query None (props r))
      /\ TaxSourceSearch.filteredRegions (Some regions) "" = Some regions
      /\ TaxSourceSearch.filteredRegions (Some regions) (JS.toLowerCase query)
         = TaxSourceSearch.filteredRegions (Some regions) query)
  /\ TaxSourceSearch.filteredRegions None query = Some []
  /\ (forall r, Spec.matches query None r = true <-> Spec.Selected query None r).
Proof.
  intros _ Hrows Hregions rows shown.
  assert (Hnames : Forall (fun r => is_Some (Spec.nameOf r)) rows)
    by now apply plainName_is_Some.
  assert (Hnames' : Forall (fun r => is_Some (Spec.nameOf (props r))) regions).
  { eapply Forall_impl; [exact Hregions|]. intros r (n & Hn & _). now exists n. }
  assert (Hall : forall (A : Type) (row : A -> Obj) (l : list A),
             Forall (fun x => is_Some (Spec.nameOf (row x))) l ->
             List.filter (fun x => Spec.matches "" None (row x)) l = l).
  { intros A row l Hl. apply filter_all. eapply Forall_impl; [exact Hl|].
    intros x [n Hn]. cbn beta. unfold Spec.matches. rewrite Hn.
    cbn [JS.toLowerCase]. now rewrite includes_empty. }
  assert (Hlow : forall (A : Type) (row : A -> Obj) (l : list A),
             filterE (fun x => matchesSearch (JS.toLowerCase query) (row x)) l
             = filterE (fun x => matchesSearch query (row x)) l).
  { intros A row l. induction l as [|x l IH]; [reflexivity|]. cbn [filterE].
    rewrite IH. unfold matchesSearch. now rewrite toLowerCase_idempotent. }
  split; [|split; [|split; [reflexivity|intros r; apply matches_Selected]]].
  - subst rows.
    unfold Dashboard.filteredMetrics, Search.clearSearch, Search.setSearchQuery.
    cbn [Dashboard.searchQuery Dashboard.metrics].
    split; [|split; [|split]].
    + exact (filterE_exact Obj (fun r => r) query _ Hnames).
    + intros r. unfold Spec.filter. rewrite filter_In, matches_Selected. reflexivity.
    + etransitivity; [exact (filterE_exact Obj (fun r => r) "" _ Hnames)|].
      f_equal. exact (Hall Obj (fun r => r) _ Hnames).
    + exact (Hlow Obj (fun r => r) _).
  - subst shown. unfold TaxSourceSearch.filteredRegions.
    split; [|split; [|split]].
    + exact (filterE_exact RegionObj props query _ Hnames').
    + intros r. rewrite filter_In, matches_Selected. reflexivity.
    + etransitivity; [exact (filterE_exact RegionObj props "" _ Hnames')|].
      f_equal. exact (Hall RegionObj props _ Hnames').
    + exact (Hlow RegionObj props _).
Qed.

Lemma search_is_exact_witness :
  let st := Sample.dashboard1 in
  let rows := Dashboard.regionalMetrics (Dashboard.metrics st) in
  let regions := map Spec.toFlat SampleRecords.flat in
  let shown := List.filter (fun r => Spec.matches "aSh" None (props r)) regions in
  (plainText "aSh" = true
   /\ Forall plainName rows
   /\ Forall (fun r => plainName (props r)) regions
   /\ length rows = 3%nat
   /\ Spec.filter rows "aSh" None = [Sample.ashantiRow]
   /\ Spec.filter rows "A" None = rows
   /\ Spec.filter rows "x" None = []
   /\ length regions = 2%nat
   /\ length shown = 1%nat)
  /\ (Dashboard.filteredMetrics (Search.setSearchQuery "aSh" st)
      = Some (Spec.filter rows "aSh" None)
      /\ (forall r, In r (Spec.filter rows "aSh" None)
                    <-> In r rows /\ Spec.Selected "aSh" None r)
      /\ Dashboard.filteredMetrics (Search.clearSearch st) = Some rows
      /\ Dashboard.filteredMetrics (Search.setSearchQuery (JS.toLowerCase "aSh") st)
         = Dashboard.filteredMetrics (Search.setSearchQuery "aSh" st))
  /\ (TaxSourceSearch.filteredRegions (Some regions) "aSh" = Some shown
      /\ (forall r, In r shown <-> In r regions /\ Spec.Selected "aSh" None (props r))
      /\ TaxSourceSearch.filteredRegions (Some regions) "" = Some regions
      /\ TaxSourceSearch.filteredRegions (Some regions) (JS.toLowerCase "aSh")
         = TaxSourceSearch.filteredRegions (Some regions) "aSh")
  /\ TaxSourceSearch.filteredRegions None "aSh" = Some []
  /\ (forall r, Spec.matches "aSh" None r = true <-> Spec.Selected "aSh" None r).
Proof.
  intros st rows regions shown.
  assert (Hquery : plainText "aSh" = true) by reflexivity.
  assert (Hrows : Forall plainName rows).
  { repeat constructor; eexists; (split; [reflexivity|reflexivity]). }
  assert (Hregions : Forall (fun r => plainName (props r)) regions).
  { repeat constructor; eexists; (split; [reflexivity|reflexivity]). }
  split.
  - split; [exact Hquery|]. split; [exact Hrows|]. split; [exact Hregions|].
    split; [compute_done|]. split; [compute_done|]. split; [compute_done|].
    split; [compute_done|]. split; compute_done.
  - exact (search_is_exact "aSh" st regions Hquery Hrows Hregions).
Defined.

(** X7. Refining a search.  When the new query contains the former one
    (letter case ignored) — the user typed on — the rows shown for the new
    query are the rows the new query selects among those shown before: no
    row comes back that the former query had excluded.  This holds for the
    search of the Dashboard, of the source breakdown and, under any tab, of
    RegionalAnalysis. *)
Theorem search_refines (query query' : string) :
  JS.includes (JS.toLowerCase query') (JS.toLowerCase query) = true ->
  (forall (st : Dashboard.State) (shown' : list Obj),
      Dashboard.filteredMetrics (Search.setSearchQuery query' st) = Some shown' ->
      exists shown,
        Dashboard.filteredMetrics (Search.setSearchQuery query st) = Some shown
        /\ filterE (matchesSearch query') shown = Some shown')
  /\ (forall (regions : option (list RegionObj)) (shown' : list RegionObj),
      TaxSourceSearch.filteredRegions regions query' = Some shown' ->
      exists shown,
        TaxSourceSearch.filteredRegions regions query = Some shown
        /\ TaxSourceSearch.filteredRegions (Some shown) query' = Some shown')
  /\ (forall (regions shown' : list Obj) (tab : string),
      RegionalAnalysis.filteredRegions regions tab query' = Some shown' ->
      exists shown,
        RegionalAnalysis.filteredRegions regions tab query = Some shown
        /\ RegionalAnalysis.filteredRegions shown tab query' = Some shown').
Proof.
  intros Hq. split; [|split].
  - intros st shown'.
    unfold Dashboard.filteredMetrics, Search.setSearchQuery.
    cbn [Dashboard.searchQuery Dashboard.metrics].
    exact (filterE_refine Obj (fun r => r) query query' _ shown' Hq).
  - intros [regions|] shown'; unfold TaxSourceSearch.filteredRegions.
    + exact (filterE_refine RegionObj props query query' _ shown' Hq).
    + intros [= <-]. now exists [].
  - intros regions shown' tab. unfold RegionalAnalysis.filteredRegions. intros H.
    destruct (filterE_refine Obj (fun r => r) query query' _ shown' Hq H)
      as (shown & Hshown & Hshown').
    exists shown. split; [exact Hshown|].
    rewrite filter_all; [exact Hshown'|].
    apply List.Forall_forall. intros r Hr.
    pose proof (filterE_elements _ _ _ _ Hshown r Hr) as Hin.
    apply filter_In in Hin. tauto.
Qed.

Lemma search_refines_witness :
  let st := Sample.dashboard1 in
  JS.includes (JS.toLowerCase "aSh") (JS.toLowerCase "A") = true
  /\ Dashboard.filteredMetrics (Search.setSearchQuery "aSh" st) = Some [Sample.ashantiRow]
  /\ exists shown,
      Dashboard.filteredMetrics (Search.setSearchQuery "A" st) = Some shown
      /\ filterE (matchesSearch "aSh") shown = Some [Sample.ashantiRow].
Proof.
  intros st.
  assert (Hq : JS.includes (JS.toLowerCase "aSh") (JS.toLowerCase "A") = true)
    by reflexivity.
  assert (H : Dashboard.filteredMetrics (Search.setSearchQuery "aSh" st)
              = Some [Sample.ashantiRow]) by compute_done.
  split; [exact Hq|]. split; [exact H|].
  exact (proj1 (search_refines "A" "aSh" Hq) st [Sample.ashantiRow] H).
Defined.

(* ===================================================================== *)
(** * The table after a commit and the store *)
(* ===================================================================== *)

Section Refetch.

Lemma find_replaced {A : Type} (p : A -> bool) (c : A) (l extra : list A) :
  p c = true ->
  List.find p (map (fun x => if p x then c else x) l ++ extra)
  = if existsb p l then Some c else List.find p extra.
Proof.
  intros Hc. induction l as [|x l IH]; [reflexivity|].
  cbn [map app List.find existsb].
  destruct (p x) eqn:Hx; [now rewrite Hc|]. now rewrite Hx, IH.
Qed.

(** A fetch finds the candidate in the series a commit has written. *)
Lemma find_updatedYearlyData (y : number) (edit : Obj) (yd : list Obj) :
  JS.eqb y y = true ->
  JS.find (fun d => JS.strictEq (JS.get d "year") (Num y)) (updatedYearlyData y edit yd)
  = Some (JS.set edit "year" (Num y)).
Proof.
  intros Hy. pose proof (ofYear_candidate y edit Hy) as Hc. unfold ofYear in Hc.
  unfold updatedYearlyData, JS.find, JS.some. cbv zeta.
  destruct (existsb _ yd) eqn:Hex; cbn [negb].
  - rewrite <- (app_nil_r (map _ yd)).
    rewrite (find_replaced (fun d => JS.strictEq (JS.get d "year") (Num y))
               (JS.set edit "year" (Num y)) yd [] Hc).
    now rewrite Hex.
  - rewrite (find_replaced (fun d => JS.strictEq (JS.get d "year") (Num y))
               (JS.set edit "year" (Num y)) yd _ Hc), Hex.
    cbn [List.find]. now rewrite Hc.
Qed.

Lemma fold_plus_ext (h : Obj -> Val) (l l' : list Obj) (acc : Val) :
  Forall2 (fun a b => h a = h b) l l' ->
  fold_left (fun sum r => JS.plus sum (h r)) l acc
  = fold_left (fun sum r => JS.plus sum (h r)) l' acc.
Proof.
  intros H. revert acc. induction H as [|a b l l' Hab _ IH]; intros acc; [reflexivity|].
  cbn [fold_left]. now rewrite Hab, IH.
Qed.

(** The totals read the rows through the properties [taxpayers],
    [totalTax] and [complianceRate] only. *)
Lemma computeMetrics_sameRow (rows rows' : list Obj) :
  Forall2 sameRow rows rows' ->
  Dashboard.totalTaxpayers (Dashboard.computeMetrics rows)
  = Dashboard.totalTaxpayers (Dashboard.computeMetrics rows')
  /\ Dashboard.totalTax (Dashboard.computeMetrics rows)
     = Dashboard.totalTax (Dashboard.computeMetrics rows')
  /\ Dashboard.avgTax (Dashboard.computeMetrics rows)
     = Dashboard.avgTax (Dashboard.computeMetrics rows')
  /\ Dashboard.avgCompliance (Dashboard.computeMetrics rows)
     = Dashboard.avgCompliance (Dashboard.computeMetrics rows').
Proof.
  intros H.
  assert (E1 := fold_plus_ext (fun r => JS.get r "taxpayers") rows rows' (Num JS.zero)).
  assert (E2 := fold_plus_ext (fun r => JS.get r "totalTax") rows rows' (Num JS.zero)).
  assert (E3 := fold_plus_ext
                  (fun r => JS.times (JS.get r "complianceRate") (JS.get r "taxpayers"))
                  rows rows' (Num JS.zero)).
  cbn beta in E1, E2, E3.
  unfold Dashboard.computeMetrics. cbv zeta.
  cbn [Dashboard.totalTaxpayers Dashboard.totalTax Dashboard.avgTax Dashboard.avgCompliance].
  rewrite E1, E2, E3; [repeat split| | |];
    (eapply Forall2_impl; [exact H|]); intros a b Hab; cbn beta;
    rewrite ?(Hab "taxpayers"), ?(Hab "totalTax"), ?(Hab "complianceRate");
    (reflexivity || discriminate).
Qed.

Variables (editedData : gmap string Obj) (y : number) (key : string) (edit : Obj).
Variable updated : list Obj.

Hypothesis Hedit : editedData !! Dashboard.editKey (Str key) y = Some edit.
Hypothesis Hupdated :
  JS.find (fun d => JS.strictEq (JS.get d "year") (Num y)) updated
  = Some (JS.set edit "year" (Num y)).

(** One document and its row, before and after the commit. *)
Lemma fetchedRow_after_commit (d : Firestore.Doc) (row : Obj) :
  storedUnderName d ->
  fetchedRow editedData y (Firestore.data d) = Some row ->
  JS.get row "region" = JS.get (props (Firestore.data d)) "region" ->
  exists row',
    fetchedRow editedData y (Firestore.data
                  (if String.eqb (Firestore.id d) key
                   then {| Firestore.id := Firestore.id d;
                           Firestore.data := {| props := props (Firestore.data d);
                                                yearlyData := Some updated |} |}
                   else d)) = Some row'
    /\ sameRow (if JS.strictEq (JS.get row "region") (Str key)
                then JS.set edit "region" (JS.get row "region") else row)
               row'.
Proof.
  intros Hname Hrow Hregion. unfold storedUnderName in Hname.
  rewrite Hname in Hregion. rewrite Hregion. cbn [JS.strictEq].
  destruct (String.eqb_spec (Firestore.id d) key) as [Hk|Hk].
  - subst key. unfold fetchedRow in *. cbn [Firestore.data props yearlyData].
    unfold yearDataOf at 1. cbn [yearlyData]. rewrite Hupdated. cbn [default].
    rewrite Hname in *. rewrite Hedit in *. cbn [default] in *.
    eexists. split; [reflexivity|].
    destruct (yearDataOf y (Firestore.data d)) as [yearData|]; [|discriminate].
    injection Hrow as <-.
    intros k Hk. unfold JS.get, JS.spread, JS.set in *. cbv [id] in *.
    rewrite !lookup_union in *.
    destruct (decide (k = "region")) as [->|Hkr].
    + rewrite lookup_insert_eq. rewrite lookup_insert_ne by discriminate.
      rewrite lookup_singleton_eq. rewrite lookup_singleton_eq in Hregion.
      destruct (edit !! "region") as [v|] eqn:Hv, (yearData !! "region");
        cbn in *; congruence.
    + rewrite !lookup_insert_ne by congruence.
      rewrite lookup_singleton_ne by congruence.
      destruct (edit !! k); reflexivity.
  - exists row. split; [exact Hrow|]. intros k _. reflexivity.
Qed.

Lemma mapE_fetchedRow_after_commit (store : Firestore.Store) (rows : list Obj) :
  Forall storedUnderName store ->
  mapE (fetchedRow editedData y) (map Firestore.data store) = Some rows ->
  Forall2 (fun row d => JS.get row "region" = JS.get (props (Firestore.data d)) "region")
          rows store ->
  exists rows',
    mapE (fetchedRow editedData y) (map Firestore.data (Firestore.setYearlyData key updated store))
    = Some rows'
    /\ Forall2 sameRow
         (map (fun r => if JS.strictEq (JS.get r "region") (Str key)
                        then JS.set edit "region" (JS.get r "region") else r) rows)
         rows'.
Proof.
  unfold Firestore.setYearlyData.
  intros Hstored. revert rows.
  induction Hstored as [|d store Hd _ IH]; intros rows; cbn [map mapE].
  - intros [= <-] _. exists []. split; [reflexivity|constructor].
  - destruct (fetchedRow editedData y (Firestore.data d)) as [row|] eqn:Hrow; [|discriminate].
    destruct (mapE (fetchedRow editedData y) (map Firestore.data store)) as [tail|]; [|discriminate].
    intros [= <-] Hregions. inversion Hregions as [|? ? ? ? Hregion Htail]; subst.
    destruct (IH tail eq_refl Htail) as (tail' & Htail' & Hsame).
    destruct (fetchedRow_after_commit d row Hd Hrow Hregion) as (row' & Hrow' & Hsame').
    exists (row' :: tail'). split.
    + now rewrite Hrow', Htail'.
    + cbn [map]. constructor; assumption.
Qed.

End Refetch.

(** X8. The table after a commit is the table a fetch would show.  Let the
    Dashboard show what it fetched from the store (its rows are the rows of
    [fetchRegions] for the store and the pending edits, each row under the
    name of its document), every document being stored under the name of
    its region.  After a run of [saveEdits] that ended [Saved], fetching
    from the store as written succeeds, and its rows agree with the rows
    the local update left in the table, row by row, on every property
    except [year]; the four totals are the same. *)
Theorem dashboard_commit_agrees_with_refetch (net : Firestore.Net)
    (store store' : Firestore.Store) (st st' : Dashboard.State)
    (ops : list Firestore.Op) :
  JS.eqb (Dashboard.selectedYear st) (Dashboard.selectedYear st) = true ->
  Forall storedUnderName store ->
  Dashboard.regionalMetricsOf (Dashboard.editedData st) (Dashboard.selectedYear st)
    (map Firestore.data store)
  = Some (Dashboard.regionalMetrics (Dashboard.metrics st)) ->
  Forall2 (fun row d => JS.get row "region" = JS.get (props (Firestore.data d)) "region")
          (Dashboard.regionalMetrics (Dashboard.metrics st)) store ->
  Dashboard.saveEdits net store st = (st', store', ops, Saved) ->
  let fetched := Dashboard.fetchRegions Firestore.online store' st' in
  Dashboard.error fetched = None
  /\ Forall2 sameRow (Dashboard.regionalMetrics (Dashboard.metrics st'))
                     (Dashboard.regionalMetrics (Dashboard.metrics fetched))
  /\ Dashboard.totalTaxpayers (Dashboard.metrics st')
     = Dashboard.totalTaxpayers (Dashboard.metrics fetched)
  /\ Dashboard.totalTax (Dashboard.metrics st')
     = Dashboard.totalTax (Dashboard.metrics fetched)
  /\ Dashboard.avgTax (Dashboard.metrics st')
     = Dashboard.avgTax (Dashboard.metrics fetched)
  /\ Dashboard.avgCompliance (Dashboard.metrics st')
     = Dashboard.avgCompliance (Dashboard.metrics fetched).
Proof.
  intros Hy Hstored Hsync Hregions Hsaved fetched. subst fetched.
  unfold Dashboard.saveEdits in Hsaved.
  destruct (Dashboard.isEditing st) as [[region field]|]; [|discriminate].
  destruct (Dashboard.editedData st !! _) as [edit|] eqn:Hedit; [|discriminate].
  destruct (negb _); [discriminate|].
  destruct (persistEdit _ _ _ _ _) as [[s|] o] eqn:Hp; [|discriminate].
  injection Hsaved as <- <- <-.
  apply persistEdit_saved in Hp.
  destruct Hp as (key & d0 & yd & -> & _ & _ & -> & _).
  destruct (mapE_fetchedRow_after_commit (Dashboard.editedData st)
              (Dashboard.selectedYear st) key edit
              (updatedYearlyData (Dashboard.selectedYear st) edit yd)
              Hedit (find_updatedYearlyData _ _ _ Hy)
              store _ Hstored Hsync Hregions) as (rows' & Hrows' & Hsame).
  unfold Dashboard.fetchRegions, Firestore.getDocs.
  cbn [Firestore.online Firestore.getDocs_ok Dashboard.committed Dashboard.editedData
       Dashboard.selectedYear].
  unfold Dashboard.regionalMetricsOf. unfold fetchedRow in Hrows'. rewrite Hrows'.
  cbn [Dashboard.error Dashboard.metrics].
  split; [reflexivity|]. split; [exact Hsame|].
  exact (computeMetrics_sameRow _ _ Hsame).
Qed.

Lemma dashboard_commit_agrees_with_refetch_witness :
  let st := Cases.dashboardShown in
  let result := Dashboard.saveEdits Firestore.online Sample.store st in
  let st' := fst (fst (fst result)) in
  let store' := snd (fst (fst result)) in
  let fetched := Dashboard.fetchRegions Firestore.online store' st' in
  (Dashboard.saveEdits Firestore.online Sample.store st
   = (st', store', snd (fst result), Saved)
   /\ JS.get (default ∅ (head (Dashboard.regionalMetrics (Dashboard.metrics st'))))
             "taxpayers" = Num (JS.of_Z 1300))
  /\ Dashboard.error fetched = None
  /\ Forall2 sameRow (Dashboard.regionalMetrics (Dashboard.metrics st'))
                     (Dashboard.regionalMetrics (Dashboard.metrics fetched))
  /\ Dashboard.totalTaxpayers (Dashboard.metrics st')
     = Dashboard.totalTaxpayers (Dashboard.metrics fetched)
  /\ Dashboard.totalTax (Dashboard.metrics st')
     = Dashboard.totalTax (Dashboard.metrics fetched)
  /\ Dashboard.avgTax (Dashboard.metrics st')
     = Dashboard.avgTax (Dashboard.metrics fetched)
  /\ Dashboard.avgCompliance (Dashboard.metrics st')
     = Dashboard.avgCompliance (Dashboard.metrics fetched).
Proof.
  intros st result st' store' fetched.
  assert (Hy : JS.eqb (Dashboard.selectedYear st) (Dashboard.selectedYear st) = true)
    by compute_done.
  assert (Hstored : Forall storedUnderName Sample.store)
    by (unfold storedUnderName; compute_done).
  assert (Hsync : Dashboard.regionalMetricsOf (Dashboard.editedData st)
                    (Dashboard.selectedYear st) (map Firestore.data Sample.store)
                  = Some (Dashboard.regionalMetrics (Dashboard.metrics st)))
    by compute_done.
  assert (Hregions :
            Forall2 (fun row d =>
                       JS.get row "region" = JS.get (props (Firestore.data d)) "region")
                    (Dashboard.regionalMetrics (Dashboard.metrics st)) Sample.store)
    by compute_done.
  assert (Hsaved : Dashboard.saveEdits Firestore.online Sample.store st
                   = (st', store', snd (fst result), Saved)) by compute_done.
  split; [split; [exact Hsaved|compute_done]|].
  exact (dashboard_commit_agrees_with_refetch Firestore.online Sample.store store' st st'
           (snd (fst result)) Hy Hstored Hsync Hregions Hsaved).
Defined.

Section RefetchAnalysis.

Variables (y : number) (key : string) (form : Obj) (updated : list Obj).

Hypothesis Hform : form !! "region" = None.
Hypothesis Hupdated :
  JS.find (fun d => JS.strictEq (JS.get d "year") (Num y)) updated
  = Some (JS.set form "year" (Num y)).

Lemma analysisRow_after_commit (d : Firestore.Doc) (row : Obj) :
  storedUnderName d ->
  analysisRow y (Firestore.data d) = Some row ->
  JS.get row "region" = JS.get (props (Firestore.data d)) "region" ->
  exists row',
    analysisRow y (Firestore.data
                     (if String.eqb (Firestore.id d) key
                      then {| Firestore.id := Firestore.id d;
                              Firestore.data := {| props := props (Firestore.data d);
                                                   yearlyData := Some updated |} |}
                      else d)) = Some row'
    /\ sameRow (if JS.strictEq (JS.get row "region") (Str key)
                then JS.set form "region" (JS.get row "region") else row)
               row'.
Proof.
  intros Hname Hrow Hregion. unfold storedUnderName in Hname.
  rewrite Hname in Hregion. rewrite Hregion. cbn [JS.strictEq].
  destruct (String.eqb_spec (Firestore.id d) key) as [Hk|Hk].
  - subst key. unfold analysisRow in *. cbn [Firestore.data props yearlyData].
    unfold yearDataOf at 1. cbn [yearlyData]. rewrite Hupdated. cbn [default].
    rewrite Hname in *.
    eexists. split; [reflexivity|].
    intros k Hk. unfold JS.get, JS.spread, JS.set in *. cbv [id] in *.
    rewrite !lookup_union.
    destruct (decide (k = "region")) as [->|Hkr].
    + rewrite lookup_insert_eq. rewrite lookup_insert_ne by discriminate.
      rewrite lookup_singleton_eq, Hform. reflexivity.
    + rewrite !lookup_insert_ne by congruence.
      rewrite lookup_singleton_ne by congruence.
      destruct (form !! k); reflexivity.
  - exists row. split; [exact Hrow|]. intros k _. reflexivity.
Qed.

Lemma mapE_analysisRow_after_commit (store : Firestore.Store) (rows : list Obj) :
  Forall storedUnderName store ->
  mapE (analysisRow y) (map Firestore.data store) = Some rows ->
  Forall2 (fun row d => JS.get row "region" = JS.get (props (Firestore.data d)) "region")
          rows store ->
  exists rows',
    mapE (analysisRow y) (map Firestore.data (Firestore.setYearlyData key updated store))
    = Some rows'
    /\ Forall2 sameRow
         (map (fun r => if JS.strictEq (JS.get r "region") (Str key)
                        then JS.set form "region" (JS.get r "region") else r) rows)
         rows'.
Proof.
  unfold Firestore.setYearlyData.
  intros Hstored. revert rows.
  induction Hstored as [|d store Hd _ IH]; intros rows; cbn [map mapE].
  - intros [= <-] _. exists []. split; [reflexivity|constructor].
  - destruct (analysisRow y (Firestore.data d)) as [row|] eqn:Hrow; [|discriminate].
    destruct (mapE (analysisRow y) (map Firestore.data store)) as [tail|]; [|discriminate].
    intros [= <-] Hregions. inversion Hregions as [|? ? ? ? Hregion Htail]; subst.
    destruct (IH tail eq_refl Htail) as (tail' & Htail' & Hsame).
    destruct (analysisRow_after_commit d row Hd Hrow Hregion) as (row' & Hrow' & Hsame').
    exists (row' :: tail'). split.
    + now rewrite Hrow', Htail'.
    + cbn [map]. constructor; assumption.
Qed.

End RefetchAnalysis.

(** The row of a document found by name is in the table. *)
Lemma found_row (name : Val) (store : Firestore.Store) (d : Firestore.Doc)
    (rows : list Obj) :
  JS.find (regionIs name) store = Some d ->
  Forall2 (fun row d => JS.get row "region" = JS.get (props (Firestore.data d)) "region")
          rows store ->
  exists row, In row rows /\ JS.strictEq (JS.get row "region") name = true.
Proof.
  intros Hfind Hregions. apply find_some in Hfind. destruct Hfind as [Hin Hd].
  unfold regionIs in Hd.
  induction Hregions as [|row d' rows store Hrow _ IH]; [destruct Hin|].
  destruct Hin as [->|Hin].
  - exists row. split; [now left|]. now rewrite Hrow.
  - destruct (IH Hin) as (r & Hr & Hname). exists r. split; [now right|exact Hname].
Qed.

Lemma Forall2_Permutation_l {A B : Type} (R : A -> B -> Prop) (a b : list A)
    (c : list B) :
  Permutation a b -> Forall2 R b c ->
  exists c', Permutation c' c /\ Forall2 R a c'.
Proof.
  intros Hperm. revert c.
  induction Hperm as [|x a b _ IH|x y a|a b b' _ IH1 _ IH2]; intros c Hc.
  - exists c. split; [reflexivity|exact Hc].
  - inversion Hc as [|? z ? c0 Hxz Hc0]; subst.
    destruct (IH c0 Hc0) as (c' & Hc' & Ha). exists (z :: c'). split.
    + now constructor.
    + now constructor.
  - inversion Hc as [|? z ? c0 Hxz Hc0]; subst.
    inversion Hc0 as [|? z' ? c1 Hyz Hc1]; subst.
    exists (z' :: z :: c1). split; [apply perm_swap|].
    constructor; [exact Hyz|]. now constructor.
  - destruct (IH2 c Hc) as (c1 & Hc1 & Hb).
    destruct (IH1 c1 Hb) as (c2 & Hc2 & Ha).
    exists c2. split; [now rewrite Hc2|exact Ha].
Qed.

(** X9. The same for RegionalAnalysis, whose form has no [region] property.
    Its table holds the rows that were fetched, in whatever order the
    ranking of the detail panel (an in-place sort of the state's array) has
    left them.  When every document is stored under the name of its region,
    then after a run of [saveEdits] that ended [Saved] a fetch from the
    store as written succeeds, and its rows are, up to that order, the rows
    of the local update: each row of the table agrees with its fetched
    counterpart on every property except [year]; and the selection shown in
    the detail panel is one of the rows of the table. *)
Theorem analysis_commit_agrees_with_refetch (net : Firestore.Net)
    (store store' : Firestore.Store) (st st' : RegionalAnalysis.State)
    (fetched0 : list Obj) (form : Obj) (ops : list Firestore.Op) :
  JS.eqb (RegionalAnalysis.selectedYear st) (RegionalAnalysis.selectedYear st) = true ->
  Forall storedUnderName store ->
  RegionalAnalysis.processedRegions (RegionalAnalysis.selectedYear st)
    (map Firestore.data store) = Some fetched0 ->
  Forall2 (fun row d => JS.get row "region" = JS.get (props (Firestore.data d)) "region")
          fetched0 store ->
  Permutation (RegionalAnalysis.regions st) fetched0 ->
  RegionalAnalysis.editForm st = Some form ->
  form !! "region" = None ->
  RegionalAnalysis.saveEdits net store st = (st', store', ops, Saved) ->
  let fetched := RegionalAnalysis.fetchRegions Firestore.online store' st' in
  RegionalAnalysis.error fetched = None
  /\ (exists rows, Permutation rows (RegionalAnalysis.regions fetched)
                   /\ Forall2 sameRow (RegionalAnalysis.regions st') rows)
  /\ exists row, RegionalAnalysis.selectedRegion st' = Some row
                 /\ In row (RegionalAnalysis.regions st').
Proof.
  intros Hy Hstored Hsync Hregions Hperm Hform Hnoregion Hsaved fetched. subst fetched.
  unfold RegionalAnalysis.saveEdits in Hsaved. rewrite Hform in Hsaved.
  destruct (negb _); [discriminate|].
  destruct (RegionalAnalysis.selectedRegion st) as [r|]; [|discriminate].
  destruct (persistEdit _ _ _ _ _) as [[s|] o] eqn:Hp; [|discriminate].
  injection Hsaved as <- <- <-.
  apply persistEdit_saved in Hp.
  destruct Hp as (key & d0 & yd & Hname & Hfind & _ & -> & _).
  rewrite Hname in *.
  destruct (mapE_analysisRow_after_commit (RegionalAnalysis.selectedYear st) key form
              (updatedYearlyData (RegionalAnalysis.selectedYear st) form yd)
              Hnoregion (find_updatedYearlyData _ _ _ Hy)
              store _ Hstored Hsync Hregions) as (rows' & Hrows' & Hsame).
  unfold RegionalAnalysis.fetchRegions, Firestore.getDocs.
  cbn [Firestore.online Firestore.getDocs_ok RegionalAnalysis.committed
       RegionalAnalysis.selectedYear].
  unfold RegionalAnalysis.processedRegions. unfold analysisRow in Hrows'. rewrite Hrows'.
  cbn [RegionalAnalysis.error RegionalAnalysis.regions RegionalAnalysis.selectedRegion].
  split; [reflexivity|]. split.
  - apply (Forall2_Permutation_l sameRow _ _ rows' (Permutation_map _ Hperm) Hsame).
  - destruct (found_row _ _ _ _ Hfind Hregions) as (row & Hin & Hrow).
    eexists. split; [reflexivity|].
    apply in_map_iff. exists row. split.
    + rewrite Hrow. f_equal.
      cbn [JS.strictEq] in Hrow. destruct (JS.get row "region") as [| |s]; try discriminate.
      apply String.eqb_eq in Hrow. now subst.
    + apply (Permutation_in _ (Permutation_sym Hperm)). exact Hin.
Qed.

Lemma analysis_commit_agrees_with_refetch_witness :
  let st := Cases.analysis2024 in
  let fetched0 := RegionalAnalysis.regions Cases.fetched2024 in
  let form := default ∅ (RegionalAnalysis.editForm st) in
  let result := RegionalAnalysis.saveEdits Firestore.online Sample.store st in
  let st' := fst (fst (fst result)) in
  let store' := snd (fst (fst result)) in
  let fetched := RegionalAnalysis.fetchRegions Firestore.online store' st' in
  (RegionalAnalysis.saveEdits Firestore.online Sample.store st
   = (st', store', snd (fst result), Saved)
   /\ map (fun r => JS.get r "region") fetched0
      = [Str "Ashanti"; Str "Greater Accra"; Str "Volta"]
   /\ Sorting.consistent Sorting.ranking fetched0 = true
   /\ Sorting.sortE Sorting.ranking fetched0 = Some (RegionalAnalysis.regions st)
   /\ map (fun r => JS.get r "region") (RegionalAnalysis.regions st)
      = [Str "Ashanti"; Str "Volta"; Str "Greater Accra"]
   /\ map (fun r => JS.get r "taxpayers") (RegionalAnalysis.regions st')
      = [Num (JS.of_Z 900); Num (JS.of_Z 800); Num JS.zero]
   /\ map (fun r => JS.get r "taxpayers") (RegionalAnalysis.regions fetched)
      = [Num (JS.of_Z 900); Num JS.zero; Num (JS.of_Z 800)])
  /\ RegionalAnalysis.error fetched = None
  /\ (exists rows, Permutation rows (RegionalAnalysis.regions fetched)
                   /\ Forall2 sameRow (RegionalAnalysis.regions st') rows)
  /\ exists row, RegionalAnalysis.selectedRegion st' = Some row
                 /\ In row (RegionalAnalysis.regions st').
Proof.
  intros st fetched0 form result st' store' fetched.
  assert (Hy : JS.eqb (RegionalAnalysis.selectedYear st) (RegionalAnalysis.selectedYear st)
               = true) by compute_done.
  assert (Hstored : Forall storedUnderName Sample.store)
    by (unfold storedUnderName; compute_done).
  assert (Hsync : RegionalAnalysis.processedRegions (RegionalAnalysis.selectedYear st)
                    (map Firestore.data Sample.store) = Some fetched0) by compute_done.
  assert (Hregions :
            Forall2 (fun row d =>
                       JS.get row "region" = JS.get (props (Firestore.data d)) "region")
                    fetched0 Sample.store) by compute_done.
  assert (Hperm : Permutation (RegionalAnalysis.regions st) fetched0).
  { assert (E : exists a g v, fetched0 = [a; g; v]
                              /\ RegionalAnalysis.regions st = [a; v; g]).
    { exists (default ∅ (fetched0 !! 0%nat)), (default ∅ (fetched0 !! 1%nat)),
        (default ∅ (fetched0 !! 2%nat)).
      split; compute_done. }
    destruct E as (a & g & v & -> & ->). constructor. apply perm_swap. }
  assert (Hform : RegionalAnalysis.editForm st = Some form) by compute_done.
  assert (Hnoregion : form !! "region" = None) by compute_done.
  assert (Hsaved : RegionalAnalysis.saveEdits Firestore.online Sample.store st
                   = (st', store', snd (fst result), Saved)) by compute_done.
  split.
  - split; [exact Hsaved|]. split; [compute_done|]. split; [compute_done|].
    split; [compute_done|]. split; [compute_done|]. split; compute_done.
  - exact (analysis_commit_agrees_with_refetch Firestore.online Sample.store store' st st'
             fetched0 form (snd (fst result))
             Hy Hstored Hsync Hregions Hperm Hform Hnoregion Hsaved).
Defined.

(* ===================================================================== *)
(** * What the record written is made of *)
(* ===================================================================== *)

Section WrittenRecord.

Lemma upsert_found {A : Type} (p : A -> bool) (c : A) (l : list A) :
  List.find p l = Some c -> Spec.upsert p c l = l.
Proof.
  induction l as [|x l IH]; [discriminate|]. cbn [List.find Spec.upsert].
  destruct (p x); [now intros [= ->]|]. intros H. now rewrite IH.
Qed.

(** The form of [enterEditMode] on a row that reads as a record, with the
    year of the record set, is the stored form of the record. *)
Lemma form_of_record (row : Obj) (r : Spec.YearRecord) :
  Spec.readsAs row r ->
  JS.set (list_to_map (map (fun k => (k, JS.get row k)) RegionalAnalysis.editableFields))
         "year" (Num (Spec.year r))
  = Spec.toObj r.
Proof.
  unfold Spec.readsAs, Spec.fieldsOf. intros H. invert_Forall. cbn [fst snd] in *.
  unfold RegionalAnalysis.editableFields, Spec.toObj, Spec.fieldsOf, JS.set. cbn [map].
  repeat match goal with
         | H : JS.get row _ = Num _ |- _ => rewrite H; clear H
         end.
  reflexivity.
Qed.

Lemma setYearlyData_same (key : string) (yd : list Obj) (store : Firestore.Store) :
  (forall d, In d store -> Firestore.id d = key ->
             yearlyData (Firestore.data d) = Some yd) ->
  Firestore.setYearlyData key yd store = store.
Proof.
  unfold Firestore.setYearlyData. induction store as [|d store IH]; intros H; [reflexivity|].
  cbn [map]. rewrite IH by (intros d' Hd'; apply H; now right). f_equal.
  destruct (String.eqb_spec (Firestore.id d) key) as [Hk|Hk]; [|reflexivity].
  specialize (H d (or_introl eq_refl) Hk).
  destruct d as [i [p ydd]]. cbn in *. now subst.
Qed.

Lemma regionIs_name (key : string) (d : Firestore.Doc) :
  regionIs (Str key) d = true -> storedUnderName d -> Firestore.id d = key.
Proof.
  unfold regionIs, storedUnderName. intros H Hs. rewrite Hs in H.
  cbn [JS.strictEq] in H.
  now apply String.eqb_eq in H.
Qed.

End WrittenRecord.

(** X10. Saving a form that was not touched changes nothing in the store.
    In RegionalAnalysis, let the selected row show the record that the
    region's document holds for the selected year (the only record of that
    year, with its eight fields), the document being the only one under its
    key and stored under the region's name.  If [saveEdits], called right
    after [enterEditMode], ends [Saved], the series written is the series
    read and the store is what it was. *)
Theorem unchanged_form_changes_nothing (net : Firestore.Net)
    (store store' : Firestore.Store) (st st' : RegionalAnalysis.State)
    (row : Obj) (r : Spec.YearRecord) (d : Firestore.Doc) (yd : list Obj)
    (ops : list Firestore.Op) :
  RegionalAnalysis.selectedRegion st = Some row ->
  Spec.readsAs row r ->
  Spec.year r = RegionalAnalysis.selectedYear st ->
  JS.find (regionIs (JS.get row "region")) store = Some d ->
  storedUnderName d ->
  (forall d', In d' store -> Firestore.id d' = Firestore.id d -> d' = d) ->
  yearlyData (Firestore.data d) = Some yd ->
  List.find (ofYear (RegionalAnalysis.selectedYear st)) yd = Some (Spec.toObj r) ->
  Spec.atMostOne (ofYear (RegionalAnalysis.selectedYear st)) yd ->
  RegionalAnalysis.saveEdits net store (RegionalAnalysis.enterEditMode st)
  = (st', store', ops, Saved) ->
  store' = store
  /\ ops = [Firestore.OpGetDocs; Firestore.OpUpdateDoc (Firestore.id d) yd].
Proof.
  intros Hsel Hreads Hyear Hfind Hstored Hunique Hyd Hrec Hone Hsaved.
  unfold RegionalAnalysis.saveEdits, RegionalAnalysis.enterEditMode in Hsaved.
  rewrite Hsel in Hsaved.
  cbn [RegionalAnalysis.editForm RegionalAnalysis.selectedRegion
       RegionalAnalysis.selectedYear] in Hsaved.
  destruct (negb _); [discriminate|].
  destruct (persistEdit _ _ _ _ _) as [[s|] o] eqn:Hp; [|discriminate].
  injection Hsaved as _ <- <-.
  apply persistEdit_saved in Hp.
  destruct Hp as (key & d0 & yd0 & Hname & Hfind0 & Hyd0 & -> & ->).
  rewrite Hfind in Hfind0. injection Hfind0 as <-.
  rewrite Hyd in Hyd0. injection Hyd0 as <-.
  assert (Hkey : Firestore.id d = key).
  { apply find_some in Hfind. rewrite Hname in Hfind.
    now apply regionIs_name. }
  assert (Hupdated : updatedYearlyData (RegionalAnalysis.selectedYear st)
                       (list_to_map (map (fun k => (k, JS.get row k))
                                         RegionalAnalysis.editableFields)) yd
                     = yd).
  { unfold updatedYearlyData. cbv zeta. fold (ofYear (RegionalAnalysis.selectedYear st)).
    rewrite (map_push_upsert (ofYear (RegionalAnalysis.selectedYear st)) _ yd Hone).
    rewrite <- Hyear, (form_of_record row r Hreads). apply upsert_found.
    now rewrite Hyear. }
  rewrite Hupdated, Hkey. split; [|reflexivity].
  apply setYearlyData_same. intros d' Hin Hid.
  rewrite (Hunique d' Hin); [exact Hyd|]. now rewrite Hkey.
Qed.

Lemma unchanged_form_changes_nothing_witness :
  let st := Selection.handleRegionClick Sample.ashantiRow Sample.analysis1 in
  let r := Sample.record 2025 1000 50 50000 500 300 200 (JS.of_decimal false 9 (-1)) in
  let yd := map Spec.toObj (Spec.records Sample.ashanti) in
  let result :=
    RegionalAnalysis.saveEdits Firestore.online Sample.store
      (RegionalAnalysis.enterEditMode st) in
  RegionalAnalysis.saveEdits Firestore.online Sample.store (RegionalAnalysis.enterEditMode st)
  = (fst (fst (fst result)), snd (fst (fst result)), snd (fst result), Saved)
  /\ snd (fst (fst result)) = Sample.store
  /\ snd (fst result)
     = [Firestore.OpGetDocs; Firestore.OpUpdateDoc (Firestore.id Sample.ashantiDoc) yd].
Proof.
  intros st r yd result.
  assert (Hsel : RegionalAnalysis.selectedRegion st = Some Sample.ashantiRow)
    by reflexivity.
  assert (Hreads : Spec.readsAs Sample.ashantiRow r)
    by (unfold Spec.readsAs; compute_done).
  assert (Hyear : Spec.year r = RegionalAnalysis.selectedYear st) by compute_done.
  assert (Hfind : JS.find (regionIs (JS.get Sample.ashantiRow "region")) Sample.store
                  = Some Sample.ashantiDoc) by compute_done.
  assert (Hstored : storedUnderName Sample.ashantiDoc)
    by (unfold storedUnderName; compute_done).
  assert (Hunique : forall d', In d' Sample.store ->
                               Firestore.id d' = Firestore.id Sample.ashantiDoc ->
                               d' = Sample.ashantiDoc).
  { intros d' [<-|[<-|[<-|[]]]]; [reflexivity|discriminate|discriminate]. }
  assert (Hyd : yearlyData (Firestore.data Sample.ashantiDoc) = Some yd) by reflexivity.
  assert (Hrec : List.find (ofYear (RegionalAnalysis.selectedYear st)) yd
                 = Some (Spec.toObj r)) by compute_done.
  assert (Hone : Spec.atMostOne (ofYear (RegionalAnalysis.selectedYear st)) yd)
    by (unfold Spec.atMostOne; compute_done).
  assert (Hsaved : RegionalAnalysis.saveEdits Firestore.online Sample.store
                     (RegionalAnalysis.enterEditMode st)
                   = (fst (fst (fst result)), snd (fst (fst result)), snd (fst result),
                      Saved)) by compute_done.
  split; [exact Hsaved|].
  exact (unchanged_form_changes_nothing Firestore.online Sample.store
           (snd (fst (fst result))) st (fst (fst (fst result))) Sample.ashantiRow r
           Sample.ashantiDoc yd (snd (fst result))
           Hsel Hreads Hyear Hfind Hstored Hunique Hyd Hrec Hone Hsaved).
Defined.

(** X11. What the Dashboard writes.  After [startEditing(row, field)],
    [handleEditChange(row, field, value)] and a run of [saveEdits] that
    ended [Saved], the record stored for the selected year is the clicked
    row, laid over whatever edit was pending for that region and year, with
    the typed field and the year set: every property of the row is written,
    the row's [region] among them (unless it was the field typed into). *)
Theorem dashboard_writes_the_row (net : Firestore.Net) (store store' : Firestore.Store)
    (st st' : Dashboard.State) (row : Obj) (field value : string)
    (ops : list Firestore.Op) :
  let y := Dashboard.selectedYear st in
  let pending :=
    default ∅ (Dashboard.editedData st !! Dashboard.editKey (JS.get row "region") y) in
  let written :=
    JS.set (JS.set (JS.spread pending row) field (Dashboard.parsedValue field value))
           "year" (Num y) in
  JS.eqb y y = true ->
  Dashboard.saveEdits net store
    (Dashboard.handleEditChange row field value (Dashboard.startEditing row field st))
  = (st', store', ops, Saved) ->
  exists (key : string) (updated : list Obj),
    JS.get row "region" = Str key
    /\ ops = [Firestore.OpGetDocs; Firestore.OpUpdateDoc key updated]
    /\ List.find (ofYear y) updated = Some written
    /\ (forall k, k <> field -> k <> "year" -> is_Some (row !! k) ->
                  JS.get written k = JS.get row k)
    /\ (field <> "region" -> JS.get written "region" = Str key).
Proof.
  intros y pending written Hy Hsaved.
  unfold Dashboard.saveEdits, Dashboard.handleEditChange, Dashboard.startEditing in Hsaved.
  cbn [Dashboard.isEditing Dashboard.editedData Dashboard.selectedYear] in Hsaved.
  rewrite !lookup_insert_eq in Hsaved. cbn [default] in Hsaved.
  fold y in Hsaved. fold pending in Hsaved. cbv [id] in Hsaved.
  destruct (negb _); [discriminate|].
  destruct (persistEdit _ _ _ _ _) as [[s|] o] eqn:Hp; [|discriminate].
  injection Hsaved as _ <- <-.
  apply persistEdit_saved in Hp.
  destruct Hp as (key & d0 & yd0 & Hname & _ & _ & _ & ->).
  exists key, (updatedYearlyData y
                 (JS.set (JS.spread pending row) field (Dashboard.parsedValue field value))
                 yd0).
  assert (Hrow : forall k, k <> field -> k <> "year" -> is_Some (row !! k) ->
                           JS.get written k = JS.get row k).
  { intros k Hk1 Hk2 [v Hv]. subst written. unfold JS.get, JS.set, JS.spread.
    rewrite !lookup_insert_ne by congruence.
    rewrite lookup_union, Hv. now destruct (pending !! k). }
  split; [exact Hname|]. split; [reflexivity|]. split; [|split].
  - exact (find_updatedYearlyData y _ yd0 Hy).
  - exact Hrow.
  - intros Hfield. rewrite <- Hname. apply Hrow; [congruence|discriminate|].
    unfold JS.get in Hname. destruct (row !! "region"); [now eexists|discriminate].
Qed.

Lemma dashboard_writes_the_row_witness :
  let st := Sample.dashboard1 in
  let y := Dashboard.selectedYear st in
  let row := Sample.ashantiRow in
  let result :=
    Dashboard.saveEdits Firestore.online Sample.store
      (Dashboard.handleEditChange row "taxpayers" "1,300"
         (Dashboard.startEditing row "taxpayers" st)) in
  let written :=
    JS.set (JS.set (JS.spread ∅ row) "taxpayers" (Num (JS.of_Z 1300))) "year" (Num y) in
  (JS.eqb y y = true
   /\ Dashboard.saveEdits Firestore.online Sample.store
        (Dashboard.handleEditChange row "taxpayers" "1,300"
           (Dashboard.startEditing row "taxpayers" st))
      = (fst (fst (fst result)), snd (fst (fst result)), snd (fst result), Saved)
   /\ Sample.refetch (snd (fst (fst result))) "Ashanti" = Some written
   /\ JS.get written "region" = Str "Ashanti")
  /\ exists (key : string) (updated : list Obj),
      JS.get row "region" = Str key
      /\ snd (fst result) = [Firestore.OpGetDocs; Firestore.OpUpdateDoc key updated]
      /\ List.find (ofYear y) updated
         = Some (JS.set (JS.set (JS.spread
                                   (default ∅ (Dashboard.editedData st
                                               !! Dashboard.editKey (JS.get row "region") y))
                                   row)
                                "taxpayers" (Dashboard.parsedValue "taxpayers" "1,300"))
                        "year" (Num y))
      /\ (forall k, k <> "taxpayers" -> k <> "year" -> is_Some (row !! k) ->
                    JS.get (JS.set (JS.set (JS.spread
                                   (default ∅ (Dashboard.editedData st
                                               !! Dashboard.editKey (JS.get row "region") y))
                                   row)
                                "taxpayers" (Dashboard.parsedValue "taxpayers" "1,300"))
                        "year" (Num y)) k = JS.get row k)
      /\ ("taxpayers" <> "region" ->
          JS.get (JS.set (JS.set (JS.spread
                                   (default ∅ (Dashboard.editedData st
                                               !! Dashboard.editKey (JS.get row "region") y))
                                   row)
                                "taxpayers" (Dashboard.parsedValue "taxpayers" "1,300"))
                        "year" (Num y)) "region" = Str key).
Proof.
  intros st y row result written.
  assert (Hy : JS.eqb y y = true) by compute_done.
  assert (Hsaved : Dashboard.saveEdits Firestore.online Sample.store
                     (Dashboard.handleEditChange row "taxpayers" "1,300"
                        (Dashboard.startEditing row "taxpayers" st))
                   = (fst (fst (fst result)), snd (fst (fst result)), snd (fst result),
                      Saved)) by compute_done.
  split; [split; [exact Hy|split; [exact Hsaved|split; compute_done]]|].
  exact (dashboard_writes_the_row Firestore.online Sample.store (snd (fst (fst result)))
           st (fst (fst (fst result))) row "taxpayers" "1,300" (snd (fst result))
           Hy Hsaved).
Defined.

(* ===================================================================== *)
(** * Sorting the table *)
(* ===================================================================== *)

Section Sort.

Context {A : Type}.
Variable cmp : A -> A -> option Val.

Lemma insertE_Permutation (x : A) (l r : list A) :
  Sorting.insertE cmp x l = Some r -> Permutation (x :: l) r.
Proof.
  revert r. induction l as [|y l IH]; intros r; cbn [Sorting.insertE].
  - now intros [= <-].
  - destruct (cmp x y) as [v|]; [|discriminate].
    destruct (Sorting.positive v); [|now intros [= <-]].
    destruct (Sorting.insertE cmp x l) as [r'|]; [|discriminate].
    intros [= <-]. rewrite perm_swap. constructor. now apply IH.
Qed.

Lemma sortE_Permutation (l r : list A) :
  Sorting.sortE cmp l = Some r -> Permutation l r.
Proof.
  revert r. induction l as [|x l IH]; intros r; cbn [Sorting.sortE].
  - now intros [= <-].
  - destruct (Sorting.sortE cmp l) as [s|]; [|discriminate].
    intros H. apply insertE_Permutation in H. rewrite <- H. constructor. now apply IH.
Qed.

End Sort.

Section Readings.

Lemma reads_iff (c : comparison) (o : option comparison) :
  Sorting.reads c o = true <-> o = Some c.
Proof. destruct o as [[]|], c; cbn; split; congruence. Qed.

Lemma implb_reads (c d : comparison) (x y : option comparison) :
  implb (Sorting.reads c x) (Sorting.reads d y) = true -> x = Some c -> y = Some d.
Proof. intros H ->. apply reads_iff. destruct c; exact H. Qed.

Lemma implb_reads2 (c : comparison) (x y z : option comparison) :
  implb (Sorting.reads c x && Sorting.reads c y) (Sorting.reads c z) = true ->
  x = Some c -> y = Some c -> z = Some c.
Proof. intros H -> ->. apply reads_iff. destruct c; exact H. Qed.

Context {A : Type}.
Variable cmp : A -> A -> option Val.

Lemma inOrder_sign (a b : A) :
  Sorting.inOrder cmp a b
  <-> Sorting.sign cmp a b = Some Lt \/ Sorting.sign cmp a b = Some Eq.
Proof.
  unfold Sorting.inOrder, Sorting.sign. split.
  - intros (v & -> & ->). destruct (JS.lt v _); auto.
  - destruct (cmp a b) as [v|]; [|intros [|]; discriminate].
    destruct (Sorting.positive v) eqn:Hv; [intros [|]; discriminate|].
    intros _. now exists v.
Qed.

Lemma sign_Gt (a b : A) (v : Val) :
  cmp a b = Some v -> Sorting.positive v = true -> Sorting.sign cmp a b = Some Gt.
Proof. unfold Sorting.sign. now intros -> ->. Qed.

Lemma sign_cmp (a b : A) : is_Some (Sorting.sign cmp a b) -> is_Some (cmp a b).
Proof. unfold Sorting.sign. destruct (cmp a b); [now eexists|intros [? [=]]]. Qed.

Variable l : list A.
Hypothesis Hcons : Sorting.consistent cmp l = true.

Lemma consistent_elim (a b c : A) :
  In a l -> In b l -> In c l ->
  Sorting.sign cmp a a = Some Eq
  /\ is_Some (Sorting.sign cmp a b)
  /\ (Sorting.sign cmp a b = Some Eq -> Sorting.sign cmp b a = Some Eq)
  /\ (Sorting.sign cmp a b = Some Lt -> Sorting.sign cmp b a = Some Gt)
  /\ (forall o, Sorting.sign cmp a b = Some o -> Sorting.sign cmp b c = Some o ->
                 Sorting.sign cmp a c = Some o).
Proof.
  intros Ha Hb Hc. pose proof Hcons as H. unfold Sorting.consistent in H. cbv zeta in H.
  rewrite List.forallb_forall in H. specialize (H a Ha).
  apply andb_true_iff in H as [Hrefl H].
  rewrite List.forallb_forall in H. specialize (H b Hb).
  apply andb_true_iff in H as [H Htrans]. apply andb_true_iff in H as [H Hlt].
  apply andb_true_iff in H as [Htotal Hsym].
  rewrite List.forallb_forall in Htrans. specialize (Htrans c Hc).
  apply andb_true_iff in Htrans as [Htrans Hgts]. apply andb_true_iff in Htrans as [Heqs Hlts].
  split; [now apply reads_iff|]. split.
  { destruct (Sorting.sign cmp a b); [now eexists|discriminate]. }
  split; [exact (implb_reads _ _ _ _ Hsym)|].
  split; [exact (implb_reads _ _ _ _ Hlt)|].
  intros [| |].
  - exact (implb_reads2 _ _ _ _ Heqs).
  - exact (implb_reads2 _ _ _ _ Hlts).
  - exact (implb_reads2 _ _ _ _ Hgts).
Qed.

Lemma sign_refl (a : A) : In a l -> Sorting.sign cmp a a = Some Eq.
Proof. intros Ha. exact (proj1 (consistent_elim a a a Ha Ha Ha)). Qed.

Lemma sign_total (a b : A) : In a l -> In b l -> is_Some (Sorting.sign cmp a b).
Proof. intros Ha Hb. exact (proj1 (proj2 (consistent_elim a b a Ha Hb Ha))). Qed.

Lemma sign_sym (a b : A) :
  In a l -> In b l -> Sorting.sign cmp a b = Some Eq -> Sorting.sign cmp b a = Some Eq.
Proof. intros Ha Hb. exact (proj1 (proj2 (proj2 (consistent_elim a b a Ha Hb Ha)))). Qed.

Lemma sign_trans (a b c : A) (o : comparison) :
  In a l -> In b l -> In c l ->
  Sorting.sign cmp a b = Some o -> Sorting.sign cmp b c = Some o ->
  Sorting.sign cmp a c = Some o.
Proof.
  intros Ha Hb Hc. exact (proj2 (proj2 (proj2 (proj2 (consistent_elim a b c Ha Hb Hc)))) o).
Qed.

Lemma sign_Lt_Gt (a b : A) :
  In a l -> In b l -> Sorting.sign cmp a b = Some Lt -> Sorting.sign cmp b a = Some Gt.
Proof.
  intros Ha Hb. exact (proj1 (proj2 (proj2 (proj2 (consistent_elim a b a Ha Hb Ha))))).
Qed.

Lemma sign_Gt_Lt (a b : A) :
  In a l -> In b l -> Sorting.sign cmp a b = Some Gt -> Sorting.sign cmp b a = Some Lt.
Proof.
  intros Ha Hb Hab. destruct (sign_total b a Hb Ha) as [[| |] Hba]; [|exact Hba|].
  - apply (sign_sym b a Hb Ha) in Hba. congruence.
  - pose proof (sign_trans a b a Gt Ha Hb Ha Hab Hba) as Haa.
    rewrite (sign_refl a Ha) in Haa. discriminate.
Qed.

(** What is not after is transitive. *)
Lemma inOrder_trans (a b c : A) :
  In a l -> In b l -> In c l ->
  Sorting.inOrder cmp a b -> Sorting.inOrder cmp b c -> Sorting.inOrder cmp a c.
Proof.
  intros Ha Hb Hc. rewrite !inOrder_sign. intros Hab Hbc.
  destruct (sign_total a c Ha Hc) as [[| |] Hac]; [now right|now left|exfalso].
  pose proof (sign_Gt_Lt a c Ha Hc Hac) as Hca.
  destruct Hab as [Hab|Hab], Hbc as [Hbc|Hbc].
  - pose proof (sign_trans a b c Lt Ha Hb Hc Hab Hbc). congruence.
  - pose proof (sign_trans c a b Lt Hc Ha Hb Hca Hab) as Hcb.
    apply (sign_sym b c Hb Hc) in Hbc. congruence.
  - pose proof (sign_trans b c a Lt Hb Hc Ha Hbc Hca) as Hba.
    apply (sign_sym a b Ha Hb) in Hab. congruence.
  - pose proof (sign_trans a b c Eq Ha Hb Hc Hab Hbc). congruence.
Qed.

Lemma insertE_some (x : A) (sorted : list A) :
  In x l -> incl sorted l -> is_Some (Sorting.insertE cmp x sorted).
Proof.
  intros Hx. induction sorted as [|y sorted IH]; intros Hin; cbn [Sorting.insertE];
    [now eexists|].
  destruct (sign_cmp x y (sign_total x y Hx (Hin y (or_introl eq_refl)))) as [v ->].
  destruct IH as [r ->]; [intros z Hz; apply Hin; now right|].
  destruct (Sorting.positive v); now eexists.
Qed.

Lemma insertE_ordered (x : A) (sorted r : list A) :
  In x l -> incl sorted l ->
  Sorting.ordered cmp sorted ->
  Sorting.insertE cmp x sorted = Some r ->
  Sorting.ordered cmp r.
Proof.
  intros Hx. revert r. induction sorted as [|y sorted IH]; intros r Hin Hord;
    cbn [Sorting.insertE].
  - intros [= <-]. cbn. split; [constructor|exact I].
  - assert (Hy : In y l) by (apply Hin; now left).
    assert (Hin' : incl sorted l) by (intros z Hz; apply Hin; now right).
    destruct Hord as [Hfirst Hord].
    destruct (cmp x y) as [v|] eqn:Hv; [|discriminate].
    destruct (Sorting.positive v) eqn:Hpos.
    + destruct (Sorting.insertE cmp x sorted) as [r'|] eqn:Hins; [|discriminate].
      intros [= <-]. cbn [Sorting.ordered]. split; [|now apply IH].
      apply List.Forall_forall. intros z Hz.
      apply (Permutation_in _ (Permutation_sym (insertE_Permutation cmp x sorted r' Hins)))
        in Hz.
      destruct Hz as [<-|Hz].
      * apply inOrder_sign. left. apply (sign_Gt_Lt x y Hx Hy).
        exact (sign_Gt x y v Hv Hpos).
      * rewrite List.Forall_forall in Hfirst. now apply Hfirst.
    + intros [= <-]. cbn [Sorting.ordered]. split; [|split; [exact Hfirst|exact Hord]].
      assert (Hxy : Sorting.inOrder cmp x y) by now exists v.
      constructor; [exact Hxy|].
      apply List.Forall_forall. intros z Hz.
      apply (inOrder_trans x y z Hx Hy (Hin' z Hz) Hxy).
      rewrite List.Forall_forall in Hfirst. now apply Hfirst.
Qed.

(** The rows [sort] takes for equal to [a] stay in their order. *)
Lemma insertE_stable (a x : A) (sorted r : list A) :
  In a l -> In x l -> incl sorted l ->
  Sorting.insertE cmp x sorted = Some r ->
  List.filter (Sorting.equalTo cmp a) r = List.filter (Sorting.equalTo cmp a) (x :: sorted).
Proof.
  intros Ha Hx. revert r. induction sorted as [|y sorted IH]; intros r Hin;
    cbn [Sorting.insertE].
  - now intros [= <-].
  - assert (Hy : In y l) by (apply Hin; now left).
    assert (Hin' : incl sorted l) by (intros z Hz; apply Hin; now right).
    destruct (cmp x y) as [v|] eqn:Hv; [|discriminate].
    destruct (Sorting.positive v) eqn:Hpos; [|now intros [= <-]].
    destruct (Sorting.insertE cmp x sorted) as [r'|] eqn:Hins; [|discriminate].
    intros [= <-]. cbn [List.filter]. rewrite (IH r' Hin' eq_refl). cbn [List.filter].
    destruct (Sorting.equalTo cmp a x) eqn:Hax; [|reflexivity].
    destruct (Sorting.equalTo cmp a y) eqn:Hay; [exfalso|reflexivity].
    apply reads_iff in Hax, Hay. apply (sign_sym a x Ha Hx) in Hax.
    pose proof (sign_trans x a y Eq Hx Ha Hy Hax Hay) as Hxy.
    rewrite (sign_Gt x y v Hv Hpos) in Hxy. discriminate.
Qed.

Lemma sortE_sorted (rows r : list A) :
  incl rows l ->
  Sorting.sortE cmp rows = Some r ->
  Sorting.ordered cmp r
  /\ forall a, In a l ->
       List.filter (Sorting.equalTo cmp a) r = List.filter (Sorting.equalTo cmp a) rows.
Proof.
  revert r. induction rows as [|x rows IH]; intros r Hin; cbn [Sorting.sortE].
  - intros [= <-]. now split.
  - assert (Hx : In x l) by (apply Hin; now left).
    assert (Hin' : incl rows l) by (intros z Hz; apply Hin; now right).
    destruct (Sorting.sortE cmp rows) as [s|] eqn:Hs; [|discriminate].
    destruct (IH s Hin' eq_refl) as [Hord Hstable].
    assert (Hs' : incl s l).
    { intros z Hz. apply Hin'.
      exact (Permutation_in _ (Permutation_sym (sortE_Permutation cmp rows s Hs)) Hz). }
    intros Hr. split.
    + exact (insertE_ordered x s r Hx Hs' Hord Hr).
    + intros a Ha. rewrite (insertE_stable a x s r Ha Hx Hs' Hr). cbn [List.filter].
      now rewrite (Hstable a Ha).
Qed.

Lemma sortE_some (rows : list A) : incl rows l -> is_Some (Sorting.sortE cmp rows).
Proof.
  induction rows as [|x rows IH]; intros Hin; cbn [Sorting.sortE]; [now eexists|].
  assert (Hin' : incl rows l) by (intros z Hz; apply Hin; now right).
  destruct (IH Hin') as [s Hs]. rewrite Hs. apply insertE_some; [apply Hin; now left|].
  intros z Hz. apply Hin'.
  exact (Permutation_in _ (Permutation_sym (sortE_Permutation cmp rows s Hs)) Hz).
Qed.

End Readings.

(** X12. Sorting never changes what the table holds.  Whatever the column
    and the collation, after [sortData] the rows are the rows before in some
    order — none lost, none repeated, none altered — and the four totals are
    untouched; the column clicked is recorded; a column other than the
    current one starts ascending, and clicking the same column again always
    reverses the direction. *)
Theorem sortData_keeps_the_rows (localeCompare : string -> string -> number)
    (k : string) (sortConfig : Sorting.SortConfig) (metrics : Dashboard.Metrics) :
  let once := Sorting.sortData localeCompare k (sortConfig, metrics) in
  let twice := Sorting.sortData localeCompare k once in
  Permutation (Dashboard.regionalMetrics metrics) (Dashboard.regionalMetrics (snd once))
  /\ Dashboard.totalTaxpayers (snd once) = Dashboard.totalTaxpayers metrics
  /\ Dashboard.totalTax (snd once) = Dashboard.totalTax metrics
  /\ Dashboard.avgTax (snd once) = Dashboard.avgTax metrics
  /\ Dashboard.avgCompliance (snd once) = Dashboard.avgCompliance metrics
  /\ Sorting.key (fst once) = k
  /\ (Sorting.key sortConfig <> k -> Sorting.direction (fst once) = "asc")
  /\ (Sorting.direction (fst once) = "asc" -> Sorting.direction (fst twice) = "desc")
  /\ (Sorting.direction (fst once) = "desc" -> Sorting.direction (fst twice) = "asc")
  /\ (Sorting.direction (fst once) = "asc" \/ Sorting.direction (fst once) = "desc").
Proof.
  intros once twice.
  assert (Hfst : forall st, fst (Sorting.sortData localeCompare k st)
                            = {| Sorting.key := k;
                                 Sorting.direction := Sorting.nextDirection (fst st) k |}).
  { intros [c m]. unfold Sorting.sortData.
    destruct (Sorting.sortE _ _); reflexivity. }
  assert (Hdir : Sorting.direction (fst twice)
                 = if String.eqb (Sorting.direction (fst once)) "asc"
                   then "desc" else "asc").
  { subst twice. rewrite Hfst. unfold Sorting.nextDirection. subst once. rewrite Hfst.
    cbn [Sorting.key Sorting.direction]. now rewrite String.eqb_refl. }
  assert (Hrows : Permutation (Dashboard.regionalMetrics metrics)
                              (Dashboard.regionalMetrics (snd once))
                  /\ Dashboard.totalTaxpayers (snd once) = Dashboard.totalTaxpayers metrics
                  /\ Dashboard.totalTax (snd once) = Dashboard.totalTax metrics
                  /\ Dashboard.avgTax (snd once) = Dashboard.avgTax metrics
                  /\ Dashboard.avgCompliance (snd once) = Dashboard.avgCompliance metrics).
  { subst once. unfold Sorting.sortData.
    destruct (Sorting.sortE _ _) as [sorted|] eqn:Hsort; cbn [snd].
    - apply sortE_Permutation in Hsort. cbn. split; [exact Hsort|repeat split].
    - split; [reflexivity|repeat split]. }
  destruct Hrows as (H1 & H2 & H3 & H4 & H5).
  split; [exact H1|]. split; [exact H2|]. split; [exact H3|]. split; [exact H4|].
  split; [exact H5|].
  subst once. rewrite Hfst in *. cbn [fst Sorting.key Sorting.direction] in *.
  split; [reflexivity|]. split; [|split; [|split]].
  - intros Hk. unfold Sorting.nextDirection.
    destruct (String.eqb_spec (Sorting.key sortConfig) k); [contradiction|reflexivity].
  - intros Hd. now rewrite Hdir, Hd.
  - intros Hd. now rewrite Hdir, Hd.
  - unfold Sorting.nextDirection. destruct (_ && _); auto.
Qed.

(** X13. Sorting orders the table.  When the comparator of the column
    and the new direction is a consistent comparator for the rows of the
    table (it throws on none, and what it says of them is an order, which
    is where the language fixes the result of [sort]), [sortData] leaves the
    table sorted: no row stands anywhere before a row that the comparator
    puts before it; and the sort is stable: for every row, the rows the
    comparator takes for equal to it stand in the order they had. *)
Theorem sortData_orders_the_column (localeCompare : string -> string -> number)
    (k : string) (sortConfig : Sorting.SortConfig) (metrics : Dashboard.Metrics) :
  Sorting.consistent
    (Sorting.comparator localeCompare k (Sorting.nextDirection sortConfig k))
    (Dashboard.regionalMetrics metrics) = true ->
  let result := Sorting.sortData localeCompare k (sortConfig, metrics) in
  let cmp := Sorting.comparator localeCompare k (Sorting.direction (fst result)) in
  Sorting.ordered cmp (Dashboard.regionalMetrics (snd result))
  /\ forall row, In row (Dashboard.regionalMetrics metrics) ->
       List.filter (Sorting.equalTo cmp row) (Dashboard.regionalMetrics (snd result))
       = List.filter (Sorting.equalTo cmp row) (Dashboard.regionalMetrics metrics).
Proof.
  intros Hcons result cmp. subst cmp result. unfold Sorting.sortData.
  set (dir := Sorting.nextDirection sortConfig k) in *.
  set (rows := Dashboard.regionalMetrics metrics) in *.
  assert (Hin : incl rows rows) by (intros z Hz; exact Hz).
  destruct (sortE_some _ rows Hcons rows Hin) as [sorted Hsorted].
  rewrite Hsorted. cbn [fst snd Sorting.direction Dashboard.regionalMetrics].
  exact (sortE_sorted _ rows Hcons rows sorted Hin Hsorted).
Qed.

Lemma sortData_orders_the_column_witness :
  let collate := fun _ _ : string => JS.zero in
  let metrics := Dashboard.metrics Sample.dashboard1 in
  let result := Sorting.sortData collate "taxpayers" (Sorting.initial, metrics) in
  let cmp := Sorting.comparator collate "taxpayers" (Sorting.direction (fst result)) in
  (Sorting.consistent
     (Sorting.comparator collate "taxpayers"
        (Sorting.nextDirection Sorting.initial "taxpayers"))
     (Dashboard.regionalMetrics metrics) = true
   /\ Sorting.direction (fst result) = "asc"
   /\ map (fun r => JS.get r "taxpayers") (Dashboard.regionalMetrics metrics)
      = [Num (JS.of_Z 1000); Num (JS.of_Z 3000); Num JS.zero]
   /\ map (fun r => JS.get r "taxpayers") (Dashboard.regionalMetrics (snd result))
      = [Num JS.zero; Num (JS.of_Z 1000); Num (JS.of_Z 3000)]
   /\ map (fun r => JS.get r "taxpayers")
          (Dashboard.regionalMetrics
             (snd (Sorting.sortData collate "taxpayers" result)))
      = [Num (JS.of_Z 3000); Num (JS.of_Z 1000); Num JS.zero])
  /\ Sorting.ordered cmp (Dashboard.regionalMetrics (snd result))
  /\ forall row, In row (Dashboard.regionalMetrics metrics) ->
       List.filter (Sorting.equalTo cmp row) (Dashboard.regionalMetrics (snd result))
       = List.filter (Sorting.equalTo cmp row) (Dashboard.regionalMetrics metrics).
Proof.
  intros collate metrics result cmp.
  assert (Hcons : Sorting.consistent
                    (Sorting.comparator collate "taxpayers"
                       (Sorting.nextDirection Sorting.initial "taxpayers"))
                    (Dashboard.regionalMetrics metrics) = true) by compute_done.
  split; [split; [exact Hcons|split; [|split; [|split]]]; compute_done|].
  exact (sortData_orders_the_column collate "taxpayers" Sorting.initial metrics Hcons).
Defined.

(** A column with a gap is no order: the difference with the missing value
    is NaN, which [sort] reads as equal, so that 2 and 1 both equal the
    gap while 2 comes after 1.  The comparator is not consistent for such
    rows, and the language leaves their order to the engine. *)
Example gap_in_the_column_is_no_order :
  let cmp := Sorting.comparator (fun _ _ => JS.zero) "taxpayers" "asc" in
  Sorting.consistent cmp Cases.gaps = false
  /\ map (fun r => map (Sorting.sign cmp r) Cases.gaps) Cases.gaps
     = [ [Some Eq; Some Eq; Some Gt];
         [Some Eq; Some Eq; Some Eq];
         [Some Lt; Some Eq; Some Eq] ].
Proof. split; compute_done. Qed.
(* ===================================================================== *)
(** * The upload script and the keys of the documents *)
(* ===================================================================== *)

Section KeyOrder.

Lemma string_ltb_irrefl (a : string) : JS.string_ltb a a = false.
Proof.
  induction a as [|x a IH]; [reflexivity|]. cbn [JS.string_ltb]. cbv zeta.
  now rewrite Nat.ltb_irrefl.
Qed.

Lemma string_ltb_trans (a b c : string) :
  JS.string_ltb a b = true -> JS.string_ltb b c = true -> JS.string_ltb a c = true.
Proof.
  revert b c. induction a as [|x a IH]; intros [|y b] [|z c]; cbn [JS.string_ltb];
    try discriminate; try reflexivity. cbv zeta.
  destruct (Nat.ltb_spec (nat_of_ascii x) (nat_of_ascii y)),
           (Nat.ltb_spec (nat_of_ascii y) (nat_of_ascii x)),
           (Nat.ltb_spec (nat_of_ascii y) (nat_of_ascii z)),
           (Nat.ltb_spec (nat_of_ascii z) (nat_of_ascii y)),
           (Nat.ltb_spec (nat_of_ascii x) (nat_of_ascii z)),
           (Nat.ltb_spec (nat_of_ascii z) (nat_of_ascii x));
    try discriminate; try reflexivity; try lia.
  apply IH.
Qed.

Lemma string_ltb_total (a b : string) :
  JS.string_ltb a b = false -> a <> b -> JS.string_ltb b a = true.
Proof.
  revert b. induction a as [|x a IH]; intros [|y b]; cbn [JS.string_ltb];
    try discriminate; try reflexivity; try congruence. cbv zeta.
  destruct (Nat.ltb_spec (nat_of_ascii x) (nat_of_ascii y)),
           (Nat.ltb_spec (nat_of_ascii y) (nat_of_ascii x));
    try discriminate; try reflexivity; try lia.
  intros Hab Hne. apply IH; [exact Hab|]. intros ->. apply Hne. f_equal.
  apply nat_of_ascii_inj. lia.
Qed.

Lemma insertDoc_Permutation (d : Firestore.Doc) (store : Firestore.Store) :
  Permutation (d :: store) (Seed.insertDoc d store).
Proof.
  induction store as [|z store IH]; cbn [Seed.insertDoc]; [reflexivity|].
  destruct (JS.string_ltb _ _); [reflexivity|].
  rewrite perm_swap. now constructor.
Qed.

Lemma insertDoc_byKey (d : Firestore.Doc) (store : Firestore.Store) :
  Seed.byKey store ->
  ~ In (Firestore.id d) (map Firestore.id store) ->
  Seed.byKey (Seed.insertDoc d store).
Proof.
  induction store as [|z store IH]; intros Hord Hnew; cbn [Seed.insertDoc].
  - cbn. split; [constructor|exact I].
  - destruct Hord as [Hfirst Hord].
    destruct (JS.string_ltb (Firestore.id d) (Firestore.id z)) eqn:Hlt.
    + cbn [Seed.byKey]. split; [|split; [exact Hfirst|exact Hord]].
      constructor; [exact Hlt|].
      eapply Forall_impl; [exact Hfirst|].
      intros d' Hd'. exact (string_ltb_trans _ _ _ Hlt Hd').
    + cbn [Seed.byKey]. split.
      * apply List.Forall_forall. intros d' Hd'.
        apply (Permutation_in _ (Permutation_sym (insertDoc_Permutation d store))) in Hd'.
        destruct Hd' as [<-|Hd'].
        -- apply string_ltb_total; [exact Hlt|].
           intros Heq. apply Hnew. left. now symmetry.
        -- rewrite List.Forall_forall in Hfirst. now apply Hfirst.
      * apply IH; [exact Hord|]. intros Hin. apply Hnew. now right.
Qed.

Lemma byKey_unique (store : Firestore.Store) (d d' : Firestore.Doc) :
  Seed.byKey store -> In d store -> In d' store ->
  Firestore.id d' = Firestore.id d -> d' = d.
Proof.
  induction store as [|z store IH]; intros Hord Hd Hd' Hid; [destruct Hd|].
  destruct Hord as [Hfirst Hord]. rewrite List.Forall_forall in Hfirst.
  destruct Hd as [<-|Hd], Hd' as [<-|Hd']; [reflexivity| | |now apply IH].
  - specialize (Hfirst d' Hd'). rewrite Hid, string_ltb_irrefl in Hfirst. discriminate.
  - specialize (Hfirst d Hd). rewrite Hid, string_ltb_irrefl in Hfirst. discriminate.
Qed.

End KeyOrder.

Section Names.

Lemma split_flat (name : string) :
  JS.includes name "/" = false -> Seed.split name = [name].
Proof.
  induction name as [|c name IH]; [reflexivity|].
  cbn [JS.includes JS.startsWith]. rewrite orb_false_iff. intros [Hc Hrest].
  cbn [Seed.split]. rewrite (IH Hrest).
  replace (JS.startsWith name "") with true in Hc by now destruct name.
  rewrite andb_true_r in Hc. rewrite Ascii.eqb_sym in Hc. now rewrite Hc.
Qed.

(** A name without a slash that [doc] accepts is the key itself. *)
Lemma reference_flat (name key : string) :
  JS.includes name "/" = false ->
  Seed.reference name = Seed.Document key -> key = name.
Proof.
  intros Hflat. unfold Seed.reference. rewrite (split_flat name Hflat).
  destruct (String.eqb_spec name "") as [->|Hne]; [discriminate|].
  destruct (JS.includes name "//"); [discriminate|].
  cbn [List.filter]. destruct (String.eqb_spec name "") as [->|_]; [contradiction|].
  cbn. now intros [= <-].
Qed.

Lemma entry_round (region : RegionObj) (e : string * list Obj) :
  Seed.entry region = Some e ->
  Seed.round region = Seed.Sends (Some (fst e)) (Firestore.data (Seed.document e)).
Proof.
  unfold Seed.entry, Seed.round.
  destruct (JS.get (props region) "region") as [| |name]; try discriminate.
  destruct (yearlyData region) as [yd|]; [|discriminate].
  destruct (String.eqb name "") eqn:Hempty; [discriminate|].
  destruct (JS.includes name "/") eqn:Hflat; [discriminate|].
  intros [= <-]. cbn [orb fst snd Seed.document Firestore.data].
  unfold Seed.reference. rewrite Hempty, (split_flat name Hflat).
  destruct (JS.includes name "//") eqn:Hslashes.
  - assert (H : JS.includes name "/" = true)
      by (apply (includes_trans name "//" "/"); [exact Hslashes|reflexivity]).
    congruence.
  - cbn [List.filter]. now rewrite Hempty.
Qed.

End Names.

Section Keys.

Lemma setDoc_stored (key : string) (data : RegionObj) (store : Firestore.Store) :
  storedUnderName {| Firestore.id := key; Firestore.data := data |} ->
  Forall storedUnderName store ->
  Forall storedUnderName (Seed.setDoc key data store).
Proof.
  intros Hdoc H. unfold Seed.setDoc. cbv zeta.
  destruct (existsb _ store).
  - induction H as [|d store Hd _ IH]; cbn [map]; constructor; [|exact IH].
    now destruct (String.eqb _ _).
  - apply List.Forall_forall. intros d Hd.
    apply (Permutation_in _ (Permutation_sym (insertDoc_Permutation _ store))) in Hd.
    destruct Hd as [<-|Hd]; [exact Hdoc|].
    rewrite List.Forall_forall in H. now apply H.
Qed.

Lemma round_stored (region : RegionObj) (key : string) (data : RegionObj) :
  Seed.flat region = true ->
  Seed.round region = Seed.Sends (Some key) data ->
  storedUnderName {| Firestore.id := key; Firestore.data := data |}.
Proof.
  unfold Seed.flat, Seed.round.
  destruct (JS.get (props region) "region") as [| |name]; try discriminate.
  intros Hflat. apply negb_true_iff in Hflat.
  destruct (yearlyData region) as [yd|]; [|discriminate].
  destruct (Seed.reference name) as [| |key'] eqn:Href; try discriminate.
  intros [= <- <-]. apply (reference_flat name key' Hflat) in Href. subst key'.
  unfold storedUnderName, JS.get. cbn. now rewrite lookup_singleton_eq.
Qed.

Lemma uploadFrom_stored (ok : nat -> bool) (i : nat) (regions : list RegionObj)
    (store : Firestore.Store) :
  forallb Seed.flat regions = true ->
  Forall storedUnderName store ->
  Forall storedUnderName (fst (Seed.uploadFrom ok i regions store)).
Proof.
  revert i store. induction regions as [|region rest IH]; intros i store Hflat H;
    cbn [Seed.uploadFrom]; [exact H|].
  cbn [forallb] in Hflat. apply andb_true_iff in Hflat as [Hregion Hflat].
  destruct (Seed.round region) as [|[key|] data] eqn:Hround; [exact H| |].
  - destruct (ok i); [|exact H].
    apply (IH _ _ Hflat). apply setDoc_stored; [|exact H].
    exact (round_stored region key data Hregion Hround).
  - destruct (ok i); [|exact H]. now apply IH.
Qed.

Lemma setYearlyData_stored (key : string) (yd : list Obj) (store : Firestore.Store) :
  Forall storedUnderName store ->
  Forall storedUnderName (Firestore.setYearlyData key yd store).
Proof.
  unfold Firestore.setYearlyData.
  induction 1 as [|d store Hd _ IH]; cbn [map]; constructor; [|exact IH].
  now destruct (String.eqb _ _).
Qed.

End Keys.

(** X14. Documents stay under the names of their regions.  If every
    document of the collection is stored under the name of its region — as
    in the empty collection — the same holds after the upload script,
    however far it got, when no name in the data file has a slash, and after
    every run of [saveEdits] of either component, however it ended.  In such
    a collection the document that [saveEdits] finds by region name is the
    one its write addresses. *)
Theorem documents_stay_under_their_names (store : Firestore.Store) :
  Forall storedUnderName store ->
  (forall ok regions,
      forallb Seed.flat regions = true ->
      Forall storedUnderName (fst (Seed.uploadDataToFirestore ok regions store)))
  /\ (forall net st,
      Forall storedUnderName (snd (fst (fst (RegionalAnalysis.saveEdits net store st)))))
  /\ (forall net st,
      Forall storedUnderName (snd (fst (fst (Dashboard.saveEdits net store st)))))
  /\ (forall key d,
      JS.find (regionIs (Str key)) store = Some d -> Firestore.id d = key).
Proof.
  intros H. split; [|split; [|split]].
  - intros ok regions Hflat. now apply uploadFrom_stored.
  - intros net st. unfold RegionalAnalysis.saveEdits.
    destruct (RegionalAnalysis.editForm st) as [form|]; [|exact H].
    destruct (negb _); [exact H|].
    destruct (RegionalAnalysis.selectedRegion st) as [r|]; [|exact H].
    destruct (persistEdit _ _ _ _ _) as [[s|] o] eqn:Hp; [|exact H].
    apply persistEdit_saved in Hp. destruct Hp as (key & d & yd & _ & _ & _ & -> & _).
    now apply setYearlyData_stored.
  - intros net st. unfold Dashboard.saveEdits.
    destruct (Dashboard.isEditing st) as [[region field]|]; [|exact H].
    destruct (Dashboard.editedData st !! _) as [edit|]; [|exact H].
    destruct (negb _); [exact H|].
    destruct (persistEdit _ _ _ _ _) as [[s|] o] eqn:Hp; [|exact H].
    apply persistEdit_saved in Hp. destruct Hp as (key & d & yd & _ & _ & _ & -> & _).
    now apply setYearlyData_stored.
  - intros key d Hfind. apply find_some in Hfind. destruct Hfind as [Hin Hd].
    apply regionIs_name; [exact Hd|].
    rewrite List.Forall_forall in H. now apply H.
Qed.

Lemma documents_stay_under_their_names_witness :
  let store := fst (Seed.uploadDataToFirestore (fun _ => true) Cases.dataFile []) in
  (Forall storedUnderName ([] : Firestore.Store)
   /\ forallb Seed.flat Cases.dataFile = true
   /\ map Firestore.id store = ["Ashanti"; "Volta"])
  /\ Forall storedUnderName store.
Proof.
  intros store.
  assert (H : Forall storedUnderName ([] : Firestore.Store)) by constructor.
  assert (Hflat : forallb Seed.flat Cases.dataFile = true) by reflexivity.
  split; [split; [exact H|split; [exact Hflat|compute_done]]|].
  exact (proj1 (documents_stay_under_their_names [] H) (fun _ => true) Cases.dataFile Hflat).
Defined.

(** A name with a slash is a path.  "Volta/" addresses the document
    "Volta", which then holds a region of another name; "Brong/Ahafo" is
    refused, and the script stops; "a/b/c" is a document of a collection
    further down, and the collection of the regions stays as it is. *)
Example names_that_are_paths :
  let upload name := Seed.uploadDataToFirestore (fun _ => true) [Cases.named name] [] in
  (map Firestore.id (fst (upload "Volta/")) = ["Volta"]
   /\ ~ Forall storedUnderName (fst (upload "Volta/")))
  /\ upload "Brong/Ahafo" = ([], false)
  /\ upload "a/b/c" = ([], true).
Proof.
  cbv zeta. split; [split; [compute_done|]|split; compute_done].
  intros H. apply Forall_inv in H. revert H. unfold storedUnderName. compute_done.
Qed.

Section Upload.

Lemma setDoc_new (key : string) (data : RegionObj) (store : Firestore.Store) :
  ~ In key (map Firestore.id store) ->
  Seed.setDoc key data store
  = Seed.insertDoc {| Firestore.id := key; Firestore.data := data |} store.
Proof.
  intros Hnew. unfold Seed.setDoc. cbv zeta.
  destruct (existsb _ store) eqn:Hex; [|reflexivity].
  exfalso. apply Hnew. apply existsb_exists in Hex. destruct Hex as (d & Hd & Hk).
  apply String.eqb_eq in Hk. subst key. now apply in_map.
Qed.

Lemma setDoc_same (d : Firestore.Doc) (store : Firestore.Store) :
  In d store ->
  (forall d', In d' store -> Firestore.id d' = Firestore.id d -> d' = d) ->
  Seed.setDoc (Firestore.id d) (Firestore.data d) store = store.
Proof.
  intros Hin Hunique. unfold Seed.setDoc. cbv zeta.
  replace (existsb _ store) with true.
  2:{ symmetry. apply existsb_exists. exists d. split; [exact Hin|apply String.eqb_refl]. }
  clear Hin. induction store as [|z store IH]; [reflexivity|]. cbn [map].
  rewrite IH by (intros d' Hd'; apply Hunique; now right). f_equal.
  destruct (String.eqb_spec (Firestore.id z) (Firestore.id d)) as [Hz|Hz]; [|reflexivity].
  rewrite (Hunique z (or_introl eq_refl) Hz). now destruct d.
Qed.

Lemma mapM_entry_cons (region : RegionObj) (rest : list RegionObj)
    (entries : list (string * list Obj)) :
  mapM Seed.entry (region :: rest) = Some entries ->
  exists e tail, entries = e :: tail /\ Seed.entry region = Some e
                 /\ mapM Seed.entry rest = Some tail.
Proof.
  cbn [mapM]. unfold mbind, option_bind.
  destruct (Seed.entry region) as [e|]; [|discriminate]. cbn.
  destruct (mapM Seed.entry rest) as [tail|]; [|discriminate]. cbn.
  intros [= <-]. now exists e, tail.
Qed.

(** All regions can be uploaded and all writes go through: the documents
    are added to a store that has none of their keys, each at the place of
    its key. *)
Lemma uploadFrom_all (ok : nat -> bool) (regions : list RegionObj)
    (entries : list (string * list Obj)) :
  mapM Seed.entry regions = Some entries ->
  NoDup (map fst entries) ->
  forall (i : nat) (store : Firestore.Store),
    (forall j, (j < length regions)%nat -> ok (i + j)%nat = true) ->
    (forall key, In key (map fst entries) -> ~ In key (map Firestore.id store)) ->
    Seed.byKey store ->
    snd (Seed.uploadFrom ok i regions store) = true
    /\ Permutation (fst (Seed.uploadFrom ok i regions store))
                   (store ++ map Seed.document entries)
    /\ Seed.byKey (fst (Seed.uploadFrom ok i regions store)).
Proof.
  revert entries. induction regions as [|region rest IH]; intros entries Hentries Hnodup.
  - injection Hentries as <-. intros i store _ _ Hord. cbn.
    rewrite app_nil_r. now split.
  - apply mapM_entry_cons in Hentries. destruct Hentries as (e & tail & -> & He & Htail).
    cbn [map] in Hnodup. apply NoDup_cons in Hnodup. destruct Hnodup as [Hhead Hnodup].
    intros i store Hok Hnew Hord. cbn [Seed.uploadFrom]. rewrite (entry_round region e He).
    assert (Hi : ok i = true)
      by (rewrite <- (Nat.add_0_r i); apply Hok; cbn; lia).
    rewrite Hi.
    rewrite setDoc_new by (apply Hnew; now left).
    change {| Firestore.id := fst e; Firestore.data := Firestore.data (Seed.document e) |}
      with (Seed.document e).
    pose proof (insertDoc_Permutation (Seed.document e) store) as Hperm.
    destruct (IH tail Htail Hnodup (S i) (Seed.insertDoc (Seed.document e) store))
      as (Hdone & Hall & Hord').
    + intros j Hj. replace (S i + j)%nat with (i + S j)%nat by lia.
      apply Hok. cbn. lia.
    + intros key Hkey Hin.
      apply (Permutation_in _ (Permutation_sym (Permutation_map Firestore.id Hperm))) in Hin.
      destruct Hin as [Hin|Hin].
      * cbn in Hin. subst key. apply Hhead. apply list_elem_of_In. exact Hkey.
      * apply (Hnew key); [now right|exact Hin].
    + apply insertDoc_byKey; [exact Hord|]. apply Hnew. now left.
    + split; [exact Hdone|]. split; [|exact Hord'].
      rewrite Hall, <- Hperm. cbn [map]. apply Permutation_middle.
Qed.

(** Uploading documents to a store that holds exactly them changes
    nothing. *)
Lemma uploadFrom_again (ok : nat -> bool) (regions : list RegionObj)
    (entries : list (string * list Obj)) (store : Firestore.Store) :
  mapM Seed.entry regions = Some entries ->
  (forall e, In e entries ->
     In (Seed.document e) store
     /\ forall d', In d' store -> Firestore.id d' = fst e -> d' = Seed.document e) ->
  forall i : nat,
    (forall j, (j < length regions)%nat -> ok (i + j)%nat = true) ->
    Seed.uploadFrom ok i regions store = (store, true).
Proof.
  revert entries. induction regions as [|region rest IH]; intros entries Hentries Hstore;
    [reflexivity|].
  apply mapM_entry_cons in Hentries. destruct Hentries as (e & tail & -> & He & Htail).
  intros i Hok. cbn [Seed.uploadFrom]. rewrite (entry_round region e He).
  rewrite <- (Nat.add_0_r i) at 1. rewrite (Hok 0%nat) by (cbn; lia).
  destruct (Hstore e (or_introl eq_refl)) as [Hin Hunique].
  change (fst e) with (Firestore.id (Seed.document e)).
  rewrite setDoc_same by assumption.
  apply (IH tail Htail).
  - intros e' He'. apply Hstore. now right.
  - intros j Hj. replace (S i + j)%nat with (i + S j)%nat by lia. apply Hok. cbn. lia.
Qed.

Lemma mapM_entry_length (regions : list RegionObj) (entries : list (string * list Obj)) :
  mapM Seed.entry regions = Some entries -> length entries = length regions.
Proof.
  revert entries. induction regions as [|region rest IH]; intros entries Hentries.
  - now injection Hentries as <-.
  - apply mapM_entry_cons in Hentries. destruct Hentries as (e & tail & -> & _ & Htail).
    cbn [length]. f_equal. now apply IH.
Qed.

End Upload.

(** X15. A complete upload.  When every region of the data file has a
    [yearlyData] and a name that is a key — a non-empty string without a
    slash —, no two regions share a name, and every write goes through, the
    script reports success and turns the empty collection into one document
    per region: the documents are, in the order of their keys, those that
    hold under the name of a region that name and its year series and
    nothing else.  Run again on the result, it reports success and leaves
    the collection as it is. *)
Theorem upload_is_complete_and_repeatable (ok ok' : nat -> bool)
    (regions : list RegionObj) (entries : list (string * list Obj)) :
  mapM Seed.entry regions = Some entries ->
  NoDup (map fst entries) ->
  (forall i, (i < length regions)%nat -> ok i = true /\ ok' i = true) ->
  let result := Seed.uploadDataToFirestore ok regions [] in
  snd result = true
  /\ Permutation (fst result) (map Seed.document entries)
  /\ Seed.byKey (fst result)
  /\ Seed.uploadDataToFirestore ok' regions (fst result) = (fst result, true)
  /\ length (fst result) = length regions.
Proof.
  intros Hentries Hnodup Hok result. subst result.
  unfold Seed.uploadDataToFirestore.
  destruct (uploadFrom_all ok regions entries Hentries Hnodup 0 [])
    as (Hdone & Hall & Hord).
  { intros j Hj. now apply Hok. }
  { intros key _ []. }
  { exact I. }
  cbn [app] in Hall.
  split; [exact Hdone|]. split; [exact Hall|]. split; [exact Hord|]. split.
  - apply (uploadFrom_again ok' regions entries _ Hentries).
    + intros e He. split.
      * apply (Permutation_in _ (Permutation_sym Hall)). now apply in_map.
      * intros d' Hd' Hid. apply (byKey_unique _ _ _ Hord); [|exact Hd'|exact Hid].
        apply (Permutation_in _ (Permutation_sym Hall)). now apply in_map.
    + intros j Hj. now apply Hok.
  - rewrite (Permutation_length Hall), length_map.
    exact (mapM_entry_length regions entries Hentries).
Qed.

Lemma upload_is_complete_and_repeatable_witness :
  let regions := [Spec.toDoc Sample.volta; Spec.toDoc Sample.ashanti;
                  Spec.toDoc Sample.accra] in
  let entries :=
    map (fun R => (Spec.name R, map Spec.toObj (Spec.records R)))
        [Sample.volta; Sample.ashanti; Sample.accra] in
  let result := Seed.uploadDataToFirestore (fun _ => true) regions [] in
  (mapM Seed.entry regions = Some entries
   /\ NoDup (map fst entries)
   /\ map fst entries = ["Volta"; "Ashanti"; "Greater Accra"]
   /\ map Firestore.id (fst result) = ["Ashanti"; "Greater Accra"; "Volta"]
   /\ fst result = Sample.store)
  /\ snd result = true
  /\ Permutation (fst result) (map Seed.document entries)
  /\ Seed.byKey (fst result)
  /\ Seed.uploadDataToFirestore (fun _ => true) regions (fst result) = (fst result, true)
  /\ length (fst result) = length regions.
Proof.
  intros regions entries result.
  assert (H1 : mapM Seed.entry regions = Some entries) by compute_done.
  assert (H2 : NoDup (map fst entries)) by compute_done.
  assert (H3 : forall i, (i < length regions)%nat ->
                         (fun _ : nat => true) i = true /\ (fun _ : nat => true) i = true)
    by (intros; split; reflexivity).
  split; [split; [exact H1|split; [exact H2|split; [|split]; compute_done]]|].
  exact (upload_is_complete_and_repeatable (fun _ => true) (fun _ => true) regions entries
           H1 H2 H3).
Defined.

Section Interrupted.

Lemma uploadFrom_stops (ok : nat -> bool) (regions : list RegionObj) (n : nat) :
  forall (i : nat) (store : Firestore.Store),
    (forall j region, (j < n)%nat -> regions !! j = Some region ->
                      Seed.round region <> Seed.Throws /\ ok (i + j)%nat = true) ->
    (exists region, regions !! n = Some region
                    /\ (Seed.round region = Seed.Throws \/ ok (i + n)%nat = false)) ->
    Seed.uploadFrom ok i regions store
    = (fst (Seed.uploadFrom ok i (take n regions) store), false)
    /\ snd (Seed.uploadFrom ok i (take n regions) store) = true.
Proof.
  revert regions. induction n as [|n IH]; intros regions i store Hbefore Hstop.
  - destruct Hstop as (region & Hn & Hfail).
    destruct regions as [|r rest]; [discriminate|]. injection Hn as ->.
    cbn [take Seed.uploadFrom fst snd]. rewrite Nat.add_0_r in Hfail.
    destruct Hfail as [->| Hok]; [now split|].
    destruct (Seed.round region); rewrite ?Hok; now split.
  - destruct Hstop as (region & Hn & Hfail).
    destruct regions as [|r rest]; [discriminate|]. cbn in Hn.
    cbn [take Seed.uploadFrom].
    destruct (Hbefore 0%nat r ltac:(lia) eq_refl) as [Hround Hok].
    rewrite Nat.add_0_r in Hok. rewrite Hok.
    destruct (Seed.round r) as [|target data]; [contradiction|].
    apply IH.
    + intros j region' Hj Hregion'.
      replace (S i + j)%nat with (i + S j)%nat by lia.
      apply (Hbefore (S j) region'); [lia|exact Hregion'].
    + exists region. split; [exact Hn|].
      now replace (S i + n)%nat with (i + S n)%nat by lia.
Qed.

End Interrupted.

(** X16. An interrupted upload.  When the round of the [n]-th region
    throws — its name is no string or a path that [doc] refuses, or it has
    no [yearlyData] — or its write is refused, while the rounds before it
    went through, the script stops there: the collection holds what the
    upload of the first [n] regions alone leaves in it, nothing of the
    [n]-th or any later region is written, nothing is rolled back, and
    success is not reported. *)
Theorem upload_stops_at_first_failure (ok : nat -> bool) (regions : list RegionObj)
    (store : Firestore.Store) (n : nat) (region : RegionObj) :
  regions !! n = Some region ->
  Seed.round region = Seed.Throws \/ ok n = false ->
  (forall j r, (j < n)%nat -> regions !! j = Some r ->
               Seed.round r <> Seed.Throws /\ ok j = true) ->
  Seed.uploadDataToFirestore ok regions store
  = (fst (Seed.uploadDataToFirestore ok (take n regions) store), false)
  /\ snd (Seed.uploadDataToFirestore ok (take n regions) store) = true.
Proof.
  intros Hn Hfail Hbefore. unfold Seed.uploadDataToFirestore.
  apply uploadFrom_stops.
  - exact Hbefore.
  - exists region. split; [exact Hn|exact Hfail].
Qed.

Lemma upload_stops_at_first_failure_witness :
  let regions := [Spec.toDoc Sample.volta; Cases.named "Brong/Ahafo";
                  Spec.toDoc Sample.ashanti] in
  (regions !! 1%nat = Some (Cases.named "Brong/Ahafo")
   /\ Seed.round (Cases.named "Brong/Ahafo") = Seed.Throws
   /\ map Firestore.id (fst (Seed.uploadDataToFirestore (fun _ => true) regions []))
      = ["Volta"]
   /\ map Firestore.id (fst (Seed.uploadDataToFirestore (fun _ => true) Cases.dataFile []))
      = ["Ashanti"; "Volta"]
   /\ snd (Seed.uploadDataToFirestore (fun _ => true) Cases.dataFile []) = false)
  /\ Seed.uploadDataToFirestore (fun _ => true) regions []
     = (fst (Seed.uploadDataToFirestore (fun _ => true) (take 1 regions) []), false)
  /\ snd (Seed.uploadDataToFirestore (fun _ => true) (take 1 regions) []) = true.
Proof.
  intros regions.
  assert (Hn : regions !! 1%nat = Some (Cases.named "Brong/Ahafo")) by reflexivity.
  assert (Hfail : Seed.round (Cases.named "Brong/Ahafo") = Seed.Throws
                  \/ (fun _ : nat => true) 1%nat = false)
    by (left; compute_done).
  assert (Hbefore : forall j r, (j < 1)%nat -> regions !! j = Some r ->
                                Seed.round r <> Seed.Throws
                                /\ (fun _ : nat => true) j = true).
  { intros [|j] r Hj Hr; [|lia]. injection Hr as <-.
    split; [|reflexivity].
    now rewrite (entry_round (Spec.toDoc Sample.volta)
                   ("Volta", map Spec.toObj (Spec.records Sample.volta)) eq_refl). }
  split; [split; [exact Hn|split; [|split; [|split]]; compute_done]|].
  exact (upload_stops_at_first_failure (fun _ => true) regions [] 1
           (Cases.named "Brong/Ahafo") Hn Hfail Hbefore).
Defined.

(* ===================================================================== *)
(** * Typing into a cell of the Dashboard *)
(* ===================================================================== *)

Section Overlay.

Lemma length_append (a b : string) :
  String.length (a +:+ b) = (String.length a + String.length b)%nat.
Proof.
  induction a as [|c a IH]; [reflexivity|].
  change (String c a +:+ b) with (String c (a +:+ b)). cbn [String.length].
  now rewrite IH.
Qed.

Lemma append_inv_tail (a b t : string) : a +:+ t = b +:+ t -> a = b.
Proof.
  revert b. induction a as [|c a IH]; intros [|c' b] H.
  - reflexivity.
  - apply (f_equal String.length) in H. rewrite !length_append in H.
    cbn [String.length] in H. lia.
  - apply (f_equal String.length) in H. rewrite !length_append in H.
    cbn [String.length] in H. lia.
  - change (String c (a +:+ t) = String c' (b +:+ t)) in H.
    injection H as -> H. f_equal. now apply IH.
Qed.

(** Regions with different names have different keys in [editedData]. *)
Lemma editKey_inj (a b : string) (y : number) :
  Dashboard.editKey (Str a) y = Dashboard.editKey (Str b) y -> a = b.
Proof. unfold Dashboard.editKey. cbn [JS.toString]. apply append_inv_tail. Qed.

Lemma mapE_lookup {A B : Type} (f : A -> option B) (l : list A) (r : list B)
    (j : nat) (x : A) :
  mapE f l = Some r -> l !! j = Some x -> exists y, f x = Some y /\ r !! j = Some y.
Proof.
  revert r j. induction l as [|z l IH]; intros r j; [discriminate|]. cbn [mapE].
  destruct (f z) as [y|] eqn:Hz; [|discriminate].
  destruct (mapE f l) as [t|]; [|discriminate].
  intros [= <-]. destruct j as [|j]; cbn.
  - intros [= <-]. now exists y.
  - now apply IH.
Qed.

Lemma mapE_pointwise {A B : Type} (f g : A -> option B) (R : A -> B -> B -> Prop)
    (l : list A) (r : list B) :
  (forall x y, In x l -> f x = Some y -> exists y', g x = Some y' /\ R x y y') ->
  mapE f l = Some r ->
  exists r', mapE g l = Some r'
             /\ forall j x y, l !! j = Some x -> r !! j = Some y ->
                              exists y', r' !! j = Some y' /\ R x y y'.
Proof.
  revert r. induction l as [|z l IH]; intros r Hfg; cbn [mapE].
  - intros [= <-]. exists []. split; [reflexivity|]. intros j x y Hx. discriminate.
  - destruct (f z) as [y|] eqn:Hz; [|discriminate].
    destruct (mapE f l) as [t|]; [|discriminate].
    intros [= <-].
    destruct (Hfg z y (or_introl eq_refl) Hz) as (y' & -> & HR).
    destruct (IH t (fun x y Hx => Hfg x y (or_intror Hx)) eq_refl) as (t' & -> & Ht').
    exists (y' :: t'). split; [reflexivity|].
    intros [|j] x0 y0; cbn.
    + intros [= <-] [= <-]. now exists y'.
    + apply Ht'.
Qed.

End Overlay.

(** X17. What typing into a cell shows.  Let the table show what was
    fetched, every document being stored under the name of its region and
    no two under the same key.  After [handleEditChange(row, field, value)]
    on the row of a document and the fetch that the change of [editedData]
    triggers, that row shows the parsed value in the field and is otherwise
    what it was, and every other row is what it was: a pending edit shows in
    the row of its region and nowhere else. *)
Theorem typing_shows_in_its_row (store : Firestore.Store) (st : Dashboard.State)
    (i : nat) (d : Firestore.Doc) (row : Obj) (field value : string) :
  Forall storedUnderName store ->
  NoDup (map Firestore.id store) ->
  Dashboard.regionalMetricsOf (Dashboard.editedData st) (Dashboard.selectedYear st)
    (map Firestore.data store)
  = Some (Dashboard.regionalMetrics (Dashboard.metrics st)) ->
  store !! i = Some d ->
  Dashboard.regionalMetrics (Dashboard.metrics st) !! i = Some row ->
  JS.get row "region" = Str (Firestore.id d) ->
  let st' :=
    Dashboard.fetchRegions Firestore.online store
      (Dashboard.handleEditChange row field value st) in
  Dashboard.error st' = None
  /\ (exists row',
         Dashboard.regionalMetrics (Dashboard.metrics st') !! i = Some row'
         /\ JS.get row' field = Dashboard.parsedValue field value
         /\ forall k, k <> field -> JS.get row' k = JS.get row k)
  /\ forall j, j <> i ->
               Dashboard.regionalMetrics (Dashboard.metrics st') !! j
               = Dashboard.regionalMetrics (Dashboard.metrics st) !! j.
Proof.
  intros Hstored Hnodup Hsync Hd Hrow Hname st'. subst st'.
  unfold Dashboard.fetchRegions, Dashboard.handleEditChange, Firestore.getDocs.
  cbn [Firestore.online Firestore.getDocs_ok Dashboard.editedData Dashboard.selectedYear].
  rewrite Hname.
  set (y := Dashboard.selectedYear st) in *.
  set (ed := Dashboard.editedData st) in *.
  set (key := Dashboard.editKey (Str (Firestore.id d)) y).
  set (edit := JS.set (default ∅ (ed !! key)) field (Dashboard.parsedValue field value)).
  set (rows := Dashboard.regionalMetrics (Dashboard.metrics st)) in *.
  pose (R := fun (region : RegionObj) (r r' : Obj) =>
               if JS.strictEq (JS.get (props region) "region") (Str (Firestore.id d))
               then JS.get r' field = Dashboard.parsedValue field value
                    /\ forall k, k <> field -> JS.get r' k = JS.get r k
               else r' = r).
  assert (Hpw : forall region r, In region (map Firestore.data store) ->
                                 fetchedRow ed y region = Some r ->
                                 exists r', fetchedRow (<[key := edit]> ed) y region = Some r'
                                            /\ R region r r').
  { intros region r Hin Hr. apply in_map_iff in Hin. destruct Hin as (z & <- & Hz).
    rewrite List.Forall_forall in Hstored. pose proof (Hstored z Hz) as Hzname.
    unfold storedUnderName in Hzname. unfold fetchedRow in *. subst R. cbn beta.
    destruct (yearDataOf y (Firestore.data z)) as [yearData|]; [|discriminate].
    cbv zeta in *. injection Hr as <-. rewrite Hzname. cbn [JS.strictEq].
    eexists. split; [reflexivity|].
    destruct (String.eqb_spec (Firestore.id z) (Firestore.id d)) as [Hid|Hid].
    - rewrite Hid. fold key. rewrite lookup_insert_eq. cbn [default].
      subst edit. unfold JS.get, JS.spread, JS.set. cbv [id]. split.
      + rewrite lookup_union, lookup_insert_eq. cbn.
        now destruct ((yearData ∪ {["region" := Str (Firestore.id d)]}) !! field).
      + intros k Hk. rewrite !(lookup_union _ _ k).
        now rewrite lookup_insert_ne by congruence.
    - rewrite lookup_insert_ne; [reflexivity|].
      subst key. intros Hkey. apply editKey_inj in Hkey. congruence. }
  destruct (mapE_pointwise (fetchedRow ed y) (fetchedRow (<[key := edit]> ed) y) R
              (map Firestore.data store) rows Hpw Hsync) as (rows' & Hrows' & Hpoint).
  unfold Dashboard.regionalMetricsOf. unfold fetchedRow in Hrows'. rewrite Hrows'.
  cbn [Dashboard.error Dashboard.metrics Dashboard.computeMetrics
       Dashboard.regionalMetrics].
  assert (Hlen : length rows' = length rows).
  { apply mapE_length in Hrows'. apply mapE_length in Hsync. congruence. }
  split; [reflexivity|]. split.
  - destruct (Hpoint i (Firestore.data d) row) as (row' & Hrow' & HR).
    { rewrite list_lookup_fmap, Hd. reflexivity. }
    { exact Hrow. }
    exists row'. split; [exact Hrow'|]. subst R. cbn beta in HR.
    pose proof (Forall_lookup_1 _ _ _ _ Hstored Hd) as Hdn.
    unfold storedUnderName in Hdn. rewrite Hdn in HR. cbn [JS.strictEq] in HR.
    now rewrite String.eqb_refl in HR.
  - intros j Hj.
    destruct (rows !! j) as [r|] eqn:Hr.
    + assert (Hlt : (j < length store)%nat).
      { apply lookup_lt_Some in Hr. apply mapE_length in Hsync.
        rewrite length_map in Hsync. fold rows in Hsync. lia. }
      destruct (lookup_lt_is_Some_2 store j Hlt) as [z Hz].
      destruct (Hpoint j (Firestore.data z) r) as (r' & Hr' & HR).
      { rewrite list_lookup_fmap, Hz. reflexivity. }
      { exact Hr. }
      rewrite Hr'. f_equal. subst R. cbn beta in HR.
      pose proof (Forall_lookup_1 _ _ _ _ Hstored Hz) as Hzn.
      unfold storedUnderName in Hzn. rewrite Hzn in HR. cbn [JS.strictEq] in HR.
      destruct (String.eqb_spec (Firestore.id z) (Firestore.id d)) as [Hid|Hid];
        [|exact HR].
      exfalso. apply Hj.
      apply (NoDup_lookup (map Firestore.id store) j i (Firestore.id d)).
      * exact Hnodup.
      * rewrite list_lookup_fmap, Hz. cbn. now rewrite Hid.
      * rewrite list_lookup_fmap, Hd. reflexivity.
    + apply lookup_ge_None in Hr. apply lookup_ge_None. lia.
Qed.

Lemma typing_shows_in_its_row_witness :
  let st := Sample.dashboard1 in
  let st' :=
    Dashboard.fetchRegions Firestore.online Sample.store
      (Dashboard.handleEditChange Sample.ashantiRow "taxpayers" "1,300" st) in
  (Sample.store !! 0%nat = Some Sample.ashantiDoc
   /\ Dashboard.regionalMetrics (Dashboard.metrics st) !! 0%nat = Some Sample.ashantiRow
   /\ Dashboard.parsedValue "taxpayers" "1,300" = Num (JS.of_Z 1300))
  /\ Dashboard.error st' = None
  /\ (exists row',
         Dashboard.regionalMetrics (Dashboard.metrics st') !! 0%nat = Some row'
         /\ JS.get row' "taxpayers" = Dashboard.parsedValue "taxpayers" "1,300"
         /\ forall k, k <> "taxpayers" -> JS.get row' k = JS.get Sample.ashantiRow k)
  /\ forall j, j <> 0%nat ->
               Dashboard.regionalMetrics (Dashboard.metrics st') !! j
               = Dashboard.regionalMetrics (Dashboard.metrics st) !! j.
Proof.
  intros st st'.
  assert (Hstored : Forall storedUnderName Sample.store)
    by (unfold storedUnderName; compute_done).
  assert (Hnodup : NoDup (map Firestore.id Sample.store))
    by compute_done.
  assert (Hsync : Dashboard.regionalMetricsOf (Dashboard.editedData st)
                    (Dashboard.selectedYear st) (map Firestore.data Sample.store)
                  = Some (Dashboard.regionalMetrics (Dashboard.metrics st)))
    by compute_done.
  assert (Hd : Sample.store !! 0%nat = Some Sample.ashantiDoc) by reflexivity.
  assert (Hrow : Dashboard.regionalMetrics (Dashboard.metrics st) !! 0%nat
                 = Some Sample.ashantiRow) by compute_done.
  assert (Hname : JS.get Sample.ashantiRow "region" = Str (Firestore.id Sample.ashantiDoc))
    by compute_done.
  split; [split; [exact Hd|split; [exact Hrow|compute_done]]|].
  exact (typing_shows_in_its_row Sample.store st 0 Sample.ashantiDoc Sample.ashantiRow
           "taxpayers" "1,300" Hstored Hnodup Hsync Hd Hrow Hname).
Defined.
